(** * rulesync: the adapter / registry / orchestration engine

    A shallow embedding of the TypeScript sources

      - [features/rules/rules-processor.ts]   (the File Processor for rules),
      - [features/skills/skills-processor.ts] (the Directory Processor),
      - [features/skills/codexcli-simulated-skill.ts],
      - [config/config.ts] and [config/config-resolver.ts],

    followed by the properties of the specification that concern them.

    Conventions of the embedding.

      - A JavaScript exception (and a rejected promise) is the [Err] case of
        [result]; [throw new Error(msg)] is [Err (mkError msg)].
      - Code that writes to the process-wide logger runs in [Logged], a
        writer over the list of log entries on top of [result].
      - A synchronous [xs.map (f)] whose callback may throw is [mapM f xs]:
        it stops at the first element, in the order of [xs], that throws.
      - [await Promise.all (xs.map (f))] for an asynchronous [f] is
        [promiseAll]: the values come back in the order of [xs] when every
        promise fulfils; otherwise the whole rejects with the rejection that
        settles first, which the event loop decides and the model takes from
        the environment ([settlesFirst]).
      - An optional value ([T | undefined]) is [option T]; [a ?? b] is
        [nullish a b].
      - Collaborators whose sources are outside this development (node:path,
        the file-system layer, the TOON encoder, the per-tool adapter classes)
        are fields of the record [Externals]; every definition takes it as a
        parameter and every theorem quantifies over it. *)

From Stdlib Require Import String Ascii List Bool Arith Lia DecimalString.
Import ListNotations.
Open Scope list_scope.
Open Scope string_scope.

Set Implicit Arguments.

(** ** Errors, results and the logger *)

Record Error := mkError { message : string }.

Inductive result (A : Type) : Type :=
| Ok (a : A)
| Err (e : Error).

Arguments Ok {A} a.
Arguments Err {A} e.

Definition bind {A B} (m : result A) (f : A -> result B) : result B :=
  match m with
  | Ok a => f a
  | Err e => Err e
  end.

Definition isOk {A} (m : result A) : bool :=
  match m with Ok _ => true | Err _ => false end.

Declare Scope result_scope.
Delimit Scope result_scope with result.
Notation "x <- m ;; k" := (bind m (fun x => k))
  (at level 61, m at next level, right associativity) : result_scope.

Fixpoint mapM {A B} (f : A -> result B) (xs : list A) : result (list B) :=
  match xs with
  | [] => Ok []
  | x :: rest =>
      bind (f x) (fun y => bind (mapM f rest) (fun ys => Ok (y :: ys)))
  end.

(** The rejections among the promises [xs.map (f)], in the order of [xs]. *)
Fixpoint rejections {A B} (f : A -> result B) (xs : list A) : list Error :=
  match xs with
  | [] => []
  | x :: rest =>
      match f x with
      | Ok _ => rejections f rest
      | Err e => e :: rejections f rest
      end
  end.

(** [await Promise.all (xs.map (f))]: every promise is started; the result is
    the array of the values when all fulfil, and otherwise the rejection that
    settles first, at the position [settlesFirst] names among the rejections
    (the first one in the order of the array when it names none). *)
Definition promiseAll {A B} (settlesFirst : list Error -> nat)
  (f : A -> result B) (xs : list A) : result (list B) :=
  match mapM f xs with
  | Ok ys => Ok ys
  | Err inOrder =>
      let rejected := rejections f xs in
      Err (nth (settlesFirst rejected) rejected inOrder)
  end.

Inductive LogLevel := Debug | Info | Warn | ErrorLevel.

Definition LogEntry : Type := LogLevel * string.

(** The log written so far, and the outcome. *)
Definition Logged (A : Type) : Type := list LogEntry * result A.

Definition ret {A} (a : A) : Logged A := ([], Ok a).

Definition throw {A} (e : Error) : Logged A := ([], Err e).

Definition lift {A} (m : result A) : Logged A := ([], m).

Definition log (lvl : LogLevel) (msg : string) : Logged unit :=
  ([(lvl, msg)], Ok tt).

Definition bindL {A B} (m : Logged A) (f : A -> Logged B) : Logged B :=
  match m with
  | (l1, Ok a) => let (l2, r) := f a in ((l1 ++ l2)%list, r)
  | (l1, Err e) => (l1, Err e)
  end.

(** [try { m } catch (error) { h error }] *)
Definition tryCatch {A} (m : Logged A) (h : Error -> Logged A) : Logged A :=
  match m with
  | (l1, Ok a) => (l1, Ok a)
  | (l1, Err e) => let (l2, r) := h e in ((l1 ++ l2)%list, r)
  end.

Definition logOf {A} (m : Logged A) : list LogEntry := fst m.
Definition outcome {A} (m : Logged A) : result A := snd m.

Declare Scope logged_scope.
Delimit Scope logged_scope with logged.
Notation "x <- m ;; k" := (bindL m (fun x => k))
  (at level 61, m at next level, right associativity) : logged_scope.
Notation "m ;;; k" := (bindL m (fun _ => k))
  (at level 61, right associativity) : logged_scope.

(** ** JavaScript helpers *)

Definition nl : string := String "010"%char EmptyString.
Definition dquote : string := String "034"%char EmptyString.

(** [a ?? b] *)
Definition nullish {A} (a : option A) (b : A) : A :=
  match a with Some x => x | None => b end.

(** [a ?? b] where [b] may itself be undefined *)
Definition orElse {A} (a b : option A) : option A :=
  match a with Some x => Some x | None => b end.

(** [xs.includes(x)] on an array of strings *)
Definition includes (x : string) (xs : list string) : bool :=
  existsb (String.eqb x) xs.

(** [xs.join(sep)] *)
Definition join (sep : string) (xs : list string) : string :=
  String.concat sep xs.

(** [xs.findIndex(p)], with [None] for -1 *)
Fixpoint findIndex {A} (p : A -> bool) (xs : list A) : option nat :=
  match xs with
  | [] => None
  | x :: rest =>
      if p x then Some 0
      else match findIndex p rest with
           | Some i => Some (S i)
           | None => None
           end
  end.

(** [xs[i] = v] for an index inside the array *)
Fixpoint setAt {A} (i : nat) (v : A) (xs : list A) : list A :=
  match xs, i with
  | [], _ => []
  | _ :: rest, 0 => v :: rest
  | x :: rest, S j => x :: setAt j v rest
  end.

(** A number inside a template literal *)
Definition showNat (n : nat) : string :=
  NilEmpty.string_of_uint (Nat.to_uint n).

(** [s.replace] of every double quote by a backslash and a double quote *)
Fixpoint escapeQuotes (s : string) : string :=
  match s with
  | EmptyString => EmptyString
  | String c rest =>
      if Ascii.eqb c "034"%char
      then String "092"%char (String "034"%char (escapeQuotes rest))
      else String c (escapeQuotes rest)
  end.

(** [hay.includes(needle)] on strings *)
Fixpoint containsStr (needle hay : string) : bool :=
  if String.prefix needle hay then true
  else match hay with
       | EmptyString => false
       | String _ rest => containsStr needle rest
       end.

(** ** Canonical documents *)

Module RulesyncRule.

(** The frontmatter of a canonical rule; every key is optional in the file. *)
Record Frontmatter := {
  root : option bool;
  targets : option (list string);
  description : option string;
  globs : option (list string)
}.

Record t := {
  relativeFilePath : string;
  frontmatter : Frontmatter;
  body : string
}.

Definition getFrontmatter (r : t) : Frontmatter := frontmatter r.

(** Truthiness of [rule.getFrontmatter().root] *)
Definition isRoot (r : t) : bool :=
  match root (frontmatter r) with Some b => b | None => false end.

End RulesyncRule.

Module RulesyncSkill.

Record Frontmatter := {
  name : string;
  description : string;
  targets : option (list string)
}.

Record t := {
  dirName : string;
  frontmatter : Frontmatter;
  body : string
}.

Definition getFrontmatter (s : t) : Frontmatter := frontmatter s.

End RulesyncSkill.

(** Modelled from the spec: the shared targeting test
    ([isTargetedByRulesyncRuleDefault] / [isTargetedByRulesyncSkillDefault] of
    the adapter base classes, whose sources are missing).  The spec: a
    document's [targets] is an array of tool identifiers or the wildcard, an
    absent [targets] means all tools, and [isTargetedBy] is true if the
    document's targets includes the wildcard or this tool's identifier. *)
Definition targetsOf (declared : option (list string)) : list string :=
  nullish declared ["*"].

Definition isTargetedByDefault (declared : option (list string))
  (toolTarget : string) : bool :=
  includes "*" (targetsOf declared) || includes toolTarget (targetsOf declared).

(** The test on a canonical skill and on a canonical rule. *)
Definition skillTargetedBy (toolTarget : string) (s : RulesyncSkill.t) : bool :=
  isTargetedByDefault (RulesyncSkill.targets (RulesyncSkill.getFrontmatter s))
    toolTarget.

Definition ruleTargetedBy (toolTarget : string) (r : RulesyncRule.t) : bool :=
  isTargetedByDefault (RulesyncRule.targets (RulesyncRule.getFrontmatter r))
    toolTarget.

(** ** Tool documents *)

Module ToolRule.

(** Modelled from the spec: the state of a tool rule document that the
    processor reads through [isRoot], [getFileContent],
    [getRelativePathFromCwd], [getDescription] and [getGlobs], and writes
    through [setFileContent] (tool-rule.ts and tool-file.ts are missing):
    a tool document owns its path, its frontmatter values and its body. *)
Record t := {
  relativePathFromCwd : string;
  fileContent : string;
  root : bool;
  description : option string;
  globs : option (list string)
}.

Definition isRoot (r : t) : bool := root r.
Definition getFileContent (r : t) : string := fileContent r.
Definition getRelativePathFromCwd (r : t) : string := relativePathFromCwd r.
Definition getDescription (r : t) : option string := description r.
Definition getGlobs (r : t) : option (list string) := globs r.

Definition setFileContent (content : string) (r : t) : t :=
  {| relativePathFromCwd := relativePathFromCwd r;
     fileContent := content;
     root := root r;
     description := description r;
     globs := globs r |}.

End ToolRule.

Module ToolSkill.

(** [simulated] is [this instanceof SimulatedSkill]. *)
Record t := {
  baseDir : string;
  relativeDirPath : string;
  dirName : string;
  name : string;
  description : string;
  body : string;
  simulated : bool
}.

End ToolSkill.

(** Elements of the arrays handed to the processors; the processors keep the
    instances of their own document class and drop the rest. *)
Inductive RulesyncFile :=
| RulesyncRuleFile (r : RulesyncRule.t)
| OtherRulesyncFile (path : string).

Inductive ToolFile :=
| ToolRuleFile (r : ToolRule.t)
| OtherToolFile (path : string).

Inductive AiDir :=
| RulesyncSkillDir (s : RulesyncSkill.t)
| ToolSkillDir (s : ToolSkill.t)
| OtherDir (path : string).

(** ** The adapter contract *)

Record ToolRuleFromRulesyncRuleParams := {
  frr_baseDir : string;
  frr_rulesyncRule : RulesyncRule.t;
  frr_validate : bool;
  frr_global : bool
}.

Record ToolRuleFromFileParams := {
  ff_baseDir : string;
  ff_relativeFilePath : string;
  ff_global : bool
}.

Record RootPath := {
  rootRelativeDirPath : option string;
  rootRelativeFilePath : string
}.

Record NonRootPath := { nonRootRelativeDirPath : string }.

Record ToolRuleSettablePaths := {
  rootPath : option RootPath;
  nonRootPath : option NonRootPath
}.

Inductive Extension := md | mdc.

Definition extensionName (e : Extension) : string :=
  match e with md => "md" | mdc => "mdc" end.

Record ToolRuleClass := {
  isTargetedByRulesyncRule : RulesyncRule.t -> bool;
  fromRulesyncRule : ToolRuleFromRulesyncRuleParams -> result ToolRule.t;
  fromFile : ToolRuleFromFileParams -> result ToolRule.t;
  getSettablePaths : bool -> result ToolRuleSettablePaths
}.

Record ToolRuleFactory := {
  ruleClass : ToolRuleClass;
  extension : Extension
}.

Record ToolSkillFromRulesyncSkillParams := {
  frs_rulesyncSkill : RulesyncSkill.t;
  frs_global : bool
}.

Record ToolSkillFromDirParams := {
  fd_baseDir : string;
  fd_dirName : string;
  fd_global : bool
}.

Record ToolSkillSettablePaths := { skillsRelativeDirPath : string }.

Record ToolSkillClass := {
  isTargetedByRulesyncSkill : RulesyncSkill.t -> bool;
  fromRulesyncSkill : ToolSkillFromRulesyncSkillParams -> result ToolSkill.t;
  fromDir : ToolSkillFromDirParams -> result ToolSkill.t;
  getSkillSettablePaths : option bool -> result ToolSkillSettablePaths
}.

Record SkillMeta := {
  supportsProject : bool;
  supportsSimulated : bool;
  supportsGlobal : bool
}.

Record ToolSkillFactory := {
  skillClass : ToolSkillClass;
  projectClass : option ToolSkillClass;
  skillMeta : SkillMeta
}.

Record ResolvedToolSkillFactory := {
  resolvedClass : ToolSkillClass;
  resolvedMeta : SkillMeta
}.

(** ** Collaborators outside this development *)

(** One record of the TOON document given to [encode]. *)
Record ToonRule := {
  toonPath : string;
  toonDescription : option string;
  toonApplyTo : option (list string)
}.

Record CursorRuleParams := {
  cr_baseDir : string;
  cr_alwaysApply : bool;
  cr_body : string;
  cr_relativeDirPath : string;
  cr_relativeFilePath : string;
  cr_validate : bool
}.

Record RooRuleParams := {
  rr_baseDir : string;
  rr_relativeDirPath : string;
  rr_relativeFilePath : string;
  rr_fileContent : string;
  rr_validate : bool
}.

(** The adapter classes named by the two registries. *)
Inductive RuleClassName :=
| AgentsMdRule | AmazonQCliRule | AntigravityRule | AugmentcodeRule
| AugmentcodeLegacyRule | ClaudecodeRule | ClineRule | CodexcliRule
| CopilotRule | CursorRule | GeminiCliRule | JunieRule | KiroRule
| OpenCodeRule | QwencodeRule | RooRule | WarpRule | WindsurfRule.

Inductive NativeSkillClassName :=
| AgentsmdSkill | ClaudecodeSkill | CodexCliSkill | CopilotSkill
| CursorSkill | GeminiCliSkill.

Record SimulatedSkillParams := {
  ssp_baseDir : string;
  ssp_relativeDirPath : string;
  ssp_dirName : string;
  ssp_name : string;
  ssp_description : string;
  ssp_body : string;
  ssp_validate : option bool
}.

Record Externals := {
  (* process.cwd() *)
  cwd : string;
  (* the event loop: among the rejections of the promises given to one
     Promise.all, in the order of the array, the position of the one that
     settles first *)
  settlesFirst : list Error -> nat;
  (* zod/mini: the error of a failed safeParse of a tool target *)
  targetSchemaError : string -> Error;
  (* node:path *)
  pathJoin : list string -> string;
  basename : string -> string;
  (* utils/file.ts; the flag asks for directories instead of files *)
  findFilesByGlobs : string -> bool -> result (list string);
  (* utils/error.ts *)
  formatError : Error -> string;
  (* constants/rulesync-paths.ts *)
  RULESYNC_RELATIVE_DIR_PATH : string;
  RULESYNC_RULES_RELATIVE_DIR_PATH : string;
  RULESYNC_COMMANDS_RELATIVE_DIR_PATH : string;
  RULESYNC_SUBAGENTS_RELATIVE_DIR_PATH : string;
  RULESYNC_SKILLS_RELATIVE_DIR_PATH : string;
  (* @toon-format/toon: encode({ rules }) *)
  encode : list ToonRule -> string;
  (* rulesync-rule.ts, rulesync-skill.ts *)
  RulesyncRule_fromFile : string -> result RulesyncRule.t;
  RulesyncRule_fromFileLegacy : string -> result RulesyncRule.t;
  RulesyncSkill_relativeDirPath : string;
  RulesyncSkill_fromDir : string -> string -> bool -> result RulesyncSkill.t;
  (* the rule adapters and the instance methods of their documents *)
  RuleClass_fromRulesyncRule :
    RuleClassName -> ToolRuleFromRulesyncRuleParams -> result ToolRule.t;
  RuleClass_fromFile :
    RuleClassName -> ToolRuleFromFileParams -> result ToolRule.t;
  RuleClass_getSettablePaths :
    RuleClassName -> bool -> result ToolRuleSettablePaths;
  toRulesyncRule : ToolRule.t -> result RulesyncRule.t;
  newCursorRule : CursorRuleParams -> ToolRule.t;
  newRooRule : RooRuleParams -> ToolRule.t;
  CursorRule_nonRootRelativeDirPath : string;
  RooRule_nonRootRelativeDirPath : string;
  (* the skill adapters and the base classes of their documents *)
  SkillClass_fromRulesyncSkill :
    NativeSkillClassName -> ToolSkillFromRulesyncSkillParams
    -> result ToolSkill.t;
  SkillClass_fromDir :
    NativeSkillClassName -> ToolSkillFromDirParams -> result ToolSkill.t;
  SkillClass_getSettablePaths :
    NativeSkillClassName -> option bool -> result ToolSkillSettablePaths;
  SimulatedSkill_validate : SimulatedSkillParams -> result unit;
  nativeToRulesyncSkill : ToolSkill.t -> result RulesyncSkill.t;
  getDirPath : ToolSkill.t -> string;
  fromDirDefault : ToolSkillFromDirParams -> result SimulatedSkillParams;
  fromRulesyncSkillDefault :
    ToolSkillFromRulesyncSkillParams -> result SimulatedSkillParams;
  (* getSettablePaths().relativeDirPath of the command, subagent and skill
     adapters that the rules processor consults *)
  AgentsmdCommand_relativeDirPath : string;
  AgentsmdSubagent_relativeDirPath : string;
  CodexCliSubagent_relativeDirPath : string;
  CodexCliSkill_globalRelativeDirPath : string;
  CopilotCommand_relativeDirPath : string;
  CopilotSubagent_relativeDirPath : string;
  CopilotSkill_relativeDirPath : string;
  CursorCommand_relativeDirPath : string;
  CursorSubagent_relativeDirPath : string;
  CursorSkill_relativeDirPath : string;
  GeminiCliCommand_relativeDirPath : string;
  GeminiCliSubagent_relativeDirPath : string;
  RooCommand_relativeDirPath : string;
  RooSubagent_relativeDirPath : string;
  (* commands-processor.ts, subagents-processor.ts *)
  CommandsProcessor_getToolTargetsSimulated : list string;
  SubagentsProcessor_getToolTargetsSimulated : list string
}.

(** ** The adapter classes *)

(** The tool identifier of an adapter class: the key under which the
    registries below register it. *)
Definition ruleClassTarget (c : RuleClassName) : string :=
  match c with
  | AgentsMdRule => "agentsmd" | AmazonQCliRule => "amazonqcli"
  | AntigravityRule => "antigravity" | AugmentcodeRule => "augmentcode"
  | AugmentcodeLegacyRule => "augmentcode-legacy"
  | ClaudecodeRule => "claudecode" | ClineRule => "cline"
  | CodexcliRule => "codexcli" | CopilotRule => "copilot"
  | CursorRule => "cursor" | GeminiCliRule => "geminicli"
  | JunieRule => "junie" | KiroRule => "kiro" | OpenCodeRule => "opencode"
  | QwencodeRule => "qwencode" | RooRule => "roo" | WarpRule => "warp"
  | WindsurfRule => "windsurf"
  end.

Definition skillClassTarget (c : NativeSkillClassName) : string :=
  match c with
  | AgentsmdSkill => "agentsmd" | ClaudecodeSkill => "claudecode"
  | CodexCliSkill => "codexcli" | CopilotSkill => "copilot"
  | CursorSkill => "cursor" | GeminiCliSkill => "geminicli"
  end.

(** Modelled from the spec: the targeting test of the rule adapter classes
    (agentsmd-rule.ts, cursor-rule.ts and the other adapter sources are
    missing).  The spec: each tool document variant knows how to target-test
    a canonical document, and [isTargetedBy] is true if the document's
    targets includes the wildcard or this tool's identifier.  The other three
    static methods of the class stay with the environment. *)
Definition ruleClassImpl (E : Externals) (c : RuleClassName) : ToolRuleClass :=
  {| isTargetedByRulesyncRule := ruleTargetedBy (ruleClassTarget c);
     fromRulesyncRule := RuleClass_fromRulesyncRule E c;
     fromFile := RuleClass_fromFile E c;
     getSettablePaths := RuleClass_getSettablePaths E c |}.

(** Modelled from the spec: the targeting test of the native skill adapter
    classes (claudecode-skill.ts and the other adapter sources are missing),
    by the same sentence of the spec. *)
Definition skillClassImpl (E : Externals) (c : NativeSkillClassName)
  : ToolSkillClass :=
  {| isTargetedByRulesyncSkill := skillTargetedBy (skillClassTarget c);
     fromRulesyncSkill := SkillClass_fromRulesyncSkill E c;
     fromDir := SkillClass_fromDir E c;
     getSkillSettablePaths := SkillClass_getSettablePaths E c |}.

(** ** The rule adapter registry (rules-processor.ts) *)

Definition rulesProcessorToolTargets : list string :=
  [ "agentsmd"; "amazonqcli"; "antigravity"; "augmentcode";
    "augmentcode-legacy"; "claudecode"; "cline"; "codexcli"; "copilot";
    "cursor"; "geminicli"; "junie"; "kiro"; "opencode"; "qwencode"; "roo";
    "warp"; "windsurf" ].

Definition rulesProcessorToolTargetsGlobal : list string :=
  [ "claudecode"; "codexcli"; "geminicli" ].

(** [map.get(key)] on a [Map] built from a list of entries with distinct
    keys. *)
Fixpoint mapGet {V} (key : string) (entries : list (string * V)) : option V :=
  match entries with
  | [] => None
  | (k, v) :: rest => if String.eqb key k then Some v else mapGet key rest
  end.

(** [[...map.keys()]] *)
Definition mapKeys {V} (entries : list (string * V)) : list string :=
  map fst entries.

Definition ruleFactory (E : Externals) (c : RuleClassName) (e : Extension)
  : ToolRuleFactory :=
  {| ruleClass := ruleClassImpl E c; extension := e |}.

(** The factory [Map], in insertion order. *)
Definition toolRuleFactories (E : Externals)
  : list (string * ToolRuleFactory) :=
  [ ("agentsmd", ruleFactory E AgentsMdRule md);
    ("amazonqcli", ruleFactory E AmazonQCliRule md);
    ("antigravity", ruleFactory E AntigravityRule md);
    ("augmentcode", ruleFactory E AugmentcodeRule md);
    ("augmentcode-legacy", ruleFactory E AugmentcodeLegacyRule md);
    ("claudecode", ruleFactory E ClaudecodeRule md);
    ("cline", ruleFactory E ClineRule md);
    ("codexcli", ruleFactory E CodexcliRule md);
    ("copilot", ruleFactory E CopilotRule md);
    ("cursor", ruleFactory E CursorRule mdc);
    ("geminicli", ruleFactory E GeminiCliRule md);
    ("junie", ruleFactory E JunieRule md);
    ("kiro", ruleFactory E KiroRule md);
    ("opencode", ruleFactory E OpenCodeRule md);
    ("qwencode", ruleFactory E QwencodeRule md);
    ("roo", ruleFactory E RooRule md);
    ("warp", ruleFactory E WarpRule md);
    ("windsurf", ruleFactory E WindsurfRule md) ].

(** [defaultGetFactory] of rules-processor.ts. *)
Definition defaultGetRuleFactory (E : Externals) (target : string)
  : result ToolRuleFactory :=
  match mapGet target (toolRuleFactories E) with
  | None => Err (mkError ("Unsupported tool target: " ++ target))
  | Some factory => Ok factory
  end.

(** ** The Simulated-Capability Layer *)

Module CodexCliSimulatedSkill.

(** codexcli-simulated-skill.ts: [getSettablePaths(options)] *)
Definition getSettablePaths (E : Externals) (global : option bool)
  : result ToolSkillSettablePaths :=
  if nullish global false
  then Err (mkError "CodexCliSimulatedSkill does not support global mode.")
  else Ok {| skillsRelativeDirPath := pathJoin E [".codex"; "skills"] |}.

(** The instance that [new CodexCliSimulatedSkill(baseParams)] builds: an
    instance of a subclass of [SimulatedSkill]. *)
Definition instanceOf (params : SimulatedSkillParams) : ToolSkill.t :=
  {| ToolSkill.baseDir := ssp_baseDir params;
     ToolSkill.relativeDirPath := ssp_relativeDirPath params;
     ToolSkill.dirName := ssp_dirName params;
     ToolSkill.name := ssp_name params;
     ToolSkill.description := ssp_description params;
     ToolSkill.body := ssp_body params;
     ToolSkill.simulated := true |}.

(** Modelled from the spec: [new CodexCliSimulatedSkill(baseParams)], the
    constructor inherited from [SimulatedSkill] (simulated-skill.ts is
    missing).  The spec: construction-time validation errors are always
    surfaced to the caller unmodified; so the constructor throws the
    validation error of its parameters, if there is one, and builds the
    instance otherwise.  The parameters carry the [validate] option. *)
Definition create (E : Externals) (params : SimulatedSkillParams)
  : result ToolSkill.t :=
  (_ <- SimulatedSkill_validate E params ;;
   Ok (instanceOf params))%result.

Definition fromDir (E : Externals) (params : ToolSkillFromDirParams)
  : result ToolSkill.t :=
  (baseParams <- fromDirDefault E params ;;
   create E baseParams)%result.

Definition fromRulesyncSkill (E : Externals)
  (params : ToolSkillFromRulesyncSkillParams) : result ToolSkill.t :=
  (defaults <- fromRulesyncSkillDefault E params ;;
   paths <- getSettablePaths E None ;;
   create E {| ssp_baseDir := ssp_baseDir defaults;
               ssp_relativeDirPath := skillsRelativeDirPath paths;
               ssp_dirName := ssp_dirName defaults;
               ssp_name := ssp_name defaults;
               ssp_description := ssp_description defaults;
               ssp_body := ssp_body defaults;
               ssp_validate := ssp_validate defaults |})%result.

Definition isTargetedByRulesyncSkill (rulesyncSkill : RulesyncSkill.t) : bool :=
  isTargetedByDefault
    (RulesyncSkill.targets (RulesyncSkill.getFrontmatter rulesyncSkill))
    "codexcli".

Definition class (E : Externals) : ToolSkillClass :=
  Build_ToolSkillClass
    isTargetedByRulesyncSkill
    (fromRulesyncSkill E)
    (fromDir E)
    (getSettablePaths E).

End CodexCliSimulatedSkill.

(** Modelled from the spec: [toRulesyncSkill] of a tool skill
    (simulated-skill.ts and the native skill classes are missing).  On a
    Simulated variant reverse conversion always fails with the fixed error,
    whose text codexcli-simulated-skill.test.ts states; a Native variant
    converts through its own adapter. *)
Definition simulatedConversionError : Error :=
  mkError "Not implemented because it is a SIMULATED skill.".

Definition toRulesyncSkill (E : Externals) (toolSkill : ToolSkill.t)
  : result RulesyncSkill.t :=
  if ToolSkill.simulated toolSkill
  then Err simulatedConversionError
  else nativeToRulesyncSkill E toolSkill.

(** ** The skill adapter registry (skills-processor.ts) *)

Definition skillsProcessorToolTargetTuple : list string :=
  [ "agentsmd"; "claudecode"; "codexcli"; "copilot"; "cursor"; "geminicli" ].

Definition skillMetaOf (project simulated global : bool) : SkillMeta :=
  {| supportsProject := project;
     supportsSimulated := simulated;
     supportsGlobal := global |}.

(** The factory [Map], in insertion order. *)
Definition toolSkillFactories (E : Externals)
  : list (string * ToolSkillFactory) :=
  [ ("agentsmd",
     {| skillClass := skillClassImpl E AgentsmdSkill;
        projectClass := None;
        skillMeta := skillMetaOf true true false |});
    ("claudecode",
     {| skillClass := skillClassImpl E ClaudecodeSkill;
        projectClass := None;
        skillMeta := skillMetaOf true false true |});
    ("codexcli",
     {| skillClass := skillClassImpl E CodexCliSkill;
        projectClass := Some (CodexCliSimulatedSkill.class E);
        skillMeta := skillMetaOf true true true |});
    ("copilot",
     {| skillClass := skillClassImpl E CopilotSkill;
        projectClass := None;
        skillMeta := skillMetaOf true true false |});
    ("cursor",
     {| skillClass := skillClassImpl E CursorSkill;
        projectClass := None;
        skillMeta := skillMetaOf true true false |});
    ("geminicli",
     {| skillClass := skillClassImpl E GeminiCliSkill;
        projectClass := None;
        skillMeta := skillMetaOf true true false |}) ].

(** [defaultGetFactory] of skills-processor.ts: the lookup, then the
    selection of the class by mode. *)
Definition defaultGetFactory (E : Externals) (target : string) (global : bool)
  : result ResolvedToolSkillFactory :=
  match mapGet target (toolSkillFactories E) with
  | None => Err (mkError ("Unsupported tool target: " ++ target))
  | Some factory =>
      let selectedClass :=
        if global then skillClass factory
        else nullish (projectClass factory) (skillClass factory) in
      Ok {| resolvedClass := selectedClass; resolvedMeta := skillMeta factory |}
  end.

Definition allToolTargetKeys (E : Externals) : list string :=
  mapKeys (toolSkillFactories E).

(** [factory?.meta.<flag> ?? fallback] *)
Definition metaFlag (E : Externals) (flag : SkillMeta -> bool) (fallback : bool)
  (target : string) : bool :=
  match mapGet target (toolSkillFactories E) with
  | Some factory => flag (skillMeta factory)
  | None => fallback
  end.

Definition skillsProcessorToolTargetsProject (E : Externals) : list string :=
  filter (metaFlag E supportsProject true) (allToolTargetKeys E).

Definition skillsProcessorToolTargetsSimulated (E : Externals) : list string :=
  filter (metaFlag E supportsSimulated false) (allToolTargetKeys E).

Definition skillsProcessorToolTargetsGlobal (E : Externals) : list string :=
  filter (metaFlag E supportsGlobal false) (allToolTargetKeys E).

(** ** The Directory Processor (skills-processor.ts) *)

Module SkillsProcessor.

Record t := {
  baseDir : string;
  toolTarget : string;
  global : bool;
  getFactory : string -> bool -> result ResolvedToolSkillFactory
}.

Record Params := {
  p_baseDir : option string;
  p_toolTarget : string;
  p_global : option bool;
  p_getFactory : option (string -> bool -> result ResolvedToolSkillFactory)
}.

(** The constructor. *)
Definition new (E : Externals) (params : Params) : result t :=
  if includes (p_toolTarget params) skillsProcessorToolTargetTuple
  then Ok {| baseDir := nullish (p_baseDir params) (cwd E);
             toolTarget := p_toolTarget params;
             global := nullish (p_global params) false;
             getFactory := nullish (p_getFactory params) (defaultGetFactory E) |}
  else Err (mkError ("Invalid tool target for SkillsProcessor: "
                     ++ p_toolTarget params ++ ". "
                     ++ formatError E (targetSchemaError E (p_toolTarget params)))).

(** [dirs.filter((dir) => dir instanceof RulesyncSkill)] *)
Fixpoint rulesyncSkillsOf (dirs : list AiDir) : list RulesyncSkill.t :=
  match dirs with
  | [] => []
  | RulesyncSkillDir s :: rest => s :: rulesyncSkillsOf rest
  | _ :: rest => rulesyncSkillsOf rest
  end.

(** [dirs.filter((dir) => dir instanceof ToolSkill)] *)
Fixpoint toolSkillsOf (dirs : list AiDir) : list ToolSkill.t :=
  match dirs with
  | [] => []
  | ToolSkillDir s :: rest => s :: toolSkillsOf rest
  | _ :: rest => toolSkillsOf rest
  end.

(** [xs.filter((x) => x !== null)] *)
Fixpoint nonNull {A} (xs : list (option A)) : list A :=
  match xs with
  | [] => []
  | Some x :: rest => x :: nonNull rest
  | None :: rest => nonNull rest
  end.

(** The callback of the [map] in [convertRulesyncDirsToToolDirs]. *)
Definition toolSkillOrNull (p : t) (factory : ResolvedToolSkillFactory)
  (rulesyncSkill : RulesyncSkill.t) : result (option ToolSkill.t) :=
  if negb (isTargetedByRulesyncSkill (resolvedClass factory) rulesyncSkill)
  then Ok None
  else (toolSkill <- fromRulesyncSkill (resolvedClass factory)
                       {| frs_rulesyncSkill := rulesyncSkill;
                          frs_global := global p |} ;;
        Ok (Some toolSkill))%result.

Definition convertRulesyncDirsToToolDirs (p : t) (rulesyncDirs : list AiDir)
  : result (list ToolSkill.t) :=
  let rulesyncSkills := rulesyncSkillsOf rulesyncDirs in
  (factory <- getFactory p (toolTarget p) (global p) ;;
   converted <- mapM (toolSkillOrNull p factory) rulesyncSkills ;;
   Ok (nonNull converted))%result.

(** The [for ... of] loop of [convertToolDirsToRulesyncDirs]; [rulesyncSkills]
    is the array being filled. *)
Fixpoint convertLoop (E : Externals) (toolSkills : list ToolSkill.t)
  (rulesyncSkills : list RulesyncSkill.t) : Logged (list RulesyncSkill.t) :=
  match toolSkills with
  | [] => ret rulesyncSkills
  | toolSkill :: rest =>
      if ToolSkill.simulated toolSkill
      then (log Debug ("Skipping simulated skill conversion: "
                       ++ getDirPath E toolSkill) ;;;
            convertLoop E rest rulesyncSkills)%logged
      else (converted <- lift (toRulesyncSkill E toolSkill) ;;
            convertLoop E rest (rulesyncSkills ++ [converted]))%logged
  end.

Definition convertToolDirsToRulesyncDirs (E : Externals) (p : t)
  (toolDirs : list AiDir) : Logged (list RulesyncSkill.t) :=
  convertLoop E (toolSkillsOf toolDirs) [].

Definition loadRulesyncDirs (E : Externals) (p : t)
  : Logged (list RulesyncSkill.t) :=
  let rulesyncSkillsDirPath :=
    pathJoin E [baseDir p; RulesyncSkill_relativeDirPath E] in
  (dirPaths <- lift (findFilesByGlobs E
                       (pathJoin E [rulesyncSkillsDirPath; "*"]) true) ;;
   let dirNames := map (basename E) dirPaths in
   rulesyncSkills <- lift (promiseAll (settlesFirst E) (fun dirName =>
                        RulesyncSkill_fromDir E (baseDir p) dirName (global p))
                        dirNames) ;;
   log Info ("Successfully loaded " ++ showNat (length rulesyncSkills)
             ++ " rulesync skills") ;;;
   ret rulesyncSkills)%logged.

Definition loadToolDirs (E : Externals) (p : t) : Logged (list ToolSkill.t) :=
  (factory <- lift (getFactory p (toolTarget p) (global p)) ;;
   paths <- lift (getSkillSettablePaths (resolvedClass factory)
                    (Some (global p))) ;;
   let skillsDirPath := pathJoin E [baseDir p; skillsRelativeDirPath paths] in
   dirPaths <- lift (findFilesByGlobs E
                       (pathJoin E [skillsDirPath; "*"]) true) ;;
   let dirNames := map (basename E) dirPaths in
   toolSkills <- lift (promiseAll (settlesFirst E) (fun dirName =>
                    fromDir (resolvedClass factory)
                      {| fd_baseDir := baseDir p;
                         fd_dirName := dirName;
                         fd_global := global p |})
                    dirNames) ;;
   log Info ("Successfully loaded " ++ showNat (length toolSkills) ++ " "
             ++ skillsRelativeDirPath paths ++ " skills") ;;;
   ret toolSkills)%logged.

Definition loadToolDirsToDelete (E : Externals) (p : t)
  : Logged (list ToolSkill.t) :=
  loadToolDirs E p.

Definition getToolTargets (E : Externals) (global includeSimulated : bool)
  : list string :=
  if global then skillsProcessorToolTargetsGlobal E
  else
    let projectTargets := skillsProcessorToolTargetsProject E in
    if negb includeSimulated
    then filter (fun target =>
                   negb (includes target (skillsProcessorToolTargetsSimulated E)))
                projectTargets
    else projectTargets.

Definition getToolTargetsSimulated (E : Externals) : list string :=
  skillsProcessorToolTargetsSimulated E.

Definition getToolTargetsGlobal (E : Externals) : list string :=
  skillsProcessorToolTargetsGlobal E.

End SkillsProcessor.

(** ** The File Processor for rules (rules-processor.ts) *)

Module RulesProcessor.

Record t := {
  baseDir : string;
  toolTarget : string;
  simulateCommands : bool;
  simulateSubagents : bool;
  simulateSkills : bool;
  global : bool;
  getFactory : string -> result ToolRuleFactory
}.

Record Params := {
  p_baseDir : option string;
  p_toolTarget : string;
  p_global : option bool;
  p_simulateCommands : option bool;
  p_simulateSubagents : option bool;
  p_simulateSkills : option bool;
  p_getFactory : option (string -> result ToolRuleFactory)
}.

(** The constructor. *)
Definition new (E : Externals) (params : Params) : result t :=
  if includes (p_toolTarget params) rulesProcessorToolTargets
  then Ok {| baseDir := nullish (p_baseDir params) (cwd E);
             toolTarget := p_toolTarget params;
             simulateCommands := nullish (p_simulateCommands params) false;
             simulateSubagents := nullish (p_simulateSubagents params) false;
             simulateSkills := nullish (p_simulateSkills params) false;
             global := nullish (p_global params) false;
             getFactory :=
               nullish (p_getFactory params) (defaultGetRuleFactory E) |}
  else Err (mkError ("Invalid tool target for RulesProcessor: "
                     ++ p_toolTarget params ++ ". "
                     ++ formatError E (targetSchemaError E (p_toolTarget params)))).

(** *** Generated sections *)

Definition overview : string :=
"# Additional Conventions Beyond the Built-in Functions

As this project's AI coding tool, you must follow the additional conventions below, in addition to the built-in functions.".

Definition commandsInstructions (E : Externals) : string :=
"## Simulated Custom Slash Commands

Custom slash commands allow you to define frequently-used prompts as Markdown files that you can execute.

### Syntax

Users can use following syntax to invoke a custom command.

```txt
s/<command> [arguments]
```

This syntax employs a double slash (`s/`) to prevent conflicts with built-in slash commands.
The `s` in `s/` stands for *simulate*. Because custom slash commands are not built-in, this syntax provides a pseudo way to invoke them.

When users call a custom slash command, you have to look for the markdown file, `" ++ pathJoin E [RULESYNC_COMMANDS_RELATIVE_DIR_PATH E; "{command}.md"] ++ "`, then execute the contents of that file as the block of operations.".

Definition subagentsInstructions (E : Externals) : string :=
"## Simulated Subagents

Simulated subagents are specialized AI assistants that can be invoked to handle specific types of tasks. In this case, it can be appear something like custom slash commands simply. Simulated subagents can be called by custom slash commands.

When users call a simulated subagent, it will look for the corresponding markdown file, `" ++ pathJoin E [RULESYNC_SUBAGENTS_RELATIVE_DIR_PATH E; "{subagent}.md"] ++ "`, and execute its contents as the block of operations.

For example, if the user instructs `Call planner subagent to plan the refactoring`, you have to look for the markdown file, `" ++ pathJoin E [RULESYNC_SUBAGENTS_RELATIVE_DIR_PATH E; "planner.md"] ++ "`, and execute its contents as the block of operations.".

Definition skillsInstructions (E : Externals) : string :=
"## Simulated Skills

Simulated skills are specialized capabilities that can be invoked to handle specific types of tasks.

When users invoke a simulated skill, look for the corresponding SKILL.md file in `" ++ pathJoin E [RULESYNC_SKILLS_RELATIVE_DIR_PATH E; "{skill}/SKILL.md"] ++ "` and execute its contents as the block of operations.

For example, if the user instructs `Use the skill example-skill to achieve something`, look for `" ++ pathJoin E [RULESYNC_SKILLS_RELATIVE_DIR_PATH E; "example-skill/SKILL.md"] ++ "` and execute its contents.

Additionally, you should proactively consider using available skills when they would help accomplish a task more effectively, even if the user doesn't explicitly request them.".

(** The features that can be simulated. *)
Inductive Feature := Commands | Subagents | Skills.

Definition instructionsFor (E : Externals) (f : Feature) : string :=
  match f with
  | Commands => commandsInstructions E
  | Subagents => subagentsInstructions E
  | Skills => skillsInstructions E
  end.

(** The argument of [generateAdditionalConventionsSection]: for each feature,
    the [{ relativeDirPath }] object or undefined. *)
Record ConventionsArgs := {
  commands : option string;
  subagents : option string;
  skills : option string
}.

Definition argFor (args : ConventionsArgs) (f : Feature) : option string :=
  match f with
  | Commands => commands args
  | Subagents => subagents args
  | Skills => skills args
  end.

Definition simulateFlag (p : t) (f : Feature) : bool :=
  match f with
  | Commands => simulateCommands p
  | Subagents => simulateSubagents p
  | Skills => simulateSkills p
  end.

Definition getToolTargetsSimulatedOf (E : Externals) (f : Feature)
  : list string :=
  match f with
  | Commands => CommandsProcessor_getToolTargetsSimulated E
  | Subagents => SubagentsProcessor_getToolTargetsSimulated E
  | Skills => SkillsProcessor.getToolTargetsSimulated E
  end.

(** [commandsSection], [subagentsSection] and [skillsSection]: the
    instructions when the argument for the feature is given, the empty string
    otherwise. *)
Definition sectionFor (E : Externals) (args : ConventionsArgs) (f : Feature)
  : string :=
  match argFor args f with
  | Some _ => instructionsFor E f
  | None => EmptyString
  end.

(** [...(this.simulateX && XProcessor.getToolTargetsSimulated()
            .includes(this.toolTarget) ? [xSection] : [])] *)
Definition spreadFor (E : Externals) (p : t) (args : ConventionsArgs)
  (f : Feature) : list string :=
  if simulateFlag p f && includes (toolTarget p) (getToolTargetsSimulatedOf E f)
  then [sectionFor E args f]
  else [].

(** The array that [generateAdditionalConventionsSection] joins. *)
Definition additionalConventionsParts (E : Externals) (p : t)
  (args : ConventionsArgs) : list string :=
  overview
    :: spreadFor E p args Commands
    ++ spreadFor E p args Subagents
    ++ spreadFor E p args Skills.

Definition generateAdditionalConventionsSection (E : Externals) (p : t)
  (args : ConventionsArgs) : string :=
  (join (nl ++ nl) (additionalConventionsParts E p args) ++ nl ++ nl)%string.

(** The record built for one non-root rule in
    [generateToonReferencesSection]. *)
Definition toonRuleOf (E : Externals) (toolRule : ToolRule.t)
  : result ToonRule :=
  (rulesyncRule <- toRulesyncRule E toolRule ;;
   let frontmatter := RulesyncRule.getFrontmatter rulesyncRule in
   Ok {| toonPath := "@" ++ ToolRule.getRelativePathFromCwd toolRule;
         toonDescription :=
           match RulesyncRule.description frontmatter with
           | Some d => if String.eqb d EmptyString then None else Some d
           | None => None
           end;
         toonApplyTo :=
           match RulesyncRule.globs frontmatter with
           | Some (g :: gs) => Some (g :: gs)
           | _ => None
           end |})%result.

Definition withoutRoot (toolRules : list ToolRule.t) : list ToolRule.t :=
  filter (fun rule => negb (ToolRule.isRoot rule)) toolRules.

Definition toonHeader : string :=
  "Please also reference the following rules as needed. The list below is provided in TOON format, and `@` stands for the project root directory.".

Definition generateToonReferencesSection (E : Externals)
  (toolRules : list ToolRule.t) : result string :=
  let toolRulesWithoutRoot := withoutRoot toolRules in
  match toolRulesWithoutRoot with
  | [] => Ok EmptyString
  | _ =>
      (rules <- mapM (toonRuleOf E) toolRulesWithoutRoot ;;
       let toonContent := encode E rules in
       Ok (join nl [toonHeader; EmptyString; toonContent] ++ nl ++ nl)%string)%result
  end.

(** One line of the references section of [generateReferencesSection];
    an undefined value inside a template literal prints as [undefined]. *)
Definition referenceLine (toolRule : ToolRule.t) : string :=
  let escapedDescription :=
    match ToolRule.getDescription toolRule with
    | Some d => escapeQuotes d
    | None => "undefined"
    end in
  let globsText :=
    match ToolRule.getGlobs toolRule with
    | Some gs => join "," gs
    | None => "undefined"
    end in
  ("@" ++ ToolRule.getRelativePathFromCwd toolRule
       ++ " description: " ++ dquote ++ escapedDescription ++ dquote
       ++ " applyTo: " ++ dquote ++ globsText ++ dquote)%string.

Definition referencesHeader : string :=
  "Please also reference the following rules as needed:".

Definition generateReferencesSection (toolRules : list ToolRule.t) : string :=
  let toolRulesWithoutRoot := withoutRoot toolRules in
  match toolRulesWithoutRoot with
  | [] => EmptyString
  | _ =>
      (join nl ([referencesHeader; EmptyString]
                ++ map referenceLine toolRulesWithoutRoot)
         ++ nl ++ nl)%string
  end.

(** *** Conversion *)

(** [files.filter((file) => file instanceof RulesyncRule)] *)
Fixpoint rulesyncRulesOf (files : list RulesyncFile) : list RulesyncRule.t :=
  match files with
  | [] => []
  | RulesyncRuleFile r :: rest => r :: rulesyncRulesOf rest
  | _ :: rest => rulesyncRulesOf rest
  end.

(** [files.filter((file) => file instanceof ToolRule)] *)
Fixpoint toolRulesOfFiles (files : list ToolFile) : list ToolRule.t :=
  match files with
  | [] => []
  | ToolRuleFile r :: rest => r :: toolRulesOfFiles rest
  | _ :: rest => toolRulesOfFiles rest
  end.

(** The callback of the [map] in [convertRulesyncFilesToToolFiles]. *)
Definition toolRuleOrNull (p : t) (factory : ToolRuleFactory)
  (rulesyncRule : RulesyncRule.t) : result (option ToolRule.t) :=
  if negb (isTargetedByRulesyncRule (ruleClass factory) rulesyncRule)
  then Ok None
  else (toolRule <- fromRulesyncRule (ruleClass factory)
                      {| frr_baseDir := baseDir p;
                         frr_rulesyncRule := rulesyncRule;
                         frr_validate := true;
                         frr_global := global p |} ;;
        Ok (Some toolRule))%result.

(** The [map] and [filter] that turn the canonical rules into [toolRules]. *)
Definition convertTargeted (p : t) (factory : ToolRuleFactory)
  (rulesyncRules : list RulesyncRule.t) : result (list ToolRule.t) :=
  (converted <- mapM (toolRuleOrNull p factory) rulesyncRules ;;
   Ok (SkillsProcessor.nonNull converted))%result.

Definition isSimulated (p : t) : bool :=
  simulateCommands p || simulateSubagents p || simulateSkills p.

(** The additional convention rule pushed for Cursor. *)
Definition cursorConventionsRule (E : Externals) (p : t) : ToolRule.t :=
  newCursorRule E
    {| cr_baseDir := baseDir p;
       cr_alwaysApply := true;
       cr_body :=
         generateAdditionalConventionsSection E p
           {| commands := Some (CursorCommand_relativeDirPath E);
              subagents := Some (CursorSubagent_relativeDirPath E);
              skills := Some (CursorSkill_relativeDirPath E) |};
       cr_relativeDirPath := CursorRule_nonRootRelativeDirPath E;
       cr_relativeFilePath := "additional-conventions.mdc";
       cr_validate := true |}.

(** The additional convention rule pushed for Roo. *)
Definition rooConventionsRule (E : Externals) (p : t) : ToolRule.t :=
  newRooRule E
    {| rr_baseDir := baseDir p;
       rr_relativeDirPath := RooRule_nonRootRelativeDirPath E;
       rr_relativeFilePath := "additional-conventions.md";
       rr_fileContent :=
         generateAdditionalConventionsSection E p
           {| commands := Some (RooCommand_relativeDirPath E);
              subagents := Some (RooSubagent_relativeDirPath E);
              skills := None |};
       rr_validate := true |}.

(** [toolRules.push(rule)] under a condition. *)
Definition pushIf {A} (cond : bool) (x : A) (xs : list A) : list A :=
  if cond then xs ++ [x] else xs.

(** [const rootRule = toolRules[rootRuleIndex];
     rootRule?.setFileContent(generated + rootRule.getFileContent());
     return toolRules;] *)
Definition prependToRoot (rootRuleIndex : nat) (toolRules : list ToolRule.t)
  (generated : result string) : result (list ToolRule.t) :=
  match nth_error toolRules rootRuleIndex with
  | Some rootRule =>
      (prefix <- generated ;;
       Ok (setAt rootRuleIndex
             (ToolRule.setFileContent
                (prefix ++ ToolRule.getFileContent rootRule)%string rootRule)
             toolRules))%result
  | None => Ok toolRules
  end.

(** The [skills] argument for Codex CLI: native in global mode, simulated in
    project mode. *)
Definition codexcliSkillsDir (E : Externals) (p : t) : result string :=
  if global p then Ok (CodexCliSkill_globalRelativeDirPath E)
  else (paths <- CodexCliSimulatedSkill.getSettablePaths E None ;;
        Ok (skillsRelativeDirPath paths))%result.

(** The [switch (this.toolTarget)] that rewrites the root rule. *)
Definition injectIntoRoot (E : Externals) (p : t) (rootRuleIndex : nat)
  (toolRules : list ToolRule.t) : result (list ToolRule.t) :=
  let target := toolTarget p in
  let toon := generateToonReferencesSection E toolRules in
  let conventions args := generateAdditionalConventionsSection E p args in
  if String.eqb target "agentsmd" then
    prependToRoot rootRuleIndex toolRules
      (refs <- toon ;;
       Ok (refs ++ conventions
             {| commands := Some (AgentsmdCommand_relativeDirPath E);
                subagents := Some (AgentsmdSubagent_relativeDirPath E);
                skills := None |})%string)%result
  else if String.eqb target "augmentcode-legacy" then
    prependToRoot rootRuleIndex toolRules toon
  else if String.eqb target "claudecode" then
    prependToRoot rootRuleIndex toolRules
      (Ok (generateReferencesSection toolRules))
  else if String.eqb target "codexcli" then
    prependToRoot rootRuleIndex toolRules
      (refs <- toon ;;
       skillsDir <- codexcliSkillsDir E p ;;
       Ok (refs ++ conventions
             {| commands := None;
                subagents := Some (CodexCliSubagent_relativeDirPath E);
                skills := Some skillsDir |})%string)%result
  else if String.eqb target "copilot" then
    prependToRoot rootRuleIndex toolRules
      (Ok (conventions
             {| commands := Some (CopilotCommand_relativeDirPath E);
                subagents := Some (CopilotSubagent_relativeDirPath E);
                skills := Some (CopilotSkill_relativeDirPath E) |}))
  else if String.eqb target "geminicli" then
    prependToRoot rootRuleIndex toolRules
      (refs <- toon ;;
       Ok (refs ++ conventions
             {| commands := Some (GeminiCliCommand_relativeDirPath E);
                subagents := Some (GeminiCliSubagent_relativeDirPath E);
                skills := None |})%string)%result
  else if String.eqb target "kiro" then
    prependToRoot rootRuleIndex toolRules toon
  else if String.eqb target "opencode" then
    prependToRoot rootRuleIndex toolRules toon
  else if String.eqb target "qwencode" then
    prependToRoot rootRuleIndex toolRules toon
  else if String.eqb target "warp" then
    prependToRoot rootRuleIndex toolRules toon
  else Ok toolRules.

Definition convertRulesyncFilesToToolFiles (E : Externals) (p : t)
  (rulesyncFiles : list RulesyncFile) : result (list ToolRule.t) :=
  let rulesyncRules := rulesyncRulesOf rulesyncFiles in
  (factory <- getFactory p (toolTarget p) ;;
   toolRules <- convertTargeted p factory rulesyncRules ;;
   let toolRules :=
     pushIf (isSimulated p && String.eqb (toolTarget p) "cursor")
       (cursorConventionsRule E p) toolRules in
   let toolRules :=
     pushIf (isSimulated p && String.eqb (toolTarget p) "roo")
       (rooConventionsRule E p) toolRules in
   match findIndex ToolRule.isRoot toolRules with
   | None => Ok toolRules
   | Some rootRuleIndex => injectIntoRoot E p rootRuleIndex toolRules
   end)%result.

Definition convertToolFilesToRulesyncFiles (E : Externals) (p : t)
  (toolFiles : list ToolFile) : result (list RulesyncRule.t) :=
  mapM (toRulesyncRule E) (toolRulesOfFiles toolFiles).

(** *** Loading *)

Definition multipleRootError : Error :=
  mkError "Multiple root rulesync rules found".

Definition ignoredWarning (count : nat) : string :=
  showNat count
  ++ " non-root rulesync rules found, but it's in global mode, so ignoring them".

Definition loadRulesyncFiles (E : Externals) (p : t)
  : Logged (list RulesyncRule.t) :=
  (files <- lift (findFilesByGlobs E
                    (pathJoin E [RULESYNC_RULES_RELATIVE_DIR_PATH E; "*.md"])
                    false) ;;
   log Debug ("Found " ++ showNat (length files) ++ " rulesync files") ;;;
   rulesyncRules <- lift (promiseAll (settlesFirst E) (fun file =>
                       RulesyncRule_fromFile E (basename E file)) files) ;;
   let rootRules := filter RulesyncRule.isRoot rulesyncRules in
   if Nat.ltb 1 (length rootRules)
   then throw multipleRootError
   else
     if global p
     then
       let nonRootRules :=
         filter (fun rule => negb (RulesyncRule.isRoot rule)) rulesyncRules in
       (if Nat.ltb 0 (length nonRootRules)
        then log Warn (ignoredWarning (length nonRootRules))
        else ret tt) ;;;
       ret rootRules
     else ret rulesyncRules)%logged.

Definition loadRulesyncFilesLegacy (E : Externals) (p : t)
  : Logged (list RulesyncRule.t) :=
  (legacyFiles <- lift (findFilesByGlobs E
                          (pathJoin E [RULESYNC_RELATIVE_DIR_PATH E; "*.md"])
                          false) ;;
   log Debug ("Found " ++ showNat (length legacyFiles)
              ++ " legacy rulesync files") ;;;
   lift (promiseAll (settlesFirst E)
           (fun file => RulesyncRule_fromFileLegacy E (basename E file))
           legacyFiles))%logged.

(** [Promise.all(filePaths.map((filePath) => factory.class.fromFile(...)))] *)
Definition fromFiles (E : Externals) (p : t) (factory : ToolRuleFactory)
  (filePaths : list string) : result (list ToolRule.t) :=
  promiseAll (settlesFirst E)
    (fun filePath =>
       fromFile (ruleClass factory)
         {| ff_baseDir := baseDir p;
            ff_relativeFilePath := basename E filePath;
            ff_global := global p |})
    filePaths.

(** The files matched by the root location, and no file when
    [settablePaths.root] is undefined. *)
Definition rootFilePaths (E : Externals) (p : t)
  (settablePaths : ToolRuleSettablePaths) : result (list string) :=
  match rootPath settablePaths with
  | None => Ok []
  | Some root =>
      findFilesByGlobs E
        (pathJoin E [baseDir p;
                     nullish (rootRelativeDirPath root) ".";
                     rootRelativeFilePath root])
        false
  end.

(** The files with the factory's extension in the non-root location, and no
    file when [settablePaths.nonRoot] is undefined. *)
Definition nonRootFilePaths (E : Externals) (p : t) (factory : ToolRuleFactory)
  (settablePaths : ToolRuleSettablePaths) : result (list string) :=
  match nonRootPath settablePaths with
  | None => Ok []
  | Some nonRoot =>
      findFilesByGlobs E
        (pathJoin E [baseDir p;
                     nonRootRelativeDirPath nonRoot;
                     ("*." ++ extensionName (extension factory))%string])
        false
  end.

(** The body of the [try] block of [loadToolFiles]. *)
Definition loadToolFilesBody (E : Externals) (p : t)
  : Logged (list ToolRule.t) :=
  (factory <- lift (getFactory p (toolTarget p)) ;;
   settablePaths <- lift (getSettablePaths (ruleClass factory) (global p)) ;;
   rootToolRules <-
     lift (filePaths <- rootFilePaths E p settablePaths ;;
           fromFiles E p factory filePaths)%result ;;
   log Debug ("Found " ++ showNat (length rootToolRules)
              ++ " root tool rule files") ;;;
   nonRootToolRules <-
     lift (filePaths <- nonRootFilePaths E p factory settablePaths ;;
           fromFiles E p factory filePaths)%result ;;
   log Debug ("Found " ++ showNat (length nonRootToolRules)
              ++ " non-root tool rule files") ;;;
   ret (rootToolRules ++ nonRootToolRules)%list)%logged.

(** [forDeletion] is bound to the unused [_forDeletion]. *)
Definition loadToolFiles (E : Externals) (p : t) (forDeletion : bool)
  : Logged (list ToolRule.t) :=
  tryCatch (loadToolFilesBody E p)
    (fun error =>
       (log ErrorLevel ("Failed to load tool files: " ++ formatError E error) ;;;
        ret [])%logged).

Definition getToolTargets (global : bool) : list string :=
  if global then rulesProcessorToolTargetsGlobal
  else rulesProcessorToolTargets.

End RulesProcessor.

(** ** Configuration (config.ts, config-resolver.ts) *)

Module PartialConfigParams.

(** [z.partial(ConfigParamsSchema)]: every key may be absent. *)
Record t := {
  baseDirs : option (list string);
  targets : option (list string);
  features : option (list string);
  verbose : option bool;
  delete : option bool;
  global : option bool;
  simulateCommands : option bool;
  simulateSubagents : option bool;
  simulateSkills : option bool;
  modularMcp : option bool;
  experimentalGlobal : option bool;
  experimentalSimulateCommands : option bool;
  experimentalSimulateSubagents : option bool
}.

(** [{}] *)
Definition empty : t :=
  {| baseDirs := None; targets := None; features := None; verbose := None;
     delete := None; global := None; simulateCommands := None;
     simulateSubagents := None; simulateSkills := None; modularMcp := None;
     experimentalGlobal := None; experimentalSimulateCommands := None;
     experimentalSimulateSubagents := None |}.

End PartialConfigParams.

Module ConfigParams.

Record t := {
  baseDirs : list string;
  targets : list string;
  features : list string;
  verbose : bool;
  delete : bool;
  global : option bool;
  simulateCommands : option bool;
  simulateSubagents : option bool;
  simulateSkills : option bool;
  modularMcp : option bool;
  experimentalGlobal : option bool;
  experimentalSimulateCommands : option bool;
  experimentalSimulateSubagents : option bool
}.

End ConfigParams.

Module Config.

Record t := {
  baseDirs : list string;
  targets : list string;
  features : list string;
  verbose : bool;
  delete : bool;
  global : bool;
  simulateCommands : bool;
  simulateSubagents : bool;
  simulateSkills : bool;
  modularMcp : bool
}.

(** The constructor, with its migration logic: prefer new options over
    experimental ones. *)
Definition new (params : ConfigParams.t) : t :=
  {| baseDirs := ConfigParams.baseDirs params;
     targets := ConfigParams.targets params;
     features := ConfigParams.features params;
     verbose := ConfigParams.verbose params;
     delete := ConfigParams.delete params;
     global :=
       nullish (orElse (ConfigParams.global params)
                       (ConfigParams.experimentalGlobal params)) false;
     simulateCommands :=
       nullish (orElse (ConfigParams.simulateCommands params)
                       (ConfigParams.experimentalSimulateCommands params)) false;
     simulateSubagents :=
       nullish (orElse (ConfigParams.simulateSubagents params)
                       (ConfigParams.experimentalSimulateSubagents params)) false;
     simulateSkills := nullish (ConfigParams.simulateSkills params) false;
     modularMcp := nullish (ConfigParams.modularMcp params) false |}.

Definition getBaseDirs (c : t) : list string := baseDirs c.
Definition getVerbose (c : t) : bool := verbose c.
Definition getDelete (c : t) : bool := delete c.
Definition getGlobal (c : t) : bool := global c.
Definition getSimulateCommands (c : t) : bool := simulateCommands c.
Definition getSimulateSubagents (c : t) : bool := simulateSubagents c.
Definition getSimulateSkills (c : t) : bool := simulateSkills c.
Definition getModularMcp (c : t) : bool := modularMcp c.
Definition getExperimentalGlobal (c : t) : bool := global c.
Definition getExperimentalSimulateCommands (c : t) : bool := simulateCommands c.
Definition getExperimentalSimulateSubagents (c : t) : bool :=
  simulateSubagents c.

End Config.

(** The collaborators of the resolver: utils/file.ts, node:path, jsonc-parser
    followed by [ConfigFileSchema.parse] and the removal of [$schema]. *)
Record ConfigExternals := {
  processCwd : string;
  resolvePath : string -> string -> result string;
  fileExists : string -> bool;
  readFileContent : string -> result string;
  parseConfigFile : string -> result PartialConfigParams.t;
  getHomeDirectory : string;
  resolve : string -> string;
  validateBaseDir : string -> result unit;
  formatConfigError : Error -> string
}.

Module ConfigResolver.

Import PartialConfigParams.

(** [ConfigResolverResolveParams] *)
Record ResolveParams := {
  cli : PartialConfigParams.t;
  configPath : option string
}.

(** [getDefaults()] *)
Definition defaultTargets : list string := ["agentsmd"].
Definition defaultFeatures : list string := ["rules"].
Definition defaultVerbose : bool := false.
Definition defaultDelete : bool := false.
Definition defaultConfigPath : string := "rulesync.jsonc".
Definition defaultGlobal : bool := false.
Definition defaultSimulateCommands : bool := false.
Definition defaultSimulateSubagents : bool := false.
Definition defaultSimulateSkills : bool := false.
Definition defaultModularMcp : bool := false.

Definition warnGlobal : string :=
  "'experimentalGlobal' option is deprecated. Please use 'global' instead.".
Definition warnCommands : string :=
  "'experimentalSimulateCommands' option is deprecated. Please use 'simulateCommands' instead.".
Definition warnSubagents : string :=
  "'experimentalSimulateSubagents' option is deprecated. Please use 'simulateSubagents' instead.".

(** One test of [warnDeprecatedOptions]. *)
Definition warnIfDefined (value : option bool) (msg : string) : Logged unit :=
  match value with
  | Some _ => log Warn msg
  | None => ret tt
  end.

Definition warnDeprecatedOptions
  (experimentalGlobal experimentalSimulateCommands
     experimentalSimulateSubagents : option bool) : Logged unit :=
  (warnIfDefined experimentalGlobal warnGlobal ;;;
   warnIfDefined experimentalSimulateCommands warnCommands ;;;
   warnIfDefined experimentalSimulateSubagents warnSubagents)%logged.

(** [if (deprecated !== undefined) { warnDeprecatedOptions({ ... }) }] *)
Definition whenDefined (value : option bool) (k : Logged unit) : Logged unit :=
  match value with
  | Some _ => k
  | None => ret tt
  end.

Definition getBaseDirsInLightOfGlobal (X : ConfigExternals)
  (baseDirs : list string) (global : bool) : result (list string) :=
  if global then Ok [getHomeDirectory X]
  else
    let resolvedBaseDirs := map (resolve X) baseDirs in
    (_ <- mapM (validateBaseDir X) resolvedBaseDirs ;;
     Ok resolvedBaseDirs)%result.

(** The config file, when it exists. *)
Definition loadConfigByFile (X : ConfigExternals) (validatedConfigPath : string)
  : Logged PartialConfigParams.t :=
  if fileExists X validatedConfigPath
  then
    tryCatch
      (lift (fileContent <- readFileContent X validatedConfigPath ;;
             parseConfigFile X fileContent)%result)
      (fun error =>
         (log ErrorLevel ("Failed to load config file: "
                          ++ formatConfigError X error) ;;;
          throw error)%logged)
  else ret PartialConfigParams.empty.

Definition resolve (X : ConfigExternals) (params : ResolveParams)
  : Logged Config.t :=
  let c := cli params in
  (validatedConfigPath <-
     lift (resolvePath X (nullish (configPath params) defaultConfigPath)
             (processCwd X)) ;;
   configByFile <- loadConfigByFile X validatedConfigPath ;;
   let deprecatedGlobal :=
     orElse (experimentalGlobal c) (experimentalGlobal configByFile) in
   let deprecatedCommands :=
     orElse (experimentalSimulateCommands c)
            (experimentalSimulateCommands configByFile) in
   let deprecatedSubagents :=
     orElse (experimentalSimulateSubagents c)
            (experimentalSimulateSubagents configByFile) in
   whenDefined deprecatedGlobal
     (warnDeprecatedOptions deprecatedGlobal None None) ;;;
   whenDefined deprecatedCommands
     (warnDeprecatedOptions None deprecatedCommands None) ;;;
   whenDefined deprecatedSubagents
     (warnDeprecatedOptions None None deprecatedSubagents) ;;;
   let resolvedGlobal :=
     nullish (orElse (global c)
             (orElse (global configByFile)
             (orElse (experimentalGlobal c)
                     (experimentalGlobal configByFile))))
       defaultGlobal in
   let resolvedSimulateCommands :=
     nullish (orElse (simulateCommands c)
             (orElse (simulateCommands configByFile)
             (orElse (experimentalSimulateCommands c)
                     (experimentalSimulateCommands configByFile))))
       defaultSimulateCommands in
   let resolvedSimulateSubagents :=
     nullish (orElse (simulateSubagents c)
             (orElse (simulateSubagents configByFile)
             (orElse (experimentalSimulateSubagents c)
                     (experimentalSimulateSubagents configByFile))))
       defaultSimulateSubagents in
   let resolvedSimulateSkills :=
     nullish (orElse (simulateSkills c) (simulateSkills configByFile))
       defaultSimulateSkills in
   resolvedBaseDirs <-
     lift (getBaseDirsInLightOfGlobal X
             (nullish (orElse (baseDirs c) (baseDirs configByFile))
                [processCwd X])
             resolvedGlobal) ;;
   ret (Config.new
          {| ConfigParams.targets :=
               nullish (orElse (targets c) (targets configByFile))
                 defaultTargets;
             ConfigParams.features :=
               nullish (orElse (features c) (features configByFile))
                 defaultFeatures;
             ConfigParams.verbose :=
               nullish (orElse (verbose c) (verbose configByFile))
                 defaultVerbose;
             ConfigParams.delete :=
               nullish (orElse (delete c) (delete configByFile))
                 defaultDelete;
             ConfigParams.baseDirs := resolvedBaseDirs;
             ConfigParams.global := Some resolvedGlobal;
             ConfigParams.simulateCommands := Some resolvedSimulateCommands;
             ConfigParams.simulateSubagents := Some resolvedSimulateSubagents;
             ConfigParams.simulateSkills := Some resolvedSimulateSkills;
             ConfigParams.modularMcp :=
               Some (nullish (orElse (modularMcp c) (modularMcp configByFile))
                       defaultModularMcp);
             ConfigParams.experimentalGlobal := None;
             ConfigParams.experimentalSimulateCommands := None;
             ConfigParams.experimentalSimulateSubagents := None |}))%logged.

End ConfigResolver.

(** ** A concrete environment

    Stand-ins for the collaborators, used to run the model on examples: a
    POSIX-style [join] without normalisation, an in-memory canonical store and
    tool directory, and one plain adapter per tool that copies the canonical
    fields. *)

Module Sample.

Definition slash : ascii := "/"%char.

Fixpoint basenameFrom (s acc : string) : string :=
  match s with
  | EmptyString => acc
  | String c rest =>
      if Ascii.eqb c slash then basenameFrom rest EmptyString
      else basenameFrom rest (acc ++ String c EmptyString)
  end.

Definition sampleBasename (s : string) : string := basenameFrom s EmptyString.

Definition samplePathJoin (parts : list string) : string := join "/" parts.

Definition optionText (o : option string) : string := nullish o "-".

Definition sampleEncode (rules : list ToonRule) : string :=
  join nl
    (map (fun r =>
            (toonPath r ++ " | " ++ optionText (toonDescription r) ++ " | "
             ++ join "," (nullish (toonApplyTo r) []))%string)
         rules).

(** The plain adapter of a tool: targeting by the shared default test, a
    root rule written to [<tool>/ROOT.md] and the others below
    [<tool>/rules]; a file called [corrupt.md] does not parse. *)
Definition plainRule (toolTarget : string) (r : RulesyncRule.t) : ToolRule.t :=
  {| ToolRule.relativePathFromCwd :=
       if RulesyncRule.isRoot r
       then samplePathJoin [toolTarget; "ROOT.md"]
       else samplePathJoin [toolTarget; "rules"; RulesyncRule.relativeFilePath r];
     ToolRule.fileContent := RulesyncRule.body r;
     ToolRule.root := RulesyncRule.isRoot r;
     ToolRule.description := RulesyncRule.description (RulesyncRule.frontmatter r);
     ToolRule.globs := RulesyncRule.globs (RulesyncRule.frontmatter r) |}.

Definition plainFromFile (toolTarget : string) (params : ToolRuleFromFileParams)
  : result ToolRule.t :=
  if String.eqb (ff_relativeFilePath params) "corrupt.md"
  then Err (mkError "Invalid frontmatter in corrupt.md")
  else Ok {| ToolRule.relativePathFromCwd :=
               samplePathJoin [toolTarget; "rules"; ff_relativeFilePath params];
             ToolRule.fileContent := "content of " ++ ff_relativeFilePath params;
             ToolRule.root := false;
             ToolRule.description := None;
             ToolRule.globs := None |}.

Definition plainRuleClass (toolTarget : string) : ToolRuleClass :=
  {| isTargetedByRulesyncRule := fun r =>
       isTargetedByDefault (RulesyncRule.targets (RulesyncRule.frontmatter r))
         toolTarget;
     fromRulesyncRule := fun params =>
       Ok (plainRule toolTarget (frr_rulesyncRule params));
     fromFile := plainFromFile toolTarget;
     getSettablePaths := fun _ =>
       Ok {| rootPath := Some {| rootRelativeDirPath := Some toolTarget;
                                 rootRelativeFilePath := "ROOT.md" |};
             nonRootPath :=
               Some {| nonRootRelativeDirPath :=
                         samplePathJoin [toolTarget; "rules"] |} |} |}.

Definition plainGetFactory (target : string) : result ToolRuleFactory :=
  Ok {| ruleClass := plainRuleClass target; extension := md |}.

Definition plainToRulesyncRule (r : ToolRule.t) : result RulesyncRule.t :=
  Ok {| RulesyncRule.relativeFilePath := sampleBasename (ToolRule.relativePathFromCwd r);
        RulesyncRule.frontmatter :=
          {| RulesyncRule.root := Some (ToolRule.root r);
             RulesyncRule.targets := Some ["*"];
             RulesyncRule.description := ToolRule.description r;
             RulesyncRule.globs := ToolRule.globs r |};
        RulesyncRule.body := ToolRule.fileContent r |}.

Definition plainSkillDir (toolTarget : string) : string :=
  samplePathJoin ["." ++ toolTarget; "skills"].

Definition plainSkill (toolTarget baseDir dirName : string)
  (s : RulesyncSkill.t) : ToolSkill.t :=
  {| ToolSkill.baseDir := baseDir;
     ToolSkill.relativeDirPath := plainSkillDir toolTarget;
     ToolSkill.dirName := dirName;
     ToolSkill.name := RulesyncSkill.name (RulesyncSkill.frontmatter s);
     ToolSkill.description :=
       RulesyncSkill.description (RulesyncSkill.frontmatter s);
     ToolSkill.body := RulesyncSkill.body s;
     ToolSkill.simulated := false |}.

Definition skillOnDisk (dirName : string) : RulesyncSkill.t :=
  {| RulesyncSkill.dirName := dirName;
     RulesyncSkill.frontmatter :=
       {| RulesyncSkill.name := dirName;
          RulesyncSkill.description := "Skill " ++ dirName;
          RulesyncSkill.targets := None |};
     RulesyncSkill.body := "Body of " ++ dirName |}.

Definition plainSkillClass (toolTarget : string) : ToolSkillClass :=
  {| isTargetedByRulesyncSkill := fun s =>
       isTargetedByDefault (RulesyncSkill.targets (RulesyncSkill.frontmatter s))
         toolTarget;
     fromRulesyncSkill := fun params =>
       Ok (plainSkill toolTarget "/work"
             (RulesyncSkill.dirName (frs_rulesyncSkill params))
             (frs_rulesyncSkill params));
     fromDir := fun params =>
       if String.eqb (fd_dirName params) "corrupt"
       then Err (mkError "SKILL.md not found in corrupt")
       else Ok (plainSkill toolTarget (fd_baseDir params) (fd_dirName params)
                  (skillOnDisk (fd_dirName params)));
     getSkillSettablePaths := fun _ =>
       Ok {| skillsRelativeDirPath := plainSkillDir toolTarget |} |}.

Definition simulatedParamsOf (baseDir : string) (s : RulesyncSkill.t)
  : SimulatedSkillParams :=
  {| ssp_baseDir := baseDir;
     ssp_relativeDirPath := EmptyString;
     ssp_dirName := RulesyncSkill.dirName s;
     ssp_name := RulesyncSkill.name (RulesyncSkill.frontmatter s);
     ssp_description := RulesyncSkill.description (RulesyncSkill.frontmatter s);
     ssp_body := RulesyncSkill.body s;
     ssp_validate := None |}.

Definition plainNativeToRulesyncSkill (s : ToolSkill.t)
  : result RulesyncSkill.t :=
  Ok {| RulesyncSkill.dirName := ToolSkill.dirName s;
        RulesyncSkill.frontmatter :=
          {| RulesyncSkill.name := ToolSkill.name s;
             RulesyncSkill.description := ToolSkill.description s;
             RulesyncSkill.targets := Some ["*"] |};
        RulesyncSkill.body := ToolSkill.body s |}.

(** The files of the canonical rule store: name and parse result. *)
Definition Store : Type := list (string * result RulesyncRule.t).

Definition readStore (store : Store) (name : string) : result RulesyncRule.t :=
  match mapGet name store with
  | Some r => r
  | None => Err (mkError ("File not found: " ++ name))
  end.

(** The environment over a canonical store [store], the tool rule files
    [toolFiles] (matched by every tool glob) and the skill directories
    [skillDirs], with the scheduling [race] of the rejections.  A simulated
    skill without a name does not validate. *)
Definition envRacing (race : list Error -> nat) (store : Store)
  (toolFiles skillDirs : list string) : Externals :=
  {| cwd := "/work";
     settlesFirst := race;
     targetSchemaError := fun target => mkError ("Invalid option: " ++ target);
     pathJoin := samplePathJoin;
     basename := sampleBasename;
     findFilesByGlobs := fun pattern dirs =>
       if dirs then Ok skillDirs
       else if String.eqb pattern ".rulesync/rules/*.md"
            then Ok (map (fun entry => samplePathJoin [".rulesync/rules"; fst entry])
                         store)
            else if String.eqb (sampleBasename pattern) "*.md"
                 then Ok toolFiles
                 else Ok [];
     formatError := message;
     RULESYNC_RELATIVE_DIR_PATH := ".rulesync";
     RULESYNC_RULES_RELATIVE_DIR_PATH := ".rulesync/rules";
     RULESYNC_COMMANDS_RELATIVE_DIR_PATH := ".rulesync/commands";
     RULESYNC_SUBAGENTS_RELATIVE_DIR_PATH := ".rulesync/subagents";
     RULESYNC_SKILLS_RELATIVE_DIR_PATH := ".rulesync/skills";
     encode := sampleEncode;
     RulesyncRule_fromFile := readStore store;
     RulesyncRule_fromFileLegacy := readStore store;
     RulesyncSkill_relativeDirPath := ".rulesync/skills";
     RulesyncSkill_fromDir := fun _ dirName _ => Ok (skillOnDisk dirName);
     RuleClass_fromRulesyncRule := fun c =>
       fromRulesyncRule (plainRuleClass (ruleClassTarget c));
     RuleClass_fromFile := fun c => fromFile (plainRuleClass (ruleClassTarget c));
     RuleClass_getSettablePaths := fun c =>
       getSettablePaths (plainRuleClass (ruleClassTarget c));
     toRulesyncRule := plainToRulesyncRule;
     newCursorRule := fun params =>
       {| ToolRule.relativePathFromCwd :=
            samplePathJoin [cr_relativeDirPath params; cr_relativeFilePath params];
          ToolRule.fileContent := cr_body params;
          ToolRule.root := false;
          ToolRule.description := None;
          ToolRule.globs := None |};
     newRooRule := fun params =>
       {| ToolRule.relativePathFromCwd :=
            samplePathJoin [rr_relativeDirPath params; rr_relativeFilePath params];
          ToolRule.fileContent := rr_fileContent params;
          ToolRule.root := false;
          ToolRule.description := None;
          ToolRule.globs := None |};
     CursorRule_nonRootRelativeDirPath := ".cursor/rules";
     RooRule_nonRootRelativeDirPath := ".roo/rules";
     SkillClass_fromRulesyncSkill := fun c =>
       fromRulesyncSkill (plainSkillClass (skillClassTarget c));
     SkillClass_fromDir := fun c => fromDir (plainSkillClass (skillClassTarget c));
     SkillClass_getSettablePaths := fun c =>
       getSkillSettablePaths (plainSkillClass (skillClassTarget c));
     SimulatedSkill_validate := fun params =>
       if String.eqb (ssp_name params) EmptyString
       then Err (mkError "name: Required")
       else Ok tt;
     nativeToRulesyncSkill := plainNativeToRulesyncSkill;
     getDirPath := fun s =>
       samplePathJoin [ToolSkill.baseDir s; ToolSkill.relativeDirPath s;
                       ToolSkill.dirName s];
     fromDirDefault := fun params =>
       if String.eqb (fd_dirName params) "corrupt"
       then Err (mkError "SKILL.md not found in corrupt")
       else Ok (simulatedParamsOf (fd_baseDir params)
                  (skillOnDisk (fd_dirName params)));
     fromRulesyncSkillDefault := fun params =>
       Ok (simulatedParamsOf "/work" (frs_rulesyncSkill params));
     AgentsmdCommand_relativeDirPath := ".agents/commands";
     AgentsmdSubagent_relativeDirPath := ".agents/subagents";
     CodexCliSubagent_relativeDirPath := ".codex/subagents";
     CodexCliSkill_globalRelativeDirPath := ".codex/skills";
     CopilotCommand_relativeDirPath := ".github/commands";
     CopilotSubagent_relativeDirPath := ".github/subagents";
     CopilotSkill_relativeDirPath := ".github/skills";
     CursorCommand_relativeDirPath := ".cursor/commands";
     CursorSubagent_relativeDirPath := ".cursor/subagents";
     CursorSkill_relativeDirPath := ".cursor/skills";
     GeminiCliCommand_relativeDirPath := ".gemini/commands";
     GeminiCliSubagent_relativeDirPath := ".gemini/subagents";
     RooCommand_relativeDirPath := ".roo/commands";
     RooSubagent_relativeDirPath := ".roo/subagents";
     CommandsProcessor_getToolTargetsSimulated :=
       ["agentsmd"; "copilot"; "cursor"; "roo"];
     SubagentsProcessor_getToolTargetsSimulated :=
       ["agentsmd"; "codexcli"; "copilot"; "cursor"; "geminicli"; "roo"] |}.

(** The same, when the first rejection in the order of the array settles
    first. *)
Definition env (store : Store) (toolFiles skillDirs : list string)
  : Externals :=
  envRacing (fun _ => 0) store toolFiles skillDirs.

End Sample.

(** ** Vocabulary of the statements *)

(** The debug note for a skipped Simulated variant. *)
Definition skipNote (E : Externals) (toolSkill : ToolSkill.t) : LogEntry :=
  (Debug, "Skipping simulated skill conversion: " ++ getDirPath E toolSkill).

(** The entries of an input array that are tool skills, canonical skills and
    canonical rules, in the order of the array. *)
Definition toolSkillsIn (dirs : list AiDir) : list ToolSkill.t :=
  flat_map (fun dir => match dir with ToolSkillDir s => [s] | _ => [] end) dirs.

Definition canonicalSkillsIn (dirs : list AiDir) : list RulesyncSkill.t :=
  flat_map (fun dir => match dir with RulesyncSkillDir s => [s] | _ => [] end)
    dirs.

Definition canonicalRulesIn (files : list RulesyncFile) : list RulesyncRule.t :=
  flat_map (fun file => match file with RulesyncRuleFile r => [r] | _ => [] end)
    files.

(** The targeting condition in the words of the specification: the
    document's targets include the wildcard or the tool's identifier; a
    document that declares no targets is for every tool. *)
Definition targetsInclude (declared : option (list string)) (tool : string)
  : bool :=
  match declared with
  | None => true
  | Some targets => includes "*" targets || includes tool targets
  end.

Definition skillTargets (s : RulesyncSkill.t) : option (list string) :=
  RulesyncSkill.targets (RulesyncSkill.getFrontmatter s).

Definition ruleTargets (r : RulesyncRule.t) : option (list string) :=
  RulesyncRule.targets (RulesyncRule.getFrontmatter r).

(** A Native variant: not an instance of [SimulatedSkill]. *)
Definition isNative (toolSkill : ToolSkill.t) : bool :=
  negb (ToolSkill.simulated toolSkill).

(** The tools whose root rule receives a references block: the line format
    for claudecode, the TOON format for the others. *)
Definition toonOnlyTools : list string :=
  ["augmentcode-legacy"; "kiro"; "opencode"; "qwencode"; "warp"].

Definition toonAndConventionsTools : list string :=
  ["agentsmd"; "codexcli"; "geminicli"].

(** A load of two documents, the root one first or last. *)
Definition pairOf {A} (rootFirst : bool) (rootOne other : A) : list A :=
  if rootFirst then [rootOne; other] else [other; rootOne].

(** The references section for one non-root document with the given path,
    description and globs, in the two formats: the line format escapes the
    double quotes of the description and separates the globs by commas; the
    TOON format leaves an empty description and an empty list of globs
    out of the record. *)
Definition lineReferences (path description : string) (globs : list string)
  : string :=
  RulesProcessor.referencesHeader ++ nl ++ nl
  ++ "@" ++ path ++ " description: " ++ dquote ++ escapeQuotes description
  ++ dquote ++ " applyTo: " ++ dquote ++ join "," globs ++ dquote
  ++ nl ++ nl.

Definition toonReferences (E : Externals) (path description : string)
  (globs : list string) : string :=
  RulesProcessor.toonHeader ++ nl ++ nl
  ++ encode E [{| toonPath := "@" ++ path;
                  toonDescription :=
                    if String.eqb description EmptyString then None
                    else Some description;
                  toonApplyTo :=
                    match globs with [] => None | _ => Some globs end |}]
  ++ nl ++ nl.

(** The argument that the case of the tool target in the [switch] of
    [convertRulesyncFilesToToolFiles] hands to
    [generateAdditionalConventionsSection], for the four tools whose root
    document receives the block. *)
Definition rootConventionsArgs (E : Externals) (p : RulesProcessor.t)
  : option RulesProcessor.ConventionsArgs :=
  let target := RulesProcessor.toolTarget p in
  if String.eqb target "agentsmd" then
    Some {| RulesProcessor.commands := Some (AgentsmdCommand_relativeDirPath E);
            RulesProcessor.subagents := Some (AgentsmdSubagent_relativeDirPath E);
            RulesProcessor.skills := None |}
  else if String.eqb target "codexcli" then
    Some {| RulesProcessor.commands := None;
            RulesProcessor.subagents := Some (CodexCliSubagent_relativeDirPath E);
            RulesProcessor.skills :=
              Some (if RulesProcessor.global p
                    then CodexCliSkill_globalRelativeDirPath E
                    else pathJoin E [".codex"; "skills"]) |}
  else if String.eqb target "copilot" then
    Some {| RulesProcessor.commands := Some (CopilotCommand_relativeDirPath E);
            RulesProcessor.subagents := Some (CopilotSubagent_relativeDirPath E);
            RulesProcessor.skills := Some (CopilotSkill_relativeDirPath E) |}
  else if String.eqb target "geminicli" then
    Some {| RulesProcessor.commands := Some (GeminiCliCommand_relativeDirPath E);
            RulesProcessor.subagents :=
              Some (GeminiCliSubagent_relativeDirPath E);
            RulesProcessor.skills := None |}
  else None.

(** The additional-conventions block that the root document of the tool
    receives: the empty text for the tools that receive none. *)
Definition rootConventions (E : Externals) (p : RulesProcessor.t) : string :=
  match rootConventionsArgs E p with
  | Some args => RulesProcessor.generateAdditionalConventionsSection E p args
  | None => EmptyString
  end.

(** The store paths interpolated into the instructions. *)
Definition instructionPaths (E : Externals) : list string :=
  [ pathJoin E [RULESYNC_COMMANDS_RELATIVE_DIR_PATH E; "{command}.md"];
    pathJoin E [RULESYNC_SUBAGENTS_RELATIVE_DIR_PATH E; "{subagent}.md"];
    pathJoin E [RULESYNC_SUBAGENTS_RELATIVE_DIR_PATH E; "planner.md"];
    pathJoin E [RULESYNC_SKILLS_RELATIVE_DIR_PATH E; "{skill}/SKILL.md"];
    pathJoin E [RULESYNC_SKILLS_RELATIVE_DIR_PATH E; "example-skill/SKILL.md"] ].

Definition withoutHash (text : string) : bool := negb (containsStr "#" text).

(** [needle] and [text] differ at a position that both have. *)
Fixpoint mismatch (needle text : string) : bool :=
  match needle, text with
  | String a needle', String b text' =>
      if Ascii.eqb a b then mismatch needle' text' else true
  | _, _ => false
  end.

(** No occurrence of [needle] can begin inside [text], whatever follows
    [text]. *)
Fixpoint noStart (needle text : string) : bool :=
  match text with
  | EmptyString => true
  | String _ rest => mismatch needle text && noStart needle rest
  end.

(** The first characters of the four texts tell them apart, whatever the
    store paths interpolated further down. *)
Definition markerOf (f : RulesProcessor.Feature) : string :=
  match f with
  | RulesProcessor.Commands => "## Simulated Cu"
  | RulesProcessor.Subagents => "## Simulated Su"
  | RulesProcessor.Skills => "## Simulated Sk"
  end.

(** The condition under which the section of a feature carries its
    instructions. *)
Definition carriesInstructions (E : Externals) (p : RulesProcessor.t)
  (args : RulesProcessor.ConventionsArgs) (f : RulesProcessor.Feature) : bool :=
  RulesProcessor.simulateFlag p f
  && includes (RulesProcessor.toolTarget p)
       (RulesProcessor.getToolTargetsSimulatedOf E f)
  && match RulesProcessor.argFor args f with Some _ => true | None => false end.

(** The error entry written by the handler of [loadToolFiles]. *)
Definition loadFailure (E : Externals) (e : Error) : LogEntry :=
  (ErrorLevel, "Failed to load tool files: " ++ formatError E e).

(** The combinator of the specification: the first defined value of an
    ordered list of sources, and the default when none is defined. *)
Fixpoint firstDefined (sources : list (option bool)) (default : bool) : bool :=
  match sources with
  | [] => default
  | Some value :: _ => value
  | None :: rest => firstDefined rest default
  end.

Definition isDefined (value : option bool) : bool :=
  match value with Some _ => true | None => false end.

(** The deprecation warning of an option, when one of its deprecated sources
    is defined. *)
Definition deprecation (fromCli fromFile : option bool) (msg : string)
  : list LogEntry :=
  if isDefined fromCli || isDefined fromFile then [(Warn, msg)] else [].

(** ** Example inputs *)

Module Examples.

Definition rule (file : string) (isRoot : option bool)
  (declared : option (list string)) (about : option string)
  (patterns : option (list string)) (text : string) : RulesyncRule.t :=
  {| RulesyncRule.relativeFilePath := file;
     RulesyncRule.frontmatter :=
       {| RulesyncRule.root := isRoot;
          RulesyncRule.targets := declared;
          RulesyncRule.description := about;
          RulesyncRule.globs := patterns |};
     RulesyncRule.body := text |}.

(** The end-to-end example of the specification. *)
Definition overviewRule : RulesyncRule.t :=
  rule "overview.md" (Some true) (Some ["*"]) None None "Intro".

Definition styleRule : RulesyncRule.t :=
  rule "style.md" None None (Some "Style guide") (Some ["*.ts"]) "Use const.".

(** A second root rule, and two rules for one tool only. *)
Definition secondRoot : RulesyncRule.t :=
  rule "second.md" (Some true) None None None "Another root".

Definition claudeOnly : RulesyncRule.t :=
  rule "claude.md" None (Some ["claudecode"]) (Some "For one tool") None "Claude".

Definition zebraRule : RulesyncRule.t :=
  rule "zebra.md" None (Some ["*"]) (Some "Z") (Some ["z/**"]) "Zebra".

Definition appleRule : RulesyncRule.t :=
  rule "apple.md" None (Some ["*"]) (Some "A") (Some ["a/**"]) "Apple".

Definition storeOf (rules : list RulesyncRule.t) : Sample.Store :=
  map (fun r => (RulesyncRule.relativeFilePath r, Ok r)) rules.

Definition oneRootStore : Sample.Store :=
  storeOf [overviewRule; styleRule; claudeOnly].

Definition twoRootStore : Sample.Store :=
  storeOf [overviewRule; secondRoot; styleRule].

(** One corrupt and one valid tool document on disk. *)
Definition toolFilesOnDisk : list string :=
  ["/work/claudecode/rules/corrupt.md"; "/work/claudecode/rules/valid.md"].

Definition E1 : Externals := Sample.env oneRootStore toolFilesOnDisk [].
Definition E2 : Externals := Sample.env twoRootStore toolFilesOnDisk [].

Definition processor (target : string)
  (withCommands withSubagents withSkills inGlobal : bool) : RulesProcessor.t :=
  {| RulesProcessor.baseDir := "/work";
     RulesProcessor.toolTarget := target;
     RulesProcessor.simulateCommands := withCommands;
     RulesProcessor.simulateSubagents := withSubagents;
     RulesProcessor.simulateSkills := withSkills;
     RulesProcessor.global := inGlobal;
     RulesProcessor.getFactory := Sample.plainGetFactory |}.

Definition claudecode : RulesProcessor.t :=
  processor "claudecode" false false false false.

Definition claudecodeGlobal : RulesProcessor.t :=
  processor "claudecode" false false false true.

Definition agentsmd : RulesProcessor.t :=
  processor "agentsmd" false false false false.

Definition agentsmdWithSkills : RulesProcessor.t :=
  processor "agentsmd" false false true false.

Definition cursorWithSkills : RulesProcessor.t :=
  processor "cursor" false false true false.

Definition geminicli : RulesProcessor.t :=
  processor "geminicli" false false false false.

Definition copilotWithSkills : RulesProcessor.t :=
  processor "copilot" false false true false.

(** What the case of copilot hands to the generator on the example
    environment. *)
Definition copilotArgs : RulesProcessor.ConventionsArgs :=
  {| RulesProcessor.commands := Some ".github/commands";
     RulesProcessor.subagents := Some ".github/subagents";
     RulesProcessor.skills := Some ".github/skills" |}.

(** A rule whose description holds double quotes; it has two globs. *)
Definition quotedText : string :=
  String "034"%char "strict" ++ String "034"%char " mode".

Definition quotedRule : RulesyncRule.t :=
  rule "quoted.md" None None (Some quotedText) (Some ["src/**"; "test/**"])
    "Be strict.".

(** A rules processor on the registry of the source. *)
Definition registered (target : string) : RulesProcessor.t :=
  {| RulesProcessor.baseDir := "/work";
     RulesProcessor.toolTarget := target;
     RulesProcessor.simulateCommands := false;
     RulesProcessor.simulateSubagents := false;
     RulesProcessor.simulateSkills := false;
     RulesProcessor.global := false;
     RulesProcessor.getFactory := defaultGetRuleFactory E1 |}.

Definition plainFactory (target : string) : ToolRuleFactory :=
  {| ruleClass := Sample.plainRuleClass target; extension := md |}.

Definition claudecodePaths : ToolRuleSettablePaths :=
  {| rootPath := Some {| rootRelativeDirPath := Some "claudecode";
                         rootRelativeFilePath := "ROOT.md" |};
     nonRootPath :=
       Some {| nonRootRelativeDirPath := "claudecode/rules" |} |}.

(** The skills processor for Codex CLI in project mode, on the registry of
    the source. *)
Definition codexcliProject : SkillsProcessor.t :=
  {| SkillsProcessor.baseDir := "/work";
     SkillsProcessor.toolTarget := "codexcli";
     SkillsProcessor.global := false;
     SkillsProcessor.getFactory := defaultGetFactory E1 |}.

Definition codexcliProjectFactory : ResolvedToolSkillFactory :=
  {| resolvedClass := CodexCliSimulatedSkill.class E1;
     resolvedMeta := skillMetaOf true true true |}.

Definition skill (dir : string) (declared : option (list string))
  : RulesyncSkill.t :=
  {| RulesyncSkill.dirName := dir;
     RulesyncSkill.frontmatter :=
       {| RulesyncSkill.name := dir;
          RulesyncSkill.description := "Skill " ++ dir;
          RulesyncSkill.targets := declared |};
     RulesyncSkill.body := "Body of " ++ dir |}.

Definition skillDirs : list AiDir :=
  [ RulesyncSkillDir (skill "for-all" (Some ["*"]));
    RulesyncSkillDir (skill "for-claude" (Some ["claudecode"]));
    OtherDir "not-a-skill";
    RulesyncSkillDir (skill "for-codex" (Some ["codexcli"; "cursor"])) ].

(** The collaborators of the config resolver over an optional config file. *)
Definition configExternals (file : option PartialConfigParams.t)
  : ConfigExternals :=
  {| processCwd := "/work";
     resolvePath := fun path base => Ok (Sample.samplePathJoin [base; path]);
     fileExists := fun _ => match file with Some _ => true | None => false end;
     readFileContent := fun _ => Ok "{ }";
     parseConfigFile := fun _ =>
       match file with
       | Some config => Ok config
       | None => Err (mkError "Unexpected end of input")
       end;
     getHomeDirectory := "/home/user";
     resolve := fun dir => dir;
     validateBaseDir := fun dir =>
       if String.prefix "/" dir then Ok tt
       else Err (mkError ("Invalid base directory: " ++ dir));
     formatConfigError := message |}.

Definition withOptions (newGlobal oldGlobal oldCommands : option bool)
  : PartialConfigParams.t :=
  {| PartialConfigParams.baseDirs := None;
     PartialConfigParams.targets := None;
     PartialConfigParams.features := None;
     PartialConfigParams.verbose := None;
     PartialConfigParams.delete := None;
     PartialConfigParams.global := newGlobal;
     PartialConfigParams.simulateCommands := None;
     PartialConfigParams.simulateSubagents := None;
     PartialConfigParams.simulateSkills := None;
     PartialConfigParams.modularMcp := None;
     PartialConfigParams.experimentalGlobal := oldGlobal;
     PartialConfigParams.experimentalSimulateCommands := oldCommands;
     PartialConfigParams.experimentalSimulateSubagents := None |}.

(** The config file sets the new [global] to false; the command line passes
    the deprecated [experimentalGlobal] and [experimentalSimulateCommands],
    both true. *)
Definition configFile : PartialConfigParams.t :=
  withOptions (Some false) None None.

Definition commandLine : ConfigResolver.ResolveParams :=
  {| ConfigResolver.cli := withOptions None (Some true) (Some true);
     ConfigResolver.configPath := None |}.

End Examples.

(** ** Further queries of the configuration (config.ts) *)

Module ConfigQueries.

(** [Config.getTargets]; [allToolTargets] is [ALL_TOOL_TARGETS] of
    types/tool-targets.ts. *)
Definition getTargets (allToolTargets : list string) (c : Config.t)
  : list string :=
  if includes "*" (Config.targets c) then allToolTargets
  else filter (fun target => negb (String.eqb target "*")) (Config.targets c).

(** [Config.getFeatures]; [allFeatures] is [ALL_FEATURES] of
    types/features.ts. *)
Definition getFeatures (allFeatures : list string) (c : Config.t)
  : list string :=
  if includes "*" (Config.features c) then allFeatures
  else filter (fun feature => negb (String.eqb feature "*")) (Config.features c).

End ConfigQueries.

(** ** Vocabulary of the further statements *)

(** The tool targets with a case of their own in the [switch] of
    [convertRulesyncFilesToToolFiles]. *)
Definition switchTools : list string :=
  ["agentsmd"; "augmentcode-legacy"; "claudecode"; "codexcli"; "copilot";
   "geminicli"; "kiro"; "opencode"; "qwencode"; "warp"].

(** A document after injection: the same document, or a root document whose
    content received a prefix. *)
Definition keptOrPrefixed (before after : ToolRule.t) : Prop :=
  after = before
  \/ (ToolRule.isRoot before = true
      /\ exists prefix,
           after = ToolRule.setFileContent
                     (prefix ++ ToolRule.getFileContent before) before).

(** The synthetic rules pushed by [convertRulesyncFilesToToolFiles]. *)
Definition pushedRules (E : Externals) (p : RulesProcessor.t)
  : list ToolRule.t :=
  if RulesProcessor.isSimulated p
  then if String.eqb (RulesProcessor.toolTarget p) "cursor"
       then [RulesProcessor.cursorConventionsRule E p]
       else if String.eqb (RulesProcessor.toolTarget p) "roo"
            then [RulesProcessor.rooConventionsRule E p]
            else []
  else [].

(** The fields of a resolved configuration that have no deprecated synonym:
    command line first, then the config file, then the default. *)
Definition cliThenFile {A} (fromCli fromFile : option A) (default : A) : A :=
  match fromCli with
  | Some value => value
  | None => match fromFile with
            | Some value => value
            | None => default
            end
  end.

(** The log lines of the loaders. *)
Definition loadedSkillsNote (count : nat) (dir : string) : LogEntry :=
  (Info, "Successfully loaded " ++ showNat count ++ " " ++ dir ++ " skills").

Definition loadedRulesyncSkillsNote (count : nat) : LogEntry :=
  (Info, "Successfully loaded " ++ showNat count ++ " rulesync skills").

Definition foundRootNote (count : nat) : LogEntry :=
  (Debug, "Found " ++ showNat count ++ " root tool rule files").

Definition foundNonRootNote (count : nat) : LogEntry :=
  (Debug, "Found " ++ showNat count ++ " non-root tool rule files").

Definition foundRulesyncNote (count : nat) : LogEntry :=
  (Debug, "Found " ++ showNat count ++ " rulesync files").

Definition foundLegacyNote (count : nat) : LogEntry :=
  (Debug, "Found " ++ showNat count ++ " legacy rulesync files").

Definition configFailure (X : ConfigExternals) (e : Error) : LogEntry :=
  (ErrorLevel, "Failed to load config file: " ++ formatConfigError X e).

(** The reading of an escaped description: a backslash directly before a
    double quote is dropped. *)
Fixpoint unescapeQuotes (s : string) : string :=
  match s with
  | EmptyString => EmptyString
  | String c rest =>
      match rest with
      | EmptyString => String c EmptyString
      | String d rest' =>
          if Ascii.eqb c "092"%char && Ascii.eqb d "034"%char
          then String d (unescapeQuotes rest')
          else String c (unescapeQuotes rest)
      end
  end.

(** The double quotes of a text that do not follow a backslash. *)
Fixpoint bareQuotes (afterBackslash : bool) (s : string) : nat :=
  match s with
  | EmptyString => 0
  | String c rest =>
      (if Ascii.eqb c "034"%char && negb afterBackslash then 1 else 0)
      + bareQuotes (Ascii.eqb c "092"%char) rest
  end.

(** ** Further example inputs *)

Module MoreExamples.

Import Examples.

(** Two valid tool documents on disk. *)
Definition validToolFiles : list string :=
  ["/work/claudecode/rules/valid.md"; "/work/claudecode/rules/other.md"].

Definition E3 : Externals := Sample.env oneRootStore validToolFiles [].

(** The legacy store: both files are root rules. *)
Definition legacyFiles : list string :=
  [".rulesync/overview.md"; ".rulesync/second.md"].

Definition E4 : Externals :=
  Sample.env (storeOf [overviewRule; secondRoot]) legacyFiles [].

(** Skill directories on disk, one of them without a manifest. *)
Definition E5 : Externals :=
  Sample.env [] [] ["/work/.claudecode/skills/alpha";
                    "/work/.claudecode/skills/beta"].

Definition E6 : Externals :=
  Sample.env [] [] ["/work/.claudecode/skills/alpha";
                    "/work/.claudecode/skills/corrupt"].

(** A store with two files that do not parse, read when the rejection of the
    second one settles first. *)
Definition twiceBrokenStore : Sample.Store :=
  [("overview.md", Ok overviewRule);
   ("broken.md", Err (mkError "Invalid frontmatter in broken.md"));
   ("worse.md", Err (mkError "Unexpected token in worse.md"))].

Definition E7 : Externals :=
  Sample.envRacing (fun _ => 1) twiceBrokenStore [] [].

Definition windsurf : RulesProcessor.t :=
  processor "windsurf" true true true false.

Definition kiro : RulesProcessor.t :=
  processor "kiro" false false false false.

(** A processor whose factory lookup fails, as in the tests. *)
Definition unsupportedError (target : string) : Error :=
  mkError ("Unsupported tool target: " ++ target).

Definition unsupportedRules : RulesProcessor.t :=
  {| RulesProcessor.baseDir := "/work";
     RulesProcessor.toolTarget := "unsupported";
     RulesProcessor.simulateCommands := false;
     RulesProcessor.simulateSubagents := false;
     RulesProcessor.simulateSkills := false;
     RulesProcessor.global := false;
     RulesProcessor.getFactory := fun target => Err (unsupportedError target) |}.

Definition unsupportedSkills : SkillsProcessor.t :=
  {| SkillsProcessor.baseDir := "/work";
     SkillsProcessor.toolTarget := "unsupported";
     SkillsProcessor.global := false;
     SkillsProcessor.getFactory := fun target _ => Err (unsupportedError target) |}.

Definition claudecodeSkills : SkillsProcessor.t :=
  {| SkillsProcessor.baseDir := "/work";
     SkillsProcessor.toolTarget := "claudecode";
     SkillsProcessor.global := false;
     SkillsProcessor.getFactory := defaultGetFactory E5 |}.

Definition claudecodeSkillsBroken : SkillsProcessor.t :=
  {| SkillsProcessor.baseDir := "/work";
     SkillsProcessor.toolTarget := "claudecode";
     SkillsProcessor.global := false;
     SkillsProcessor.getFactory := defaultGetFactory E6 |}.

(** A config file that exists and does not parse. *)
Definition brokenConfigExternals : ConfigExternals :=
  {| processCwd := "/work";
     resolvePath := fun path base => Ok (Sample.samplePathJoin [base; path]);
     fileExists := fun _ => true;
     readFileContent := fun _ => Ok "{ targets: ";
     parseConfigFile := fun _ => Err (mkError "Unexpected end of input");
     getHomeDirectory := "/home/user";
     resolve := fun dir => dir;
     validateBaseDir := fun dir =>
       if String.prefix "/" dir then Ok tt
       else Err (mkError ("Invalid base directory: " ++ dir));
     formatConfigError := message |}.

(** The deprecated [experimentalGlobal] alone, with base directories that
    would not validate. *)
Definition globalByDeprecatedOption : ConfigResolver.ResolveParams :=
  {| ConfigResolver.cli :=
       {| PartialConfigParams.baseDirs := Some ["relative/dir"];
          PartialConfigParams.targets := Some ["*"; "cursor"];
          PartialConfigParams.features := None;
          PartialConfigParams.verbose := None;
          PartialConfigParams.delete := None;
          PartialConfigParams.global := None;
          PartialConfigParams.simulateCommands := None;
          PartialConfigParams.simulateSubagents := None;
          PartialConfigParams.simulateSkills := None;
          PartialConfigParams.modularMcp := None;
          PartialConfigParams.experimentalGlobal := Some true;
          PartialConfigParams.experimentalSimulateCommands := None;
          PartialConfigParams.experimentalSimulateSubagents := None |};
     ConfigResolver.configPath := None |}.

End MoreExamples.

(** * Properties *)

(** ** Results and lists of results *)

Section ResultLemmas.

Context {A B : Type}.
Variable f : A -> result B.

Lemma mapM_app (xs ys : list A) :
  mapM f (xs ++ ys)
  = bind (mapM f xs) (fun xs' =>
      bind (mapM f ys) (fun ys' => Ok (xs' ++ ys')%list)).
Proof.
  induction xs as [|x xs IH]; simpl.
  - destruct (mapM f ys); reflexivity.
  - destruct (f x) as [y|e]; simpl; [|reflexivity].
    rewrite IH. destruct (mapM f xs) as [xs'|e]; simpl; [|reflexivity].
    destruct (mapM f ys); reflexivity.
Qed.

(** Every element converts when the whole list does, position by position. *)
Lemma mapM_Forall2 (xs : list A) (ys : list B) :
  mapM f xs = Ok ys -> Forall2 (fun x y => f x = Ok y) xs ys.
Proof.
  revert ys. induction xs as [|x xs IH]; simpl; intros ys H.
  - injection H as <-. constructor.
  - destruct (f x) as [y|e] eqn:Hx; simpl in H; [|discriminate].
    destruct (mapM f xs) as [ys'|e] eqn:Hxs; simpl in H; [|discriminate].
    injection H as <-. constructor; auto.
Qed.

(** One failing element makes the whole list fail. *)
Lemma mapM_fails (xs : list A) (x : A) (e : Error) :
  In x xs -> f x = Err e -> exists e', mapM f xs = Err e'.
Proof.
  induction xs as [|a xs IH]; simpl; intros Hin Hx; [contradiction|].
  destruct Hin as [->|Hin].
  - rewrite Hx. simpl. eauto.
  - destruct (f a); simpl; [|eauto].
    destruct (IH Hin Hx) as [e' ->]. simpl. eauto.
Qed.

Lemma mapM_total (g : A -> B) (xs : list A) :
  (forall x, In x xs -> f x = Ok (g x)) -> mapM f xs = Ok (map g xs).
Proof.
  induction xs as [|a xs IH]; simpl; intros H; [reflexivity|].
  rewrite (H a (or_introl eq_refl)). simpl.
  rewrite IH by auto. reflexivity.
Qed.

Lemma mapM_isOk (xs : list A) :
  isOk (mapM f xs) = forallb (fun x => isOk (f x)) xs.
Proof.
  induction xs as [|x xs IH]; simpl; [reflexivity|].
  destruct (f x); simpl; [|reflexivity].
  rewrite <- IH. now destruct (mapM f xs).
Qed.

(** The [map] to a document or null followed by the [filter] of the nulls is
    the conversion of the documents that pass the test, in their order. *)
Lemma mapM_orNull (test : A -> bool) (xs : list A) :
  bind (mapM (fun x => if negb (test x) then Ok None
                       else bind (f x) (fun y => Ok (Some y))) xs)
       (fun converted => Ok (SkillsProcessor.nonNull converted))
  = mapM f (filter test xs).
Proof.
  induction xs as [|x xs IH]; simpl; [reflexivity|].
  destruct (test x); simpl.
  - destruct (f x) as [y|e]; simpl; [|reflexivity].
    rewrite <- IH.
    destruct (mapM _ xs); reflexivity.
  - rewrite <- IH.
    destruct (mapM _ xs); reflexivity.
Qed.

(** [Promise.all]: on the success path it is [mapM]; when it rejects, the
    error is the rejection of one of the elements. *)
Variable race : list Error -> nat.

Lemma promiseAll_ok (xs : list A) (ys : list B) :
  mapM f xs = Ok ys -> promiseAll race f xs = Ok ys.
Proof. unfold promiseAll. now intros ->. Qed.

Lemma promiseAll_ok_inv (xs : list A) (ys : list B) :
  promiseAll race f xs = Ok ys -> mapM f xs = Ok ys.
Proof. unfold promiseAll. destruct (mapM f xs); [auto|discriminate]. Qed.

Lemma promiseAll_isOk (xs : list A) :
  isOk (promiseAll race f xs) = isOk (mapM f xs).
Proof. unfold promiseAll. now destruct (mapM f xs). Qed.

Lemma rejections_In (xs : list A) (e : Error) :
  In e (rejections f xs) <-> exists x, In x xs /\ f x = Err e.
Proof.
  induction xs as [|a xs IH]; simpl.
  - split; [contradiction|]. now intros [x [[] _]].
  - destruct (f a) as [y|e'] eqn:Ha; simpl; rewrite IH; split.
    + intros [x [Hin Hx]]. exists x. auto.
    + intros [x [[<-|Hin] Hx]]; [congruence|eauto].
    + intros [<-|[x [Hin Hx]]]; [exists a; auto|exists x; auto].
    + intros [x [[<-|Hin] Hx]]; [left; congruence|right; eauto].
Qed.

Lemma mapM_rejected (xs : list A) (e : Error) :
  mapM f xs = Err e -> In e (rejections f xs).
Proof.
  induction xs as [|a xs IH]; simpl; [discriminate|].
  destruct (f a) as [y|e'] eqn:Ha; simpl.
  - destruct (mapM f xs) as [ys|e'']; simpl; [discriminate|].
    intros [= <-]. now apply IH.
  - intros [= <-]. now left.
Qed.

Lemma promiseAll_rejected (xs : list A) (e : Error) :
  promiseAll race f xs = Err e -> exists x, In x xs /\ f x = Err e.
Proof.
  unfold promiseAll. destruct (mapM f xs) as [ys|inOrder] eqn:Hm; [discriminate|].
  intros [= <-]. apply rejections_In.
  destruct (nth_in_or_default (race (rejections f xs)) (rejections f xs) inOrder)
    as [Hin| ->]; [exact Hin|].
  now apply mapM_rejected.
Qed.

Lemma promiseAll_fails (xs : list A) (x : A) (e : Error) :
  In x xs -> f x = Err e -> exists e', promiseAll race f xs = Err e'.
Proof.
  intros Hin Hx. destruct (@mapM_fails xs x e Hin Hx) as [e' He'].
  unfold promiseAll. rewrite He'. eauto.
Qed.

End ResultLemmas.

Lemma mapM_map {A B C} (g : A -> B) (f : B -> result C) (xs : list A) :
  mapM f (map g xs) = mapM (fun x => f (g x)) xs.
Proof. induction xs as [|x xs IH]; simpl; [reflexivity|now rewrite IH]. Qed.

Lemma rejections_map {A B C} (g : A -> B) (f : B -> result C) (xs : list A) :
  rejections f (map g xs) = rejections (fun x => f (g x)) xs.
Proof.
  induction xs as [|x xs IH]; simpl; [reflexivity|].
  rewrite IH. reflexivity.
Qed.

Lemma promiseAll_map {A B C} (race : list Error -> nat) (g : A -> B)
  (f : B -> result C) (xs : list A) :
  promiseAll race f (map g xs) = promiseAll race (fun x => f (g x)) xs.
Proof. unfold promiseAll. now rewrite mapM_map, rejections_map. Qed.

Lemma filter_all {A} (test : A -> bool) (xs : list A) :
  (forall x, In x xs -> test x = true) -> filter test xs = xs.
Proof.
  induction xs as [|x xs IH]; simpl; intros H; [reflexivity|].
  rewrite (H x (or_introl eq_refl)). f_equal. apply IH. auto.
Qed.

Lemma mapM_length {A B} (f : A -> result B) (xs : list A) (ys : list B) :
  mapM f xs = Ok ys -> length ys = length xs.
Proof.
  intros H. apply mapM_Forall2 in H. symmetry.
  induction H; simpl; congruence.
Qed.

Lemma includes_true (x : string) (xs : list string) :
  includes x xs = true <-> In x xs.
Proof.
  unfold includes. rewrite existsb_exists. split.
  - intros [y [Hin Heq]]. apply String.eqb_eq in Heq. now subst.
  - intros Hin. exists x. split; [assumption|apply String.eqb_refl].
Qed.

Lemma filter_none {A} (test : A -> bool) (xs : list A) :
  (forall x, In x xs -> test x = false) -> filter test xs = [].
Proof.
  induction xs as [|x xs IH]; simpl; intros H; [reflexivity|].
  rewrite (H x (or_introl eq_refl)). apply IH. auto.
Qed.

(** ** Strings *)

Lemma append_assoc (a b c : string) : (a ++ b) ++ c = a ++ (b ++ c).
Proof. induction a as [|ch a IH]; simpl; [reflexivity|now rewrite IH]. Qed.

Lemma append_nil_r (a : string) : a ++ EmptyString = a.
Proof. induction a as [|ch a IH]; simpl; [reflexivity|now rewrite IH]. Qed.

Lemma prefix_append (a b : string) : String.prefix a (a ++ b) = true.
Proof.
  induction a as [|ch a IH]; simpl; [now destruct b|].
  destruct (ascii_dec ch ch); [assumption|contradiction].
Qed.

(** ** The logger monad *)

Lemma bindL_ok {A B} (a : A) (k : A -> Logged B) :
  bindL (lift (Ok a)) k = k a.
Proof. unfold bindL, lift. destruct (k a). reflexivity. Qed.

Lemma bindL_ret {A B} (a : A) (k : A -> Logged B) :
  bindL (ret a) k = k a.
Proof. apply bindL_ok. Qed.

Lemma bindL_err {A B} (e : Error) (k : A -> Logged B) :
  bindL (lift (Err e)) k = ([], Err e).
Proof. reflexivity. Qed.

Lemma bindL_log {B} (lvl : LogLevel) (msg : string) (k : unit -> Logged B) :
  bindL (log lvl msg) k = ((lvl, msg) :: logOf (k tt), outcome (k tt)).
Proof. unfold bindL, log, logOf, outcome. destruct (k tt). reflexivity. Qed.

Lemma logged_eta {A} (m : Logged A) : m = (logOf m, outcome m).
Proof. destruct m. reflexivity. Qed.

(** A [try] block with a handler that returns normally never throws. *)
Lemma tryCatch_outcome {A} (m : Logged A) (h : Error -> Logged A) :
  outcome (tryCatch m h)
  = match outcome m with
    | Ok a => Ok a
    | Err e => outcome (h e)
    end.
Proof.
  destruct m as [l [a|e]]; simpl; [reflexivity|].
  destruct (h e). reflexivity.
Qed.

Lemma tryCatch_log {A} (m : Logged A) (h : Error -> Logged A) :
  logOf (tryCatch m h)
  = match outcome m with
    | Ok _ => logOf m
    | Err e => (logOf m ++ logOf (h e))%list
    end.
Proof.
  destruct m as [l [a|e]]; simpl; [reflexivity|].
  destruct (h e). reflexivity.
Qed.

(** ** The stages of the rule conversion *)

Lemma setFileContent_same (r : ToolRule.t) :
  ToolRule.setFileContent (ToolRule.getFileContent r) r = r.
Proof. destruct r. reflexivity. Qed.

Lemma findIndex_Some {A} (test : A -> bool) (xs : list A) (i : nat) :
  findIndex test xs = Some i ->
  exists x, nth_error xs i = Some x /\ test x = true.
Proof.
  revert i. induction xs as [|x xs IH]; simpl; intros i; [discriminate|].
  destruct (test x) eqn:Hx.
  - intros [= <-]. exists x. split; [reflexivity|exact Hx].
  - destruct (findIndex test xs) as [j|]; [|discriminate].
    intros [= <-]. apply (IH j eq_refl).
Qed.

Lemma findIndex_None {A} (test : A -> bool) (xs : list A) :
  existsb test xs = false -> findIndex test xs = None.
Proof.
  induction xs as [|x xs IH]; simpl; [reflexivity|].
  destruct (test x); simpl; [discriminate|].
  intros H. now rewrite (IH H).
Qed.

Lemma setAt_same {A} (xs : list A) (i : nat) (x : A) :
  nth_error xs i = Some x -> setAt i x xs = xs.
Proof.
  revert i. induction xs as [|y ys IH]; intros [|i]; simpl;
    try discriminate.
  - now intros [= ->].
  - intros H. now rewrite (IH i H).
Qed.

Lemma setAt_Forall2 {A} (R : A -> A -> Prop) (xs : list A) (i : nat) (x v : A) :
  (forall y, R y y) ->
  nth_error xs i = Some x -> R x v -> Forall2 R xs (setAt i v xs).
Proof.
  intros Hrefl. revert i.
  assert (Hsame : forall ys, Forall2 R ys ys)
    by (induction ys; constructor; auto).
  induction xs as [|y ys IH]; intros [|i]; simpl; try discriminate.
  - intros [= ->] Hv. constructor; auto.
  - intros Hnth Hv. constructor; auto.
Qed.

Lemma keptOrPrefixed_refl (r : ToolRule.t) : keptOrPrefixed r r.
Proof. now left. Qed.

Lemma Forall2_kept (rs : list ToolRule.t) : Forall2 keptOrPrefixed rs rs.
Proof. induction rs; constructor; auto using keptOrPrefixed_refl. Qed.

Lemma prependToRoot_shape (i : nat) (rs out : list ToolRule.t)
  (generated : result string) :
  (forall r, nth_error rs i = Some r -> ToolRule.isRoot r = true) ->
  RulesProcessor.prependToRoot i rs generated = Ok out ->
  Forall2 keptOrPrefixed rs out.
Proof.
  intros Hroot. unfold RulesProcessor.prependToRoot.
  destruct (nth_error rs i) as [r|] eqn:Hnth.
  - destruct generated as [prefix|e]; cbn [bind]; [|discriminate].
    intros [= <-].
    apply (@setAt_Forall2 _ keptOrPrefixed rs i r _ keptOrPrefixed_refl Hnth).
    right. split; [now apply Hroot|]. now exists prefix.
  - intros [= <-]. apply Forall2_kept.
Qed.

Lemma injectIntoRoot_shape (E : Externals) (p : RulesProcessor.t) (i : nat)
  (rs out : list ToolRule.t) :
  (forall r, nth_error rs i = Some r -> ToolRule.isRoot r = true) ->
  RulesProcessor.injectIntoRoot E p i rs = Ok out ->
  Forall2 keptOrPrefixed rs out.
Proof.
  intros Hroot. unfold RulesProcessor.injectIntoRoot.
  repeat match goal with
  | |- context [if String.eqb ?a ?b then _ else _] =>
      destruct (String.eqb a b);
      [now apply prependToRoot_shape|]
  end.
  intros [= <-]. apply Forall2_kept.
Qed.

Lemma pushes_are_pushedRules (E : Externals) (p : RulesProcessor.t)
  (toolRules : list ToolRule.t) :
  RulesProcessor.pushIf
    (RulesProcessor.isSimulated p
     && String.eqb (RulesProcessor.toolTarget p) "roo")
    (RulesProcessor.rooConventionsRule E p)
    (RulesProcessor.pushIf
       (RulesProcessor.isSimulated p
        && String.eqb (RulesProcessor.toolTarget p) "cursor")
       (RulesProcessor.cursorConventionsRule E p) toolRules)
  = (toolRules ++ pushedRules E p)%list.
Proof.
  unfold RulesProcessor.pushIf, pushedRules.
  destruct (RulesProcessor.isSimulated p); cbn [andb];
    [|now rewrite app_nil_r].
  destruct (String.eqb_spec (RulesProcessor.toolTarget p) "cursor") as [->|_].
  - reflexivity.
  - destruct (String.eqb (RulesProcessor.toolTarget p) "roo");
      [reflexivity|now rewrite app_nil_r].
Qed.

(** The run of [convertRulesyncFilesToToolFiles] once the adapter is found
    and the targeted rules are converted. *)
Lemma convert_after_conversion (E : Externals) (p : RulesProcessor.t)
  (files : list RulesyncFile) (factory : ToolRuleFactory)
  (toolRules : list ToolRule.t) :
  RulesProcessor.getFactory p (RulesProcessor.toolTarget p) = Ok factory ->
  RulesProcessor.convertTargeted p factory (RulesProcessor.rulesyncRulesOf files)
  = Ok toolRules ->
  RulesProcessor.convertRulesyncFilesToToolFiles E p files
  = match findIndex ToolRule.isRoot (toolRules ++ pushedRules E p) with
    | None => Ok (toolRules ++ pushedRules E p)%list
    | Some rootRuleIndex =>
        RulesProcessor.injectIntoRoot E p rootRuleIndex
          (toolRules ++ pushedRules E p)
    end.
Proof.
  intros Hf Hc. unfold RulesProcessor.convertRulesyncFilesToToolFiles.
  rewrite Hf. cbn [bind]. rewrite Hc. cbn [bind].
  now rewrite pushes_are_pushedRules.
Qed.

Lemma injectIntoRoot_cursor_roo (E : Externals) (p : RulesProcessor.t)
  (i : nat) (toolRules : list ToolRule.t) :
  RulesProcessor.toolTarget p = "cursor" \/ RulesProcessor.toolTarget p = "roo" ->
  RulesProcessor.injectIntoRoot E p i toolRules = Ok toolRules.
Proof.
  unfold RulesProcessor.injectIntoRoot. intros [H|H]; rewrite H; reflexivity.
Qed.

(** ** C5: mode-based adapter selection *)

(** C5.  Registry resolution ([defaultGetFactory] of the skills processor):
    for a registered tool identifier, global mode returns the default class
    of the entry and project mode returns the entry's project class when it
    declares one and the default class otherwise, with the entry's metadata;
    an unregistered identifier fails with the error that names it.  The
    registered identifiers are exactly the six of the processor; codexcli is
    the one entry with a distinct project class, the simulated one. *)
Theorem defaultGetFactory_mode_selection :
  forall (E : Externals) (target : string),
    match mapGet target (toolSkillFactories E) with
    | Some entry =>
        defaultGetFactory E target true
        = Ok {| resolvedClass := skillClass entry;
                resolvedMeta := skillMeta entry |}
        /\ defaultGetFactory E target false
           = Ok {| resolvedClass :=
                     match projectClass entry with
                     | Some distinct => distinct
                     | None => skillClass entry
                     end;
                   resolvedMeta := skillMeta entry |}
    | None =>
        forall global,
          defaultGetFactory E target global
          = Err (mkError ("Unsupported tool target: " ++ target))
    end
    /\ (if includes target skillsProcessorToolTargetTuple
        then mapGet target (toolSkillFactories E) <> None
        else mapGet target (toolSkillFactories E) = None)
    /\ defaultGetFactory E "codexcli" false
       = Ok {| resolvedClass := CodexCliSimulatedSkill.class E;
               resolvedMeta := skillMetaOf true true true |}
    /\ defaultGetFactory E "codexcli" true
       = Ok {| resolvedClass := skillClassImpl E CodexCliSkill;
               resolvedMeta := skillMetaOf true true true |}
    /\ (if String.eqb target "codexcli" then True
        else defaultGetFactory E target false = defaultGetFactory E target true).
Proof.
  intros E target. repeat split.
  - unfold defaultGetFactory.
    destruct (mapGet target (toolSkillFactories E)) as [entry|]; auto.
  - unfold includes, skillsProcessorToolTargetTuple, toolSkillFactories.
    simpl.
    repeat (destruct (String.eqb target _); simpl; [discriminate|]).
    reflexivity.
  - unfold defaultGetFactory, toolSkillFactories. simpl.
    destruct (String.eqb target "codexcli"); [exact I|].
    repeat (destruct (String.eqb target _); simpl; [reflexivity|]).
    reflexivity.
Qed.

(** ** C9: targeting *)

Lemma targetsInclude_default (declared : option (list string)) (tool : string) :
  isTargetedByDefault declared tool = targetsInclude declared tool.
Proof. destruct declared; reflexivity. Qed.

Lemma rulesyncSkillsOf_entries (dirs : list AiDir) :
  SkillsProcessor.rulesyncSkillsOf dirs = canonicalSkillsIn dirs.
Proof.
  induction dirs as [|[s|s|path] rest IH]; simpl; now rewrite ?IH.
Qed.

Lemma rulesyncRulesOf_entries (files : list RulesyncFile) :
  RulesProcessor.rulesyncRulesOf files = canonicalRulesIn files.
Proof.
  induction files as [|[r|path] rest IH]; simpl; now rewrite ?IH.
Qed.

(** On the registries of the source the adapter of a tool tests the targets
    against the identifier under which it is registered. *)
Lemma default_rule_targeting (E : Externals) (target : string)
  (factory : ToolRuleFactory) :
  defaultGetRuleFactory E target = Ok factory ->
  isTargetedByRulesyncRule (ruleClass factory) = ruleTargetedBy target.
Proof.
  unfold defaultGetRuleFactory, toolRuleFactories. cbn [mapGet].
  repeat match goal with
  | |- context [String.eqb target ?k] =>
      destruct (String.eqb_spec target k) as [->|_]; cbv iota;
      [intros [= <-]; reflexivity|]
  end.
  discriminate.
Qed.

Lemma default_skill_targeting (E : Externals) (target : string) (global : bool)
  (factory : ResolvedToolSkillFactory) :
  defaultGetFactory E target global = Ok factory ->
  isTargetedByRulesyncSkill (resolvedClass factory) = skillTargetedBy target.
Proof.
  unfold defaultGetFactory, toolSkillFactories. cbn [mapGet].
  repeat match goal with
  | |- context [String.eqb target ?k] =>
      destruct (String.eqb_spec target k) as [->|_]; cbv iota;
      [intros [= <-]; destruct global; reflexivity|]
  end.
  discriminate.
Qed.

Lemma filter_ext_eq {A} (f g : A -> bool) (xs : list A) :
  (forall x, f x = g x) -> filter f xs = filter g xs.
Proof.
  intros H. induction xs as [|x xs IH]; simpl; [reflexivity|].
  now rewrite H, IH.
Qed.

Lemma pushedRules_cases (E : Externals) (p : RulesProcessor.t) :
  pushedRules E p = []
  \/ RulesProcessor.toolTarget p = "cursor"
  \/ RulesProcessor.toolTarget p = "roo".
Proof.
  unfold pushedRules. destruct (RulesProcessor.isSimulated p); [|now left].
  destruct (String.eqb_spec (RulesProcessor.toolTarget p) "cursor");
    [now right; left|].
  destruct (String.eqb_spec (RulesProcessor.toolTarget p) "roo");
    [now right; right|now left].
Qed.

(** The references of a root document alone are empty, so the injection into
    a lone root document always succeeds. *)
Lemma injectIntoRoot_lone_root (E : Externals) (p : RulesProcessor.t)
  (t : ToolRule.t) :
  ToolRule.isRoot t = true ->
  exists t',
    RulesProcessor.injectIntoRoot E p 0 [t] = Ok [t'] /\ keptOrPrefixed t t'.
Proof.
  intros Hroot.
  assert (Htoon : RulesProcessor.generateToonReferencesSection E [t]
                  = Ok EmptyString).
  { unfold RulesProcessor.generateToonReferencesSection,
      RulesProcessor.withoutRoot. cbn [filter]. now rewrite Hroot. }
  assert (Hprefixed : forall generated,
    exists t',
      RulesProcessor.prependToRoot 0 [t] (Ok generated) = Ok [t']
      /\ keptOrPrefixed t t').
  { intros generated. eexists. split; [reflexivity|].
    right. split; [exact Hroot|]. now exists generated. }
  unfold RulesProcessor.injectIntoRoot. rewrite Htoon.
  unfold RulesProcessor.codexcliSkillsDir.
  repeat match goal with
  | |- context [if String.eqb ?a ?b then _ else _] =>
      destruct (String.eqb a b);
      [try (destruct (RulesProcessor.global p));
       cbn [bind CodexCliSimulatedSkill.getSettablePaths nullish];
       apply Hprefixed|]
  end.
  exists t. split; [reflexivity|now left].
Qed.

Section Targeting.

Variable E : Externals.
Variable sp : SkillsProcessor.t.
Variable sfactory : ResolvedToolSkillFactory.
Variable rp : RulesProcessor.t.
Variable rfactory : ToolRuleFactory.

(** The processors use the registries of the source, which register their
    tools. *)
Hypothesis skill_registry :
  SkillsProcessor.getFactory sp = defaultGetFactory E.
Hypothesis skill_factory :
  defaultGetFactory E (SkillsProcessor.toolTarget sp) (SkillsProcessor.global sp)
  = Ok sfactory.
Hypothesis rule_registry :
  RulesProcessor.getFactory rp = defaultGetRuleFactory E.
Hypothesis rule_factory :
  defaultGetRuleFactory E (RulesProcessor.toolTarget rp) = Ok rfactory.

(** [fromCanonical] of the adapters, as the processors call it. *)
Let skillOf (s : RulesyncSkill.t) : result ToolSkill.t :=
  fromRulesyncSkill (resolvedClass sfactory)
    {| frs_rulesyncSkill := s; frs_global := SkillsProcessor.global sp |}.

Let ruleOf (r : RulesyncRule.t) : result ToolRule.t :=
  fromRulesyncRule (ruleClass rfactory)
    {| frr_baseDir := RulesProcessor.baseDir rp;
       frr_rulesyncRule := r;
       frr_validate := true;
       frr_global := RulesProcessor.global rp |}.

Let forSkillTool (s : RulesyncSkill.t) : bool :=
  targetsInclude (skillTargets s) (SkillsProcessor.toolTarget sp).

Let forRuleTool (r : RulesyncRule.t) : bool :=
  targetsInclude (ruleTargets r) (RulesProcessor.toolTarget rp).

Lemma convertDirs_targeted (dirs : list AiDir) :
  SkillsProcessor.convertRulesyncDirsToToolDirs sp dirs
  = mapM skillOf (filter forSkillTool (canonicalSkillsIn dirs)).
Proof.
  unfold SkillsProcessor.convertRulesyncDirsToToolDirs.
  rewrite skill_registry, skill_factory. cbn [bind].
  unfold SkillsProcessor.toolSkillOrNull.
  rewrite (mapM_orNull skillOf
             (isTargetedByRulesyncSkill (resolvedClass sfactory))).
  rewrite (default_skill_targeting _ _ _ skill_factory).
  rewrite rulesyncSkillsOf_entries.
  f_equal. apply filter_ext_eq. intros s.
  apply targetsInclude_default.
Qed.

Lemma convertFiles_targeted (files : list RulesyncFile) :
  RulesProcessor.convertRulesyncFilesToToolFiles E rp files
  = bind (mapM ruleOf (filter forRuleTool (canonicalRulesIn files)))
      (fun converted =>
         match findIndex ToolRule.isRoot (converted ++ pushedRules E rp) with
         | None => Ok (converted ++ pushedRules E rp)%list
         | Some rootRuleIndex =>
             RulesProcessor.injectIntoRoot E rp rootRuleIndex
               (converted ++ pushedRules E rp)
         end).
Proof.
  assert (Hc : RulesProcessor.convertTargeted rp rfactory
                 (RulesProcessor.rulesyncRulesOf files)
               = mapM ruleOf (filter forRuleTool (canonicalRulesIn files))).
  { unfold RulesProcessor.convertTargeted, RulesProcessor.toolRuleOrNull.
    rewrite (mapM_orNull ruleOf
               (isTargetedByRulesyncRule (ruleClass rfactory))).
    rewrite (default_rule_targeting _ _ rule_factory).
    rewrite rulesyncRulesOf_entries.
    f_equal. apply filter_ext_eq. intros r.
    apply targetsInclude_default. }
  destruct (mapM ruleOf (filter forRuleTool (canonicalRulesIn files)))
    as [converted|e] eqn:Hm; cbn [bind].
  - apply convert_after_conversion with (factory := rfactory);
      [now rewrite rule_registry|exact Hc].
  - unfold RulesProcessor.convertRulesyncFilesToToolFiles.
    rewrite rule_registry, rule_factory. cbn [bind]. now rewrite Hc.
Qed.

(** C9 (spec-modelled targeting test of the adapters).  On the registries of
    the source, [convertRulesyncDirsToToolDirs] returns the [fromCanonical]
    images of exactly the canonical skills of the input whose targets include
    the wildcard or the processor's tool, in input order, and
    [convertRulesyncFilesToToolFiles] converts exactly the canonical rules of
    the input whose targets do, before it pushes the convention rule and
    rewrites the root document: its output holds, position by position, a
    document for each of them and no other canonical rule.  A document that
    fails the test contributes neither a document nor an error, also when its
    adapter would reject it; one that passes is produced, or its adapter's
    error is thrown.  Targets [*] pass for every tool; a single target [a]
    passes for the tool [a] alone. *)
Theorem conversion_follows_targeting :
  (forall dirs,
     SkillsProcessor.convertRulesyncDirsToToolDirs sp dirs
     = mapM skillOf (filter forSkillTool (canonicalSkillsIn dirs)))
  /\ (forall files,
        RulesProcessor.convertRulesyncFilesToToolFiles E rp files
        = bind (mapM ruleOf (filter forRuleTool (canonicalRulesIn files)))
            (fun converted =>
               match findIndex ToolRule.isRoot
                       (converted ++ pushedRules E rp) with
               | None => Ok (converted ++ pushedRules E rp)%list
               | Some rootRuleIndex =>
                   RulesProcessor.injectIntoRoot E rp rootRuleIndex
                     (converted ++ pushedRules E rp)
               end))
  /\ (forall files,
        match RulesProcessor.convertRulesyncFilesToToolFiles E rp files with
        | Ok out =>
            exists converted,
              mapM ruleOf (filter forRuleTool (canonicalRulesIn files))
              = Ok converted
              /\ Forall2 keptOrPrefixed (converted ++ pushedRules E rp) out
        | Err _ => True
        end)
  /\ (forall s,
        SkillsProcessor.convertRulesyncDirsToToolDirs sp [RulesyncSkillDir s]
        = if forSkillTool s
          then match skillOf s with
               | Ok produced => Ok [produced]
               | Err e => Err e
               end
          else Ok [])
  /\ (forall r,
        if forRuleTool r
        then match ruleOf r with
             | Ok produced =>
                 exists written,
                   RulesProcessor.convertRulesyncFilesToToolFiles E rp
                     [RulesyncRuleFile r]
                   = Ok (written :: pushedRules E rp)
                   /\ keptOrPrefixed produced written
             | Err e =>
                 RulesProcessor.convertRulesyncFilesToToolFiles E rp
                   [RulesyncRuleFile r]
                 = Err e
             end
        else RulesProcessor.convertRulesyncFilesToToolFiles E rp
               [RulesyncRuleFile r]
             = Ok (pushedRules E rp))
  /\ (forall tool, targetsInclude (Some ["*"]) tool = true)
  /\ (forall a tool,
        targetsInclude (Some [a]) tool = String.eqb "*" a || String.eqb tool a).
Proof.
  assert (Hnoroot : forall rs,
    RulesProcessor.toolTarget rp = "cursor"
    \/ RulesProcessor.toolTarget rp = "roo" ->
    match findIndex ToolRule.isRoot rs with
    | None => Ok rs
    | Some i => RulesProcessor.injectIntoRoot E rp i rs
    end = Ok rs).
  { intros rs H. destruct (findIndex ToolRule.isRoot rs); [|reflexivity].
    now apply injectIntoRoot_cursor_roo. }
  split; [exact convertDirs_targeted|].
  split; [exact convertFiles_targeted|].
  split; [|split; [|split; [|split]]].
  - intros files. rewrite convertFiles_targeted.
    destruct (mapM ruleOf (filter forRuleTool (canonicalRulesIn files)))
      as [converted|e]; cbn [bind]; [|exact I].
    destruct (findIndex ToolRule.isRoot (converted ++ pushedRules E rp))
      as [i|] eqn:Hi.
    + destruct (RulesProcessor.injectIntoRoot E rp i
                  (converted ++ pushedRules E rp)) as [out|e] eqn:Hout;
        [|exact I].
      exists converted. split; [reflexivity|].
      apply (injectIntoRoot_shape E rp i); [|exact Hout].
      intros x Hx. destruct (findIndex_Some _ _ Hi) as [y [Hy Hroot]].
      congruence.
    + exists converted. split; [reflexivity|apply Forall2_kept].
  - intros s. rewrite convertDirs_targeted.
    cbn [canonicalSkillsIn flat_map app filter].
    destruct (forSkillTool s); cbn [mapM bind]; [|reflexivity].
    destruct (skillOf s); reflexivity.
  - intros r. rewrite convertFiles_targeted.
    cbn [canonicalRulesIn flat_map app filter].
    destruct (forRuleTool r); cbn [mapM bind].
    + destruct (ruleOf r) as [produced|e]; cbn [bind]; [|reflexivity].
      destruct (pushedRules_cases E rp) as [Hnone|Hpush].
      * rewrite Hnone. cbn [app findIndex].
        destruct (ToolRule.isRoot produced) eqn:Hroot.
        -- now apply injectIntoRoot_lone_root.
        -- exists produced. split; [reflexivity|now left].
      * rewrite (Hnoroot _ Hpush). exists produced.
        split; [reflexivity|now left].
    + cbn [app].
      destruct (pushedRules_cases E rp) as [Hnone|Hpush].
      * rewrite Hnone. reflexivity.
      * now apply Hnoroot.
  - intros tool. reflexivity.
  - intros a tool. unfold targetsInclude, includes. cbn [existsb].
    now rewrite !orb_false_r.
Qed.

End Targeting.

(** ** C7: simulated variants are forward-only *)

Lemma convertLoop_outcome (E : Externals) (toolSkills : list ToolSkill.t) :
  forall acc,
    outcome (SkillsProcessor.convertLoop E toolSkills acc)
    = bind (mapM (nativeToRulesyncSkill E) (filter isNative toolSkills))
           (fun converted => Ok (acc ++ converted)%list).
Proof.
  induction toolSkills as [|s rest IH]; intros acc;
    cbn [SkillsProcessor.convertLoop filter].
  - simpl. now rewrite app_nil_r.
  - unfold isNative at 1. destruct (ToolSkill.simulated s) eqn:Hs;
      cbn [negb].
    + rewrite bindL_log. cbn [outcome snd]. apply IH.
    + unfold toRulesyncSkill. rewrite Hs. cbn [mapM].
      destruct (nativeToRulesyncSkill E s) as [r|e]; cbn [bind].
      * rewrite bindL_ok, IH.
        destruct (mapM _ (filter isNative rest)); simpl; [|reflexivity].
        now rewrite <- app_assoc.
      * reflexivity.
Qed.

Lemma convertLoop_log (E : Externals) (toolSkills : list ToolSkill.t) :
  forall acc,
    isOk (outcome (SkillsProcessor.convertLoop E toolSkills acc)) = true ->
    logOf (SkillsProcessor.convertLoop E toolSkills acc)
    = map (skipNote E) (filter ToolSkill.simulated toolSkills).
Proof.
  induction toolSkills as [|s rest IH]; intros acc;
    cbn [SkillsProcessor.convertLoop filter]; [reflexivity|].
  destruct (ToolSkill.simulated s) eqn:Hs.
  - rewrite bindL_log. cbn [outcome logOf fst snd map]. intros H.
    now rewrite IH.
  - unfold toRulesyncSkill. rewrite Hs.
    destruct (nativeToRulesyncSkill E s) as [r|e].
    + rewrite bindL_ok. apply IH.
    + discriminate.
Qed.

(** Whatever the outcome, the log holds skip notes only, in input order. *)
Lemma convertLoop_log_prefix (E : Externals) (toolSkills : list ToolSkill.t) :
  forall acc,
    exists later,
      map (skipNote E) (filter ToolSkill.simulated toolSkills)
      = (logOf (SkillsProcessor.convertLoop E toolSkills acc) ++ later)%list.
Proof.
  induction toolSkills as [|s rest IH]; intros acc;
    cbn [SkillsProcessor.convertLoop filter].
  - exists []. reflexivity.
  - destruct (ToolSkill.simulated s) eqn:Hs.
    + rewrite bindL_log. cbn [logOf fst map].
      destruct (IH acc) as [later Hlater]. exists later.
      cbn [app]. now rewrite Hlater.
    + destruct (toRulesyncSkill E s) as [r|e].
      * rewrite bindL_ok. apply IH.
      * rewrite bindL_err. cbn [logOf fst app]. eauto.
Qed.

Lemma toolSkillsOf_entries (dirs : list AiDir) :
  SkillsProcessor.toolSkillsOf dirs = toolSkillsIn dirs.
Proof.
  induction dirs as [|[s|s|path] rest IH]; simpl; now rewrite ?IH.
Qed.

Lemma toolSkillsIn_tool (toolSkills : list ToolSkill.t) :
  toolSkillsIn (map ToolSkillDir toolSkills) = toolSkills.
Proof.
  induction toolSkills as [|s rest IH]; simpl; [reflexivity|now rewrite IH].
Qed.

(** C7 (the reverse conversion of a Simulated variant is spec-modelled).
    [toRulesyncSkill] on a Simulated variant always fails with the fixed
    error.  For every input array, [convertToolDirsToRulesyncDirs] returns
    what the adapters of the Native variants among the tool skills of the
    array return for them, in input order, so it never runs the reverse
    conversion of a Simulated instance: when it returns, its log is one debug
    note for each Simulated variant of the array, in input order (and a
    beginning of that list when the conversion of a Native variant throws),
    and an array with Simulated variants only yields the empty list.  On an
    array of tool skills alone these are statements about the array
    itself. *)
Theorem simulated_skills_are_skipped :
  forall (E : Externals) (p : SkillsProcessor.t) (dirs : list AiDir)
         (given : list ToolSkill.t),
    let run := SkillsProcessor.convertToolDirsToRulesyncDirs E p dirs in
    let direct :=
      SkillsProcessor.convertToolDirsToRulesyncDirs E p
        (map ToolSkillDir given) in
    (forall s, if ToolSkill.simulated s
               then toRulesyncSkill E s = Err simulatedConversionError
               else toRulesyncSkill E s = nativeToRulesyncSkill E s)
    /\ outcome run
       = mapM (nativeToRulesyncSkill E) (filter isNative (toolSkillsIn dirs))
    /\ (if isOk (outcome run)
        then logOf run
             = map (skipNote E) (filter ToolSkill.simulated (toolSkillsIn dirs))
        else exists later,
               map (skipNote E) (filter ToolSkill.simulated (toolSkillsIn dirs))
               = (logOf run ++ later)%list)
    /\ outcome direct
       = mapM (nativeToRulesyncSkill E) (filter isNative given)
    /\ (if isOk (outcome direct)
        then logOf direct
             = map (skipNote E) (filter ToolSkill.simulated given)
        else exists later,
               map (skipNote E) (filter ToolSkill.simulated given)
               = (logOf direct ++ later)%list)
    /\ (if forallb ToolSkill.simulated given
        then direct = (map (skipNote E) given, Ok [])
        else True).
Proof.
  assert (Hgen : forall (E : Externals) (p : SkillsProcessor.t) dirs,
    let run := SkillsProcessor.convertToolDirsToRulesyncDirs E p dirs in
    outcome run
    = mapM (nativeToRulesyncSkill E) (filter isNative (toolSkillsIn dirs))
    /\ (if isOk (outcome run)
        then logOf run
             = map (skipNote E) (filter ToolSkill.simulated (toolSkillsIn dirs))
        else exists later,
               map (skipNote E) (filter ToolSkill.simulated (toolSkillsIn dirs))
               = (logOf run ++ later)%list)).
  { intros E p dirs run. unfold run.
    unfold SkillsProcessor.convertToolDirsToRulesyncDirs.
    rewrite toolSkillsOf_entries. split.
    - rewrite convertLoop_outcome.
      destruct (mapM _ (filter isNative (toolSkillsIn dirs))); reflexivity.
    - destruct (isOk (outcome (SkillsProcessor.convertLoop E
                                 (toolSkillsIn dirs) []))) eqn:Hok.
      + now apply convertLoop_log.
      + apply convertLoop_log_prefix. }
  intros E p dirs given run direct.
  destruct (Hgen E p dirs) as [Hout Hlog].
  destruct (Hgen E p (map ToolSkillDir given)) as [Hout' Hlog'].
  rewrite toolSkillsIn_tool in Hout', Hlog'.
  fold direct in Hout', Hlog'.
  split; [|split; [exact Hout|split; [exact Hlog|split;
          [exact Hout'|split; [exact Hlog'|]]]]].
  - intros s. unfold toRulesyncSkill. destruct (ToolSkill.simulated s); reflexivity.
  - destruct (forallb ToolSkill.simulated given) eqn:Hall; [|exact I].
    rewrite forallb_forall in Hall.
    assert (Hnone : filter isNative given = []).
    { apply filter_none. intros s Hs. unfold isNative. now rewrite (Hall s Hs). }
    assert (Hsim : filter ToolSkill.simulated given = given)
      by (now apply filter_all).
    rewrite Hnone in Hout'. cbn [mapM] in Hout'.
    rewrite Hout' in Hlog'. cbn [isOk] in Hlog'.
    rewrite (logged_eta direct), Hout', Hlog', Hsim. reflexivity.
Qed.

(** ** C4 and C8: loading the canonical rule store *)

Section CanonicalLoad.

Variable E : Externals.
Variable p : RulesProcessor.t.
Variable files : list string.
Variable rules : list RulesyncRule.t.

(** The store is enumerated as [files] and every file parses. *)
Hypothesis store_found :
  findFilesByGlobs E
    (pathJoin E [RULESYNC_RULES_RELATIVE_DIR_PATH E; "*.md"]) false
  = Ok files.
Hypothesis store_parsed :
  mapM (fun file => RulesyncRule_fromFile E (basename E file)) files = Ok rules.

Let rootRules := filter RulesyncRule.isRoot rules.
Let nonRootRules := filter (fun rule => negb (RulesyncRule.isRoot rule)) rules.
Let found : LogEntry :=
  (Debug, "Found " ++ showNat (length files) ++ " rulesync files").

Lemma loadRulesyncFiles_run :
  RulesProcessor.loadRulesyncFiles E p
  = if Nat.ltb 1 (length rootRules)
    then ([found], Err RulesProcessor.multipleRootError)
    else if RulesProcessor.global p
         then (found :: (if Nat.ltb 0 (length nonRootRules)
                         then [(Warn, RulesProcessor.ignoredWarning
                                        (length nonRootRules))]
                         else []),
               Ok rootRules)
         else ([found], Ok rules).
Proof.
  unfold RulesProcessor.loadRulesyncFiles.
  rewrite store_found, bindL_ok, bindL_log.
  rewrite (promiseAll_ok _ _ _ store_parsed), bindL_ok.
  fold rootRules. fold nonRootRules. fold found.
  destruct (Nat.ltb 1 (length rootRules)); [reflexivity|].
  destruct (RulesProcessor.global p); [|reflexivity].
  destruct (Nat.ltb 0 (length nonRootRules)); reflexivity.
Qed.

(** C4.  When the loaded documents contain two or more root documents the
    load fails with the multiple-root error; with exactly one root document
    it succeeds, that document is in the output and it is the only output
    document flagged root (the remaining case, no root, succeeds too). *)
Theorem root_uniqueness :
  match filter RulesyncRule.isRoot rules with
  | _ :: _ :: _ =>
      outcome (RulesProcessor.loadRulesyncFiles E p)
      = Err RulesProcessor.multipleRootError
  | [r] =>
      exists out,
        outcome (RulesProcessor.loadRulesyncFiles E p) = Ok out
        /\ In r out
        /\ filter RulesyncRule.isRoot out = [r]
  | [] =>
      exists out, outcome (RulesProcessor.loadRulesyncFiles E p) = Ok out
  end.
Proof.
  rewrite loadRulesyncFiles_run. unfold rootRules.
  destruct (filter RulesyncRule.isRoot rules) as [|r [|r' rest]] eqn:Hroots;
    simpl.
  - destruct (RulesProcessor.global p); simpl; eexists; reflexivity.
  - destruct (RulesProcessor.global p); simpl.
    + exists [r]. repeat split; [now left|].
      assert (Hr : In r (filter RulesyncRule.isRoot rules))
        by (rewrite Hroots; now left).
      apply filter_In in Hr. simpl. now rewrite (proj2 Hr).
    + exists rules. repeat split; [|exact Hroots].
      assert (Hr : In r (filter RulesyncRule.isRoot rules))
        by (rewrite Hroots; now left).
      apply filter_In in Hr. tauto.
  - reflexivity.
Qed.

(** C8.  In global mode, when the load does not fail on several roots, it
    returns exactly the root documents of the store -- the root document, or
    nothing when there is none -- so that no document of the result is a
    non-root document; the log holds, after the debug line, one warning with
    the number of ignored non-root documents when there is at least one, and
    nothing otherwise. *)
Theorem global_load_returns_root_only :
  RulesProcessor.global p = true ->
  length (filter RulesyncRule.isRoot rules) <= 1 ->
  let ignored :=
    length (filter (fun rule => negb (RulesyncRule.isRoot rule)) rules) in
  RulesProcessor.loadRulesyncFiles E p
  = ((Debug, "Found " ++ showNat (length files) ++ " rulesync files")
       :: (if Nat.ltb 0 ignored
           then [(Warn, showNat ignored
                        ++ " non-root rulesync rules found, but it's in global mode, so ignoring them")]
           else []),
     Ok (filter RulesyncRule.isRoot rules))
  /\ (forall r, In r (filter RulesyncRule.isRoot rules) ->
                In r rules /\ RulesyncRule.isRoot r = true).
Proof.
  intros Hglobal Hroots ignored. split.
  - rewrite loadRulesyncFiles_run, Hglobal. unfold rootRules.
    destruct (Nat.ltb_spec 1 (length (filter RulesyncRule.isRoot rules)));
      [lia|].
    reflexivity.
  - intros r Hr. now apply filter_In in Hr.
Qed.

End CanonicalLoad.

(** ** C10: the synthetic additional-conventions rule *)

Section ConventionRule.

Variable E : Externals.
Variable p : RulesProcessor.t.
Variable factory : ToolRuleFactory.
Variable files : list RulesyncFile.
Variable toolRules : list ToolRule.t.

Hypothesis simulated : RulesProcessor.isSimulated p = true.
Hypothesis cursor_or_roo :
  RulesProcessor.toolTarget p = "cursor" \/ RulesProcessor.toolTarget p = "roo".
Hypothesis factory_found :
  RulesProcessor.getFactory p (RulesProcessor.toolTarget p) = Ok factory.
(** The documents that pass the targeting test convert to [toolRules]. *)
Hypothesis converted :
  RulesProcessor.convertTargeted p factory (RulesProcessor.rulesyncRulesOf files)
  = Ok toolRules.

(** C10.  With a simulate flag enabled and the tool target cursor or roo,
    the output of [convertRulesyncFilesToToolFiles] is the converted
    documents followed by one synthetic additional-conventions rule, whatever
    the input: also without a root document, and when every canonical rule
    fails the targeting test the output is that rule alone. *)
Theorem convention_rule_appended :
  RulesProcessor.convertRulesyncFilesToToolFiles E p files
  = Ok (toolRules
        ++ [if String.eqb (RulesProcessor.toolTarget p) "cursor"
            then RulesProcessor.cursorConventionsRule E p
            else RulesProcessor.rooConventionsRule E p])%list
  /\ (if forallb (fun r => negb (isTargetedByRulesyncRule (ruleClass factory) r))
           (RulesProcessor.rulesyncRulesOf files)
      then toolRules = []
      else True).
Proof.
  split.
  - unfold RulesProcessor.convertRulesyncFilesToToolFiles.
    rewrite factory_found. cbn [bind]. rewrite converted. cbn [bind].
    rewrite simulated. cbn [andb].
    assert (Hskip : forall rs,
      match findIndex ToolRule.isRoot rs with
      | Some i => RulesProcessor.injectIntoRoot E p i rs
      | None => Ok rs
      end = Ok rs).
    { intros rs. destruct (findIndex ToolRule.isRoot rs); [|reflexivity].
      now apply injectIntoRoot_cursor_roo. }
    rewrite Hskip.
    destruct cursor_or_roo as [H|H]; rewrite H; reflexivity.
  - destruct (forallb _ (RulesProcessor.rulesyncRulesOf files)) eqn:Hall;
      [|exact I].
    rewrite forallb_forall in Hall.
    pose proof converted as Hc.
    unfold RulesProcessor.convertTargeted, RulesProcessor.toolRuleOrNull in Hc.
    rewrite (mapM_orNull _ (isTargetedByRulesyncRule (ruleClass factory))) in Hc.
    rewrite filter_none in Hc.
    + simpl in Hc. now injection Hc as <-.
    + intros r Hr. specialize (Hall r Hr).
      now destruct (isTargetedByRulesyncRule (ruleClass factory) r).
Qed.

End ConventionRule.

(** ** C3: the references block *)

Lemma withoutRoot_app (xs ys : list ToolRule.t) :
  RulesProcessor.withoutRoot (xs ++ ys)
  = (RulesProcessor.withoutRoot xs ++ RulesProcessor.withoutRoot ys)%list.
Proof. apply filter_app. Qed.

Section References.

Variable E : Externals.
Variable p : RulesProcessor.t.
Variable factory : ToolRuleFactory.
Variables rootDoc styleDoc : RulesyncRule.t.
Variables rootTool styleTool : ToolRule.t.
Variable back : RulesyncRule.t.
Variable about : string.
Variable patterns : list string.

Let paramsOf (r : RulesyncRule.t) : ToolRuleFromRulesyncRuleParams :=
  {| frr_baseDir := RulesProcessor.baseDir p;
     frr_rulesyncRule := r;
     frr_validate := true;
     frr_global := RulesProcessor.global p |}.

Hypothesis factory_found :
  RulesProcessor.getFactory p (RulesProcessor.toolTarget p) = Ok factory.

(** Both canonical rules are targeted, and the adapter turns the root rule
    with body [Intro] into a root document with that body and the other rule
    into a non-root document with the description [about] and the globs
    [patterns]. *)
Hypothesis root_targeted :
  isTargetedByRulesyncRule (ruleClass factory) rootDoc = true.
Hypothesis style_targeted :
  isTargetedByRulesyncRule (ruleClass factory) styleDoc = true.
Hypothesis root_converted :
  fromRulesyncRule (ruleClass factory) (paramsOf rootDoc) = Ok rootTool.
Hypothesis style_converted :
  fromRulesyncRule (ruleClass factory) (paramsOf styleDoc) = Ok styleTool.
Hypothesis root_is_root : ToolRule.isRoot rootTool = true.
Hypothesis root_body : ToolRule.getFileContent rootTool = "Intro".
Hypothesis style_not_root : ToolRule.isRoot styleTool = false.
Hypothesis style_description :
  ToolRule.getDescription styleTool = Some about.
Hypothesis style_globs : ToolRule.getGlobs styleTool = Some patterns.
(** For the TOON format the description and the globs are read back through
    [toRulesyncRule]. *)
Hypothesis style_back : toRulesyncRule E styleTool = Ok back.
Hypothesis back_description :
  RulesyncRule.description (RulesyncRule.getFrontmatter back) = Some about.
Hypothesis back_globs :
  RulesyncRule.globs (RulesyncRule.getFrontmatter back) = Some patterns.

Let stylePath := ToolRule.getRelativePathFromCwd styleTool.

Lemma converted_pair (rootFirst : bool) :
  RulesProcessor.convertTargeted p factory (pairOf rootFirst rootDoc styleDoc)
  = Ok (pairOf rootFirst rootTool styleTool).
Proof.
  unfold RulesProcessor.convertTargeted, RulesProcessor.toolRuleOrNull.
  destruct rootFirst; cbn [pairOf mapM];
    fold (paramsOf rootDoc); fold (paramsOf styleDoc);
    rewrite root_targeted, style_targeted, root_converted, style_converted;
    reflexivity.
Qed.

Lemma withoutRoot_pair (rootFirst : bool) :
  RulesProcessor.withoutRoot (pairOf rootFirst rootTool styleTool)
  = [styleTool].
Proof.
  unfold RulesProcessor.withoutRoot.
  destruct rootFirst; cbn [pairOf filter];
    now rewrite root_is_root, style_not_root.
Qed.

Lemma line_section (rootFirst : bool) :
  RulesProcessor.generateReferencesSection
    (pairOf rootFirst rootTool styleTool)
  = lineReferences stylePath about patterns.
Proof.
  unfold RulesProcessor.generateReferencesSection.
  rewrite withoutRoot_pair. cbn [map app].
  unfold RulesProcessor.referenceLine.
  rewrite style_description, style_globs.
  unfold lineReferences, join at 1. cbn [String.concat].
  fold stylePath.
  repeat rewrite append_assoc.
  reflexivity.
Qed.

Lemma toon_section (rootFirst : bool) :
  RulesProcessor.generateToonReferencesSection E
    (pairOf rootFirst rootTool styleTool)
  = Ok (toonReferences E stylePath about patterns).
Proof.
  unfold RulesProcessor.generateToonReferencesSection.
  rewrite withoutRoot_pair. cbn [mapM].
  unfold RulesProcessor.toonRuleOf. rewrite style_back. cbn [bind].
  rewrite back_description, back_globs.
  unfold toonReferences. fold stylePath.
  destruct patterns; reflexivity.
Qed.

(** The converted pair up to the two pushes and the search for the root. *)
Lemma convert_pair_steps (rootFirst : bool) :
  In (RulesProcessor.toolTarget p)
     ("claudecode" :: toonOnlyTools ++ toonAndConventionsTools) ->
  RulesProcessor.convertRulesyncFilesToToolFiles E p
    (map RulesyncRuleFile (pairOf rootFirst rootDoc styleDoc))
  = RulesProcessor.injectIntoRoot E p (if rootFirst then 0 else 1)
      (pairOf rootFirst rootTool styleTool).
Proof.
  intros Hin.
  unfold RulesProcessor.convertRulesyncFilesToToolFiles.
  rewrite factory_found. cbn [bind].
  assert (Hrules : RulesProcessor.rulesyncRulesOf
                     (map RulesyncRuleFile (pairOf rootFirst rootDoc styleDoc))
                   = pairOf rootFirst rootDoc styleDoc)
    by (destruct rootFirst; reflexivity).
  rewrite Hrules, converted_pair. cbn [bind].
  assert (Hc : String.eqb (RulesProcessor.toolTarget p) "cursor" = false
               /\ String.eqb (RulesProcessor.toolTarget p) "roo" = false).
  { simpl in Hin.
    repeat (destruct Hin as [<-|Hin]; [split; reflexivity|]).
    contradiction. }
  destruct Hc as [-> ->]. rewrite !andb_false_r.
  unfold RulesProcessor.pushIf.
  destruct rootFirst; cbn [pairOf findIndex];
    now rewrite ?style_not_root, root_is_root.
Qed.

Lemma prepend_pair (rootFirst : bool) (generated : string) :
  RulesProcessor.prependToRoot (if rootFirst then 0 else 1)
    (pairOf rootFirst rootTool styleTool) (Ok generated)
  = Ok (pairOf rootFirst
          (ToolRule.setFileContent (generated ++ "Intro") rootTool)
          styleTool).
Proof.
  unfold RulesProcessor.prependToRoot.
  destruct rootFirst; cbn [pairOf nth_error bind setAt];
    now rewrite root_body.
Qed.

(** C3.  For a tool that injects a references block, converting a load of
    one root rule with body [Intro] and one non-root rule, in either order,
    yields the root document with body: the references section naming the
    non-root document's path, description and globs, whatever they are, then
    (for the three tools that also inject it, and for them only) the
    additional-conventions block of the tool, then [Intro] unchanged; the
    non-root document is unchanged.  Conversion keeps the input order of the
    targeted documents, and both generators list the non-root documents in
    the order of that array. *)
Theorem references_block :
  In (RulesProcessor.toolTarget p)
     ("claudecode" :: toonOnlyTools ++ toonAndConventionsTools) ->
  (forall rootFirst : bool,
     RulesProcessor.convertRulesyncFilesToToolFiles E p
       (map RulesyncRuleFile (pairOf rootFirst rootDoc styleDoc))
     = Ok (pairOf rootFirst
             (ToolRule.setFileContent
                ((if String.eqb (RulesProcessor.toolTarget p) "claudecode"
                  then lineReferences stylePath about patterns
                  else toonReferences E stylePath about patterns)
                 ++ rootConventions E p ++ "Intro")
                rootTool)
             styleTool))
  /\ (if includes (RulesProcessor.toolTarget p) toonAndConventionsTools
      then exists args,
             rootConventionsArgs E p = Some args
             /\ rootConventions E p
                = RulesProcessor.generateAdditionalConventionsSection E p args
      else rootConventions E p = EmptyString)
  /\ (forall rules converted,
        RulesProcessor.convertTargeted p factory rules = Ok converted ->
        Forall2 (fun r t => fromRulesyncRule (ruleClass factory) (paramsOf r) = Ok t)
          (filter (isTargetedByRulesyncRule (ruleClass factory)) rules)
          converted)
  /\ (forall xs ys,
        RulesProcessor.withoutRoot (xs ++ ys)
        = (RulesProcessor.withoutRoot xs ++ RulesProcessor.withoutRoot ys)%list)
  /\ (forall toolRules,
        RulesProcessor.generateReferencesSection toolRules
        = match RulesProcessor.withoutRoot toolRules with
          | [] => EmptyString
          | listed =>
              join nl (RulesProcessor.referencesHeader :: EmptyString
                       :: map RulesProcessor.referenceLine listed)
              ++ nl ++ nl
          end)
  /\ (forall toolRules,
        RulesProcessor.generateToonReferencesSection E toolRules
        = match RulesProcessor.withoutRoot toolRules with
          | [] => Ok EmptyString
          | listed =>
              bind (mapM (RulesProcessor.toonRuleOf E) listed)
                (fun records =>
                   Ok (join nl [RulesProcessor.toonHeader; EmptyString;
                                encode E records]
                       ++ nl ++ nl))
          end).
Proof.
  intros Hin. split; [|split; [|split; [|split; [|split]]]].
  - intros rootFirst. rewrite (convert_pair_steps rootFirst Hin).
    unfold RulesProcessor.injectIntoRoot.
    rewrite toon_section, line_section.
    unfold rootConventions, rootConventionsArgs.
    unfold RulesProcessor.codexcliSkillsDir.
    simpl in Hin.
    destruct Hin as [<-|[<-|[<-|[<-|[<-|[<-|[<-|[<-|[<-|[]]]]]]]]]];
      cbn [String.eqb Ascii.eqb Bool.eqb bind];
      try (destruct (RulesProcessor.global p));
      cbn [bind CodexCliSimulatedSkill.getSettablePaths nullish
           skillsRelativeDirPath];
      rewrite prepend_pair, ?append_assoc; reflexivity.
  - unfold rootConventions, rootConventionsArgs. simpl in Hin.
    destruct Hin as [<-|[<-|[<-|[<-|[<-|[<-|[<-|[<-|[<-|[]]]]]]]]]];
      cbn [String.eqb Ascii.eqb Bool.eqb includes existsb orb
           toonAndConventionsTools];
      solve [reflexivity | eexists; split; reflexivity].
  - intros rules converted Hc.
    unfold RulesProcessor.convertTargeted, RulesProcessor.toolRuleOrNull in Hc.
    rewrite (mapM_orNull _ (isTargetedByRulesyncRule (ruleClass factory))) in Hc.
    now apply mapM_Forall2 in Hc.
  - apply withoutRoot_app.
  - intros toolRules. unfold RulesProcessor.generateReferencesSection.
    destruct (RulesProcessor.withoutRoot toolRules); reflexivity.
  - intros toolRules. unfold RulesProcessor.generateToonReferencesSection.
    destruct (RulesProcessor.withoutRoot toolRules); reflexivity.
Qed.

End References.

(** ** C2: the additional-conventions block *)

Lemma prefix_append_l (n a b : string) :
  String.prefix n a = true -> String.prefix n (a ++ b) = true.
Proof.
  revert a. induction n as [|c n IH]; intros a; simpl.
  - now destruct (a ++ b).
  - destruct a as [|c' a]; simpl; [discriminate|].
    destruct (ascii_dec c c'); [apply IH|discriminate].
Qed.

Lemma containsStr_prefix (n h : string) :
  String.prefix n h = true -> containsStr n h = true.
Proof. intros H. destruct h; cbn [containsStr]; now rewrite H. Qed.

Lemma containsStr_append_r (n a b : string) :
  containsStr n b = true -> containsStr n (a ++ b) = true.
Proof.
  intros H. induction a as [|c a IH]; [assumption|].
  change (String c a ++ b) with (String c (a ++ b)).
  cbn [containsStr]. rewrite IH.
  now destruct (String.prefix n (String c (a ++ b))).
Qed.

Lemma containsStr_append_l (n a b : string) :
  containsStr n a = true -> containsStr n (a ++ b) = true.
Proof.
  induction a as [|c a IH]; cbn [containsStr].
  - destruct (String.prefix n EmptyString) eqn:Hp; [|discriminate].
    intros _. apply containsStr_prefix.
    destruct n; [now destruct b|discriminate].
  - destruct (String.prefix n (String c a)) eqn:Hp; intros H.
    + apply containsStr_prefix. now apply prefix_append_l.
    + change (String c a ++ b) with (String c (a ++ b)).
      cbn [containsStr]. rewrite (IH H).
      now destruct (String.prefix n (String c (a ++ b))).
Qed.

(** An element of a joined array is a substring of the result. *)
Lemma containsStr_join (sep x : string) (xs : list string) :
  In x xs -> containsStr x (join sep xs) = true.
Proof.
  unfold join. induction xs as [|y ys IH]; simpl; [contradiction|].
  intros [->|Hin].
  - destruct ys; [|apply containsStr_append_l];
      apply containsStr_prefix;
      rewrite <- (append_nil_r x) at 2; apply prefix_append.
  - destruct ys as [|z zs]; [contradiction|].
    do 2 apply containsStr_append_r. now apply IH.
Qed.

Lemma prefix_trans (a b c : string) :
  String.prefix a b = true -> String.prefix b c = true ->
  String.prefix a c = true.
Proof.
  revert b c. induction a as [|x a IH]; intros b c; [now destruct c|].
  destruct b as [|y b]; [discriminate|].
  destruct c as [|z c]; simpl; [now destruct (ascii_dec x y)|].
  destruct (ascii_dec x y) as [->|]; [|discriminate].
  destruct (ascii_dec y z) as [->|]; [|discriminate].
  destruct (ascii_dec z z); [apply IH|contradiction].
Qed.

(** A text that contains a needle contains every beginning of the needle. *)
Lemma containsStr_beginning (a n h : string) :
  String.prefix a n = true -> containsStr n h = true -> containsStr a h = true.
Proof.
  intros Ha. induction h as [|c h IH]; cbn [containsStr].
  - destruct (String.prefix n EmptyString) eqn:Hn; [|discriminate].
    intros _. now rewrite (prefix_trans _ _ _ Ha Hn).
  - destruct (String.prefix n (String c h)) eqn:Hn.
    + intros _. now rewrite (prefix_trans _ _ _ Ha Hn).
    + intros H. rewrite (IH H).
      now destruct (String.prefix a (String c h)).
Qed.

Lemma mismatch_app (n s t : string) :
  mismatch n s = true -> mismatch n (s ++ t) = true.
Proof.
  revert s. induction n as [|a n IH]; intros s; [discriminate|].
  destruct s as [|b s]; [discriminate|].
  change (String b s ++ t) with (String b (s ++ t)). cbn [mismatch].
  destruct (Ascii.eqb a b); [apply IH|reflexivity].
Qed.

Lemma mismatch_prefix (n s : string) :
  mismatch n s = true -> String.prefix n s = false.
Proof.
  revert s. induction n as [|a n IH]; intros s; [discriminate|].
  destruct s as [|b s]; [reflexivity|]. simpl.
  destruct (ascii_dec a b) as [->|]; [|reflexivity].
  rewrite Ascii.eqb_refl. apply IH.
Qed.

Lemma noStart_app (n s t : string) :
  noStart n s = true -> noStart n t = true -> noStart n (s ++ t) = true.
Proof.
  intros Hs Ht. induction s as [|c s IH]; [exact Ht|].
  change (String c s ++ t) with (String c (s ++ t)).
  cbn [noStart] in *. apply andb_true_iff in Hs. destruct Hs as [Hm Hs].
  change (String c (s ++ t)) with (String c s ++ t).
  now rewrite (mismatch_app _ _ _ Hm), (IH Hs).
Qed.

Lemma noStart_contains (n s : string) :
  n <> EmptyString -> noStart n s = true -> containsStr n s = false.
Proof.
  intros Hn. induction s as [|c s IH]; cbn [noStart containsStr].
  - destruct n; [contradiction|reflexivity].
  - intros H. apply andb_true_iff in H. destruct H as [Hm Hs].
    now rewrite (mismatch_prefix _ _ Hm), (IH Hs).
Qed.

Lemma noStart_join (n sep : string) (xs : list string) :
  noStart n sep = true ->
  Forall (fun x => noStart n x = true) xs ->
  noStart n (join sep xs) = true.
Proof.
  intros Hsep Hxs. unfold join.
  induction Hxs as [|x xs Hx _ IH]; [reflexivity|].
  cbn [String.concat]. destruct xs as [|y ys]; [exact Hx|].
  apply noStart_app; [exact Hx|]. now apply noStart_app.
Qed.

Lemma prefix_cons (a b : ascii) (n s : string) :
  String.prefix (String a n) (String b s)
  = if Ascii.eqb a b then String.prefix n s else false.
Proof.
  cbn [String.prefix]. destruct (ascii_dec a b) as [->|Hab].
  - now rewrite Ascii.eqb_refl.
  - now rewrite (proj2 (Ascii.eqb_neq _ _) Hab).
Qed.

Lemma withoutHash_noStart (rest s : string) :
  withoutHash s = true -> noStart (String "#" rest) s = true.
Proof.
  unfold withoutHash. induction s as [|c s IH]; [reflexivity|].
  cbn [containsStr noStart mismatch]. rewrite prefix_cons.
  destruct (Ascii.eqb "#" c).
  - now destruct s.
  - intros H. cbn [andb]. apply IH. exact H.
Qed.

Lemma instructions_marker (E : Externals) (f : RulesProcessor.Feature) :
  String.prefix (markerOf f) (RulesProcessor.instructionsFor E f) = true.
Proof. destruct f; apply prefix_append_l; reflexivity. Qed.

Section ConventionsText.

Variable E : Externals.
Variable p : RulesProcessor.t.

Hypothesis paths_plain : forallb withoutHash (instructionPaths E) = true.

Lemma path_noStart (f : RulesProcessor.Feature) (path : string) :
  In path (instructionPaths E) -> noStart (markerOf f) path = true.
Proof.
  intros Hin. rewrite forallb_forall in paths_plain.
  destruct f; apply withoutHash_noStart; now apply paths_plain.
Qed.

Lemma instructions_noStart (f g : RulesProcessor.Feature) :
  f <> g -> noStart (markerOf f) (RulesProcessor.instructionsFor E g) = true.
Proof.
  intros Hfg.
  destruct g; cbn [RulesProcessor.instructionsFor];
    unfold RulesProcessor.commandsInstructions,
      RulesProcessor.subagentsInstructions, RulesProcessor.skillsInstructions;
    repeat match goal with
    | |- noStart _ (_ ++ _) = true => apply noStart_app
    end;
    try (apply path_noStart; simpl; tauto);
    destruct f; try congruence; vm_compute; reflexivity.
Qed.

Lemma overview_noStart (f : RulesProcessor.Feature) :
  noStart (markerOf f) RulesProcessor.overview = true.
Proof. destruct f; vm_compute; reflexivity. Qed.

Lemma spread_noStart (args : RulesProcessor.ConventionsArgs)
  (f g : RulesProcessor.Feature) :
  f <> g \/ carriesInstructions E p args f = false ->
  Forall (fun x => noStart (markerOf f) x = true)
    (RulesProcessor.spreadFor E p args g).
Proof.
  intros H. unfold RulesProcessor.spreadFor, RulesProcessor.sectionFor.
  destruct (RulesProcessor.simulateFlag p g
            && includes (RulesProcessor.toolTarget p)
                 (RulesProcessor.getToolTargetsSimulatedOf E g)) eqn:Hq;
    [|constructor].
  constructor; [|constructor].
  destruct (RulesProcessor.argFor args g) eqn:Ha; [|reflexivity].
  apply instructions_noStart. destruct H as [H|H]; [exact H|].
  intros ->. unfold carriesInstructions in H. now rewrite Hq, Ha in H.
Qed.

(** The text of the block holds the instructions of a feature exactly when
    its section is one of the joined sections and carries them. *)
Lemma block_text (args : RulesProcessor.ConventionsArgs)
  (f : RulesProcessor.Feature) :
  containsStr (RulesProcessor.instructionsFor E f)
    (RulesProcessor.generateAdditionalConventionsSection E p args)
  = carriesInstructions E p args f.
Proof.
  destruct (carriesInstructions E p args f) eqn:Hc.
  - unfold RulesProcessor.generateAdditionalConventionsSection.
    apply containsStr_append_l, containsStr_join.
    unfold carriesInstructions in Hc.
    apply andb_true_iff in Hc. destruct Hc as [Hq Ha].
    unfold RulesProcessor.additionalConventionsParts. right.
    assert (Hin : In (RulesProcessor.instructionsFor E f)
                    (RulesProcessor.spreadFor E p args f)).
    { unfold RulesProcessor.spreadFor, RulesProcessor.sectionFor.
      rewrite Hq. destruct (RulesProcessor.argFor args f);
        [now left|discriminate]. }
    rewrite !in_app_iff. destruct f; tauto.
  - destruct (containsStr (RulesProcessor.instructionsFor E f)
                (RulesProcessor.generateAdditionalConventionsSection E p args))
      eqn:Hin; [|reflexivity].
    apply (containsStr_beginning _ _ _ (instructions_marker E f)) in Hin.
    rewrite noStart_contains in Hin; [discriminate|now destruct f|].
    unfold RulesProcessor.generateAdditionalConventionsSection.
    assert (Hnl : noStart (markerOf f) nl = true) by (now destruct f).
    repeat match goal with
    | |- noStart _ (_ ++ _) = true => apply noStart_app
    end; try exact Hnl.
    apply noStart_join; [now apply noStart_app|].
    unfold RulesProcessor.additionalConventionsParts.
    constructor; [apply overview_noStart|].
    rewrite !Forall_app. repeat split; apply spread_noStart; now right.
Qed.

End ConventionsText.

Section Conventions.

Variable E : Externals.
Variable p : RulesProcessor.t.
Variable factory : ToolRuleFactory.
Variable files : list RulesyncFile.
Variable toolRules : list ToolRule.t.
Variable rootRuleIndex : nat.
Variable rootRule : ToolRule.t.
Variable references : string.

(** The store paths written into the instructions hold no [#]. *)
Hypothesis paths_plain : forallb withoutHash (instructionPaths E) = true.

(** A conversion for one of the four tools whose root document receives the
    block: the adapter is found, the targeted rules convert to [toolRules],
    whose first root document is [rootRule], and the references of the
    non-root documents are generated. *)
Hypothesis block_tool :
  In (RulesProcessor.toolTarget p) ["agentsmd"; "codexcli"; "copilot"; "geminicli"].
Hypothesis factory_found :
  RulesProcessor.getFactory p (RulesProcessor.toolTarget p) = Ok factory.
Hypothesis converted :
  RulesProcessor.convertTargeted p factory (RulesProcessor.rulesyncRulesOf files)
  = Ok toolRules.
Hypothesis root_found :
  findIndex ToolRule.isRoot toolRules = Some rootRuleIndex.
Hypothesis root_rule : nth_error toolRules rootRuleIndex = Some rootRule.
Hypothesis references_generated :
  RulesProcessor.generateToonReferencesSection E toolRules = Ok references.

(** The injection for the four tools. *)
Lemma conventions_injected :
  exists args,
    rootConventionsArgs E p = Some args
    /\ RulesProcessor.convertRulesyncFilesToToolFiles E p files
       = Ok (setAt rootRuleIndex
               (ToolRule.setFileContent
                  ((if String.eqb (RulesProcessor.toolTarget p) "copilot"
                    then EmptyString else references)
                   ++ RulesProcessor.generateAdditionalConventionsSection E p args
                   ++ ToolRule.getFileContent rootRule)
                  rootRule)
               toolRules).
Proof.
  assert (Hpushed : pushedRules E p = []).
  { unfold pushedRules. simpl in block_tool.
    destruct block_tool as [<-|[<-|[<-|[<-|[]]]]];
      now destruct (RulesProcessor.isSimulated p). }
  rewrite (convert_after_conversion E p files factory_found converted).
  rewrite Hpushed, app_nil_r, root_found.
  assert (Hprepend : forall generated,
    RulesProcessor.prependToRoot rootRuleIndex toolRules (Ok generated)
    = Ok (setAt rootRuleIndex
            (ToolRule.setFileContent
               (generated ++ ToolRule.getFileContent rootRule) rootRule)
            toolRules)).
  { intros generated. unfold RulesProcessor.prependToRoot.
    now rewrite root_rule. }
  unfold RulesProcessor.injectIntoRoot, rootConventionsArgs.
  rewrite references_generated.
  unfold RulesProcessor.codexcliSkillsDir.
  simpl in block_tool.
  destruct block_tool as [<-|[<-|[<-|[<-|[]]]]];
    cbn [String.eqb Ascii.eqb Bool.eqb bind];
    try (destruct (RulesProcessor.global p));
    cbn [bind CodexCliSimulatedSkill.getSettablePaths nullish
         skillsRelativeDirPath];
    eexists; (split; [reflexivity|]);
    rewrite Hprepend, ?append_assoc; reflexivity.
Qed.

(** C2 (as amended).  For every processor, the text of the
    additional-conventions block contains the instructions for simulating a
    feature only if the simulate flag of the feature is enabled and the tool
    target is in the feature's simulated-capable list; when the call hands
    the feature's directory to the generator, it contains them exactly when
    both hold (the case of a qualifying feature whose directory is not handed
    over is left open).  The block always begins with the overview heading,
    so it is never empty, also when no feature qualifies; and for agentsmd,
    codexcli, copilot and geminicli that block, after the references, is what
    the conversion puts before the body of the root document. *)
Theorem additional_conventions_block :
  (forall (q : RulesProcessor.t) (args : RulesProcessor.ConventionsArgs)
          (f : RulesProcessor.Feature),
     let block := RulesProcessor.generateAdditionalConventionsSection E q args in
     let qualifies :=
       RulesProcessor.simulateFlag q f
       && includes (RulesProcessor.toolTarget q)
            (RulesProcessor.getToolTargetsSimulatedOf E f) in
     match RulesProcessor.argFor args f with
     | Some _ =>
         containsStr (RulesProcessor.instructionsFor E f) block = qualifies
     | None =>
         if qualifies then True
         else containsStr (RulesProcessor.instructionsFor E f) block = false
     end
     /\ String.prefix RulesProcessor.overview block = true
     /\ block <> EmptyString)
  /\ exists args,
       rootConventionsArgs E p = Some args
       /\ RulesProcessor.convertRulesyncFilesToToolFiles E p files
          = Ok (setAt rootRuleIndex
                  (ToolRule.setFileContent
                     ((if String.eqb (RulesProcessor.toolTarget p) "copilot"
                       then EmptyString else references)
                      ++ RulesProcessor.generateAdditionalConventionsSection
                           E p args
                      ++ ToolRule.getFileContent rootRule)
                     rootRule)
                  toolRules).
Proof.
  split; [|exact conventions_injected].
  intros q args f block qualifies.
  assert (Hprefix : String.prefix RulesProcessor.overview block = true).
  { unfold block, RulesProcessor.generateAdditionalConventionsSection,
      RulesProcessor.additionalConventionsParts, join.
    cbn [String.concat].
    destruct (_ ++ _ ++ _)%list; [|rewrite append_assoc]; apply prefix_append. }
  split; [|split; [exact Hprefix|]].
  - unfold block. rewrite (@block_text E q paths_plain args f).
    unfold carriesInstructions.
    fold qualifies.
    destruct (RulesProcessor.argFor args f), qualifies; reflexivity.
  - intros H. rewrite H in Hprefix. discriminate Hprefix.
Qed.

End Conventions.

(** ** C1: loading the tool documents *)

Lemma loadToolFiles_run (E : Externals) (p : RulesProcessor.t)
  (forDeletion : bool) :
  RulesProcessor.loadToolFiles E p forDeletion
  = match outcome (RulesProcessor.loadToolFilesBody E p) with
    | Ok loaded => (logOf (RulesProcessor.loadToolFilesBody E p), Ok loaded)
    | Err e =>
        ((logOf (RulesProcessor.loadToolFilesBody E p) ++ [loadFailure E e])%list,
         Ok [])
    end.
Proof.
  unfold RulesProcessor.loadToolFiles.
  destruct (RulesProcessor.loadToolFilesBody E p) as [l [loaded|e]];
    reflexivity.
Qed.

Section ToolLoad.

Variable E : Externals.
Variable p : RulesProcessor.t.
Variable factory : ToolRuleFactory.
Variable settablePaths : ToolRuleSettablePaths.
Variables rootFiles nonRootFiles : list string.
Variable corrupt : string.
Variable parseError : Error.

(** The adapter and its locations resolve, both locations are enumerated,
    and one of the files found does not parse. *)
Hypothesis factory_found :
  RulesProcessor.getFactory p (RulesProcessor.toolTarget p) = Ok factory.
Hypothesis paths_found :
  getSettablePaths (ruleClass factory) (RulesProcessor.global p)
  = Ok settablePaths.
Hypothesis root_files :
  RulesProcessor.rootFilePaths E p settablePaths = Ok rootFiles.
Hypothesis non_root_files :
  RulesProcessor.nonRootFilePaths E p factory settablePaths = Ok nonRootFiles.
Hypothesis corrupt_found : In corrupt (rootFiles ++ nonRootFiles).
Hypothesis corrupt_fails :
  fromFile (ruleClass factory)
    {| ff_baseDir := RulesProcessor.baseDir p;
       ff_relativeFilePath := basename E corrupt;
       ff_global := RulesProcessor.global p |}
  = Err parseError.

Lemma loadToolFilesBody_fails :
  exists e, outcome (RulesProcessor.loadToolFilesBody E p) = Err e.
Proof.
  unfold RulesProcessor.loadToolFilesBody.
  rewrite factory_found, bindL_ok, paths_found, bindL_ok.
  rewrite root_files, non_root_files. cbn [bind].
  assert (Hfail : forall found, In corrupt found ->
            exists e, RulesProcessor.fromFiles E p factory found = Err e).
  { intros found Hin. unfold RulesProcessor.fromFiles.
    exact (promiseAll_fails
             (fun filePath =>
                fromFile (ruleClass factory)
                  {| ff_baseDir := RulesProcessor.baseDir p;
                     ff_relativeFilePath := basename E filePath;
                     ff_global := RulesProcessor.global p |})
             (settlesFirst E) found corrupt Hin corrupt_fails). }
  apply in_app_or in corrupt_found.
  destruct (RulesProcessor.fromFiles E p factory rootFiles) as [rs|e] eqn:Hrs.
  - rewrite bindL_ok, bindL_log. cbn [outcome snd].
    destruct corrupt_found as [Hin|Hin].
    + destruct (Hfail _ Hin) as [e He]. congruence.
    + destruct (Hfail _ Hin) as [e He]. rewrite He, bindL_err.
      exists e. reflexivity.
  - rewrite bindL_err. exists e. reflexivity.
Qed.

(** C1 (as amended).  When a tool document on disk fails to parse,
    [loadToolFiles] catches the error of the load, logs it at error level and
    returns the empty list without throwing, for [forDeletion = false] as for
    [forDeletion = true]: the flag is not used.  For the Directory Processor
    [loadToolDirsToDelete] is [loadToolDirs]. *)
Theorem loadToolFiles_catches :
  forall forDeletion : bool,
    (exists e,
       outcome (RulesProcessor.loadToolFilesBody E p) = Err e
       /\ RulesProcessor.loadToolFiles E p forDeletion
          = ((logOf (RulesProcessor.loadToolFilesBody E p)
              ++ [(ErrorLevel,
                   ("Failed to load tool files: " ++ formatError E e)%string)])%list,
             Ok []))
    /\ RulesProcessor.loadToolFiles E p forDeletion
       = RulesProcessor.loadToolFiles E p (negb forDeletion)
    /\ (forall sp : SkillsProcessor.t,
          SkillsProcessor.loadToolDirsToDelete E sp
          = SkillsProcessor.loadToolDirs E sp).
Proof.
  intros forDeletion. split; [|split].
  - destruct loadToolFilesBody_fails as [e He]. exists e. split; [exact He|].
    now rewrite loadToolFiles_run, He.
  - reflexivity.
  - reflexivity.
Qed.

End ToolLoad.

(** ** C6: new options win over deprecated ones *)

Lemma loadConfigByFile_silent (X : ConfigExternals) (path : string)
  (configByFile : PartialConfigParams.t) :
  outcome (ConfigResolver.loadConfigByFile X path) = Ok configByFile ->
  ConfigResolver.loadConfigByFile X path = ([], Ok configByFile).
Proof.
  unfold ConfigResolver.loadConfigByFile.
  destruct (fileExists X path).
  - destruct (readFileContent X path) as [content|e]; simpl.
    + destruct (parseConfigFile X content) as [c|e]; simpl; [|discriminate].
      now intros [= ->].
    + discriminate.
  - now intros [= ->].
Qed.

Lemma whenDefined_warn (value : option bool) (msg : string)
  (k : option bool -> Logged unit) :
  (forall v, k (Some v) = ([(Warn, msg)], Ok tt)) ->
  ConfigResolver.whenDefined value (k value)
  = (if isDefined value then [(Warn, msg)] else [], Ok tt).
Proof. intros H. destruct value; simpl; [apply H|reflexivity]. Qed.

Lemma isDefined_orElse (a b : option bool) :
  isDefined (orElse a b) = isDefined a || isDefined b.
Proof. now destruct a. Qed.

Section Migration.

Variable X : ConfigExternals.
Variable params : ConfigResolver.ResolveParams.
Variable validatedConfigPath : string.
Variable configByFile : PartialConfigParams.t.

(** The config path is accepted, and the config file is absent or loads as
    [configByFile]. *)
Hypothesis path_resolved :
  resolvePath X
    (nullish (ConfigResolver.configPath params) ConfigResolver.defaultConfigPath)
    (processCwd X)
  = Ok validatedConfigPath.
Hypothesis file_loaded :
  outcome (ConfigResolver.loadConfigByFile X validatedConfigPath)
  = Ok configByFile.

Let c := ConfigResolver.cli params.
Let f := configByFile.

Let resolvedGlobal : bool :=
  firstDefined
    [PartialConfigParams.global c; PartialConfigParams.global f;
     PartialConfigParams.experimentalGlobal c;
     PartialConfigParams.experimentalGlobal f] false.

Let chosenBaseDirs : list string :=
  nullish (orElse (PartialConfigParams.baseDirs c) (PartialConfigParams.baseDirs f))
    [processCwd X].

Let warnings : list LogEntry :=
  (deprecation (PartialConfigParams.experimentalGlobal c)
     (PartialConfigParams.experimentalGlobal f) ConfigResolver.warnGlobal
   ++ deprecation (PartialConfigParams.experimentalSimulateCommands c)
        (PartialConfigParams.experimentalSimulateCommands f)
        ConfigResolver.warnCommands
   ++ deprecation (PartialConfigParams.experimentalSimulateSubagents c)
        (PartialConfigParams.experimentalSimulateSubagents f)
        ConfigResolver.warnSubagents)%list.

Lemma resolve_run :
  exists build : list string -> Config.t,
    ConfigResolver.resolve X params
    = (warnings,
       bind (ConfigResolver.getBaseDirsInLightOfGlobal X chosenBaseDirs
               resolvedGlobal)
            (fun dirs => Ok (build dirs)))
    /\ forall dirs,
         Config.getGlobal (build dirs) = resolvedGlobal
         /\ Config.getSimulateCommands (build dirs)
            = firstDefined
                [PartialConfigParams.simulateCommands c;
                 PartialConfigParams.simulateCommands f;
                 PartialConfigParams.experimentalSimulateCommands c;
                 PartialConfigParams.experimentalSimulateCommands f] false
         /\ Config.getSimulateSubagents (build dirs)
            = firstDefined
                [PartialConfigParams.simulateSubagents c;
                 PartialConfigParams.simulateSubagents f;
                 PartialConfigParams.experimentalSimulateSubagents c;
                 PartialConfigParams.experimentalSimulateSubagents f] false.
Proof.
  eexists. split.
  - unfold ConfigResolver.resolve.
    rewrite path_resolved, bindL_ok.
    rewrite (loadConfigByFile_silent _ _ file_loaded).
    change (@pair (list LogEntry) (result PartialConfigParams.t) []
              (Ok configByFile)) with (lift (Ok configByFile)).
    rewrite bindL_ok.
    rewrite (@whenDefined_warn _ ConfigResolver.warnGlobal
               (fun v => ConfigResolver.warnDeprecatedOptions v None None))
      by reflexivity.
    rewrite (@whenDefined_warn _ ConfigResolver.warnCommands
               (fun v => ConfigResolver.warnDeprecatedOptions None v None))
      by reflexivity.
    rewrite (@whenDefined_warn _ ConfigResolver.warnSubagents
               (fun v => ConfigResolver.warnDeprecatedOptions None None v))
      by reflexivity.
    rewrite !isDefined_orElse.
    fold c. fold f.
    assert (Hg :
      nullish (orElse (PartialConfigParams.global c)
                (orElse (PartialConfigParams.global f)
                   (orElse (PartialConfigParams.experimentalGlobal c)
                      (PartialConfigParams.experimentalGlobal f))))
        ConfigResolver.defaultGlobal
      = resolvedGlobal).
    { unfold resolvedGlobal.
      destruct (PartialConfigParams.global c), (PartialConfigParams.global f),
        (PartialConfigParams.experimentalGlobal c),
        (PartialConfigParams.experimentalGlobal f); reflexivity. }
    rewrite Hg. fold chosenBaseDirs.
    unfold warnings, deprecation.
    destruct (ConfigResolver.getBaseDirsInLightOfGlobal X chosenBaseDirs
                resolvedGlobal) as [dirs|e];
      destruct (isDefined (PartialConfigParams.experimentalGlobal c)
                || isDefined (PartialConfigParams.experimentalGlobal f)),
        (isDefined (PartialConfigParams.experimentalSimulateCommands c)
         || isDefined (PartialConfigParams.experimentalSimulateCommands f)),
        (isDefined (PartialConfigParams.experimentalSimulateSubagents c)
         || isDefined (PartialConfigParams.experimentalSimulateSubagents f));
      cbn [bindL lift ret app bind]; reflexivity.
  - intros dirs. cbn beta.
    unfold Config.getGlobal, Config.getSimulateCommands,
      Config.getSimulateSubagents, Config.new, resolvedGlobal.
    cbn [Config.global Config.simulateCommands Config.simulateSubagents
         ConfigParams.global ConfigParams.experimentalGlobal
         ConfigParams.simulateCommands ConfigParams.experimentalSimulateCommands
         ConfigParams.simulateSubagents
         ConfigParams.experimentalSimulateSubagents orElse nullish].
    unfold f.
    repeat split;
      repeat match goal with
      | |- context [orElse ?a _] => destruct a; cbn [orElse]
      end;
      reflexivity.
Qed.

(** C6.  Each of [global], [simulateCommands] and [simulateSubagents]
    resolves to the first defined value among: the new CLI option, the new
    config-file option, the deprecated CLI option, the deprecated config-file
    option, and otherwise [false]; the constructor of [Config] itself prefers
    the new option over the deprecated one.  The log of the resolution is
    exactly one warning per deprecated option that is defined in either
    source, used or not.  Resolution succeeds exactly when the base
    directories pass (global mode, or every resolved directory validates):
    a deprecated option is never an error. *)
Theorem migration_first_defined_wins :
  let run := ConfigResolver.resolve X params in
  logOf run = warnings
  /\ isOk (outcome run)
     = (resolvedGlobal
        || forallb (fun dir => isOk (validateBaseDir X dir))
             (map (resolve X) chosenBaseDirs))
  /\ (forall config,
        outcome run = Ok config ->
        Config.getGlobal config = resolvedGlobal
        /\ Config.getSimulateCommands config
           = firstDefined
               [PartialConfigParams.simulateCommands c;
                PartialConfigParams.simulateCommands f;
                PartialConfigParams.experimentalSimulateCommands c;
                PartialConfigParams.experimentalSimulateCommands f] false
        /\ Config.getSimulateSubagents config
           = firstDefined
               [PartialConfigParams.simulateSubagents c;
                PartialConfigParams.simulateSubagents f;
                PartialConfigParams.experimentalSimulateSubagents c;
                PartialConfigParams.experimentalSimulateSubagents f] false)
  /\ (In (Warn, ConfigResolver.warnGlobal) (logOf run)
      <-> PartialConfigParams.experimentalGlobal c <> None
          \/ PartialConfigParams.experimentalGlobal f <> None)
  /\ (forall ps : ConfigParams.t,
        Config.getGlobal (Config.new ps)
        = firstDefined [ConfigParams.global ps;
                        ConfigParams.experimentalGlobal ps] false
        /\ Config.getSimulateCommands (Config.new ps)
           = firstDefined [ConfigParams.simulateCommands ps;
                           ConfigParams.experimentalSimulateCommands ps] false
        /\ Config.getSimulateSubagents (Config.new ps)
           = firstDefined [ConfigParams.simulateSubagents ps;
                           ConfigParams.experimentalSimulateSubagents ps] false).
Proof.
  intros run. destruct resolve_run as [build [Hrun Hbuild]].
  fold run in Hrun.
  assert (Hlog : logOf run = warnings) by now rewrite Hrun.
  split; [exact Hlog|]. split; [|split; [|split]].
  - rewrite Hrun. cbn [outcome snd].
    unfold ConfigResolver.getBaseDirsInLightOfGlobal.
    destruct resolvedGlobal; [reflexivity|]. cbn [orb].
    rewrite <- mapM_isOk.
    now destruct (mapM (validateBaseDir X) (map (resolve X) chosenBaseDirs)).
  - intros config Hc. rewrite Hrun in Hc. cbn [outcome snd] in Hc.
    destruct (ConfigResolver.getBaseDirsInLightOfGlobal X chosenBaseDirs
                resolvedGlobal) as [dirs|e]; [|discriminate].
    injection Hc as <-. apply Hbuild.
  - rewrite Hlog. unfold warnings, deprecation.
    destruct (PartialConfigParams.experimentalGlobal c),
      (PartialConfigParams.experimentalGlobal f),
      (PartialConfigParams.experimentalSimulateCommands c),
      (PartialConfigParams.experimentalSimulateCommands f),
      (PartialConfigParams.experimentalSimulateSubagents c),
      (PartialConfigParams.experimentalSimulateSubagents f);
      cbn [isDefined orb app In]; split;
      try (intros _; solve [ left; discriminate | right; discriminate
                           | left; reflexivity ]);
      intros H;
      repeat match goal with
      | H : _ \/ _ |- _ => destruct H as [H|H]
      end;
      solve [ contradiction | discriminate H | congruence ].
  - intros ps. unfold Config.getGlobal, Config.getSimulateCommands,
      Config.getSimulateSubagents, Config.new.
    cbn [Config.global Config.simulateCommands Config.simulateSubagents].
    repeat split;
      repeat match goal with
      | |- context [orElse ?a _] => destruct a; cbn [orElse]
      end;
      reflexivity.
Qed.

End Migration.

(** * The properties on the example inputs *)

Import Examples.

(** C1, on the disk with one corrupt and one valid tool document: the
    corrupt file is found and does not parse, and the load for conversion
    returns the empty list after logging the parse error. *)
Lemma loadToolFiles_catches_witness :
  In "/work/claudecode/rules/corrupt.md" ([] ++ toolFilesOnDisk)
  /\ fromFile (ruleClass (plainFactory "claudecode"))
       {| ff_baseDir := "/work";
          ff_relativeFilePath := "corrupt.md";
          ff_global := false |}
     = Err (mkError "Invalid frontmatter in corrupt.md")
  /\ RulesProcessor.loadToolFiles E1 claudecode false
     = ([(Debug, "Found 0 root tool rule files");
         (ErrorLevel,
          "Failed to load tool files: Invalid frontmatter in corrupt.md")],
        Ok []).
Proof.
  split; [simpl; auto|]. split; [reflexivity|].
  destruct (@loadToolFiles_catches E1 claudecode (plainFactory "claudecode")
              claudecodePaths [] toolFilesOnDisk
              "/work/claudecode/rules/corrupt.md"
              (mkError "Invalid frontmatter in corrupt.md")
              eq_refl eq_refl eq_refl eq_refl (or_introl eq_refl) eq_refl
              false)
    as [[e [He Hrun]] _].
  rewrite Hrun. vm_compute in He. injection He as <-. reflexivity.
Defined.

(** C1 as stated fails: with a corrupt tool document on disk, the load for
    conversion ([forDeletion = false]) does not propagate the parse error;
    its outcome is the empty list. *)
Lemma conversion_load_does_not_propagate :
  fromFile (ruleClass (plainFactory "claudecode"))
    {| ff_baseDir := "/work";
       ff_relativeFilePath := Sample.sampleBasename "/work/claudecode/rules/corrupt.md";
       ff_global := false |}
  = Err (mkError "Invalid frontmatter in corrupt.md")
  /\ outcome (RulesProcessor.loadToolFiles E1 claudecode false) = Ok []
  /\ outcome (RulesProcessor.loadToolFiles E1 claudecode false)
     <> Err (mkError "Invalid frontmatter in corrupt.md").
Proof.
  split; [reflexivity|]. split; [reflexivity|]. discriminate.
Qed.

(** C2 as stated fails, twice.  For agentsmd with every simulate flag
    disabled no feature qualifies, and yet the root document's body receives
    the overview of the additional-conventions block in front of [Intro].
    For agentsmd with simulated skills enabled, agentsmd is in the
    simulated-capable list of skills, and yet the body does not contain the
    instructions for skills: the agentsmd case passes no skills directory. *)
Lemma additional_conventions_counterexample :
  RulesProcessor.isSimulated agentsmd = false
  /\ (exists converted,
        RulesProcessor.convertRulesyncFilesToToolFiles E1 agentsmd
          [RulesyncRuleFile overviewRule]
        = Ok [converted]
        /\ ToolRule.getFileContent converted
           = RulesProcessor.overview ++ nl ++ nl ++ "Intro"
        /\ ToolRule.getFileContent converted <> "Intro")
  /\ RulesProcessor.simulateSkills agentsmdWithSkills = true
  /\ includes (RulesProcessor.toolTarget agentsmdWithSkills)
       (SkillsProcessor.getToolTargetsSimulated E1) = true
  /\ (exists converted,
        RulesProcessor.convertRulesyncFilesToToolFiles E1 agentsmdWithSkills
          [RulesyncRuleFile overviewRule]
        = Ok [converted]
        /\ containsStr (RulesProcessor.skillsInstructions E1)
             (ToolRule.getFileContent converted) = false).
Proof.
  split; [reflexivity|]. split.
  - eexists. split; [vm_compute; reflexivity|].
    split; [reflexivity|discriminate].
  - split; [reflexivity|]. split; [reflexivity|].
    eexists. split; [vm_compute; reflexivity|].
    vm_compute. reflexivity.
Qed.

(** C2 (as amended), for copilot with simulated skills on the end-to-end
    example: the block holds the instructions for skills and not those for
    commands, and it is written before the body of the root document. *)
Lemma additional_conventions_block_witness :
  forallb withoutHash (instructionPaths E1) = true
  /\ containsStr (RulesProcessor.skillsInstructions E1)
       (RulesProcessor.generateAdditionalConventionsSection E1
          copilotWithSkills copilotArgs)
     = true
  /\ containsStr (RulesProcessor.commandsInstructions E1)
       (RulesProcessor.generateAdditionalConventionsSection E1
          copilotWithSkills copilotArgs)
     = false
  /\ exists args,
       rootConventionsArgs E1 copilotWithSkills = Some args
       /\ RulesProcessor.convertRulesyncFilesToToolFiles E1 copilotWithSkills
            [RulesyncRuleFile overviewRule; RulesyncRuleFile styleRule]
          = Ok [ToolRule.setFileContent
                  (RulesProcessor.generateAdditionalConventionsSection E1
                     copilotWithSkills args
                   ++ "Intro")
                  (Sample.plainRule "copilot" overviewRule);
                Sample.plainRule "copilot" styleRule].
Proof.
  split; [reflexivity|].
  destruct (@additional_conventions_block E1 copilotWithSkills
              (plainFactory "copilot")
              [RulesyncRuleFile overviewRule; RulesyncRuleFile styleRule]
              [Sample.plainRule "copilot" overviewRule;
               Sample.plainRule "copilot" styleRule]
              0 (Sample.plainRule "copilot" overviewRule)
              (toonReferences E1 "copilot/rules/style.md" "Style guide" ["*.ts"])
              eq_refl (or_intror (or_intror (or_introl eq_refl)))
              eq_refl eq_refl eq_refl eq_refl eq_refl)
    as [Htext Hconv].
  split; [|split].
  - destruct (Htext copilotWithSkills copilotArgs RulesProcessor.Skills)
      as [H _]. exact H.
  - destruct (Htext copilotWithSkills copilotArgs RulesProcessor.Commands)
      as [H _]. exact H.
  - exact Hconv.
Defined.

(** On the example environment the text of the block contains the
    instructions of a feature only when the feature qualifies. *)
Example block_text_without_commands :
  containsStr (RulesProcessor.commandsInstructions E1)
    (RulesProcessor.generateAdditionalConventionsSection E1 cursorWithSkills
       {| RulesProcessor.commands := Some ".cursor/commands";
          RulesProcessor.subagents := Some ".cursor/subagents";
          RulesProcessor.skills := Some ".cursor/skills" |})
  = false
  /\ containsStr (RulesProcessor.skillsInstructions E1)
       (RulesProcessor.generateAdditionalConventionsSection E1 cursorWithSkills
          {| RulesProcessor.commands := Some ".cursor/commands";
             RulesProcessor.subagents := Some ".cursor/subagents";
             RulesProcessor.skills := Some ".cursor/skills" |})
     = true.
Proof. split; vm_compute; reflexivity. Qed.

(** C3, on the end-to-end example for claudecode, and for claudecode and
    geminicli on a non-root rule whose description holds double quotes and
    which has two globs. *)
Lemma references_block_witness :
  In (RulesProcessor.toolTarget claudecode)
     ("claudecode" :: toonOnlyTools ++ toonAndConventionsTools)
  /\ RulesProcessor.convertRulesyncFilesToToolFiles E1 claudecode
       [RulesyncRuleFile overviewRule; RulesyncRuleFile styleRule]
     = Ok [ToolRule.setFileContent
             (lineReferences "claudecode/rules/style.md" "Style guide" ["*.ts"]
              ++ "Intro")
             (Sample.plainRule "claudecode" overviewRule);
           Sample.plainRule "claudecode" styleRule]
  /\ RulesProcessor.convertRulesyncFilesToToolFiles E1 claudecode
       [RulesyncRuleFile overviewRule; RulesyncRuleFile quotedRule]
     = Ok [ToolRule.setFileContent
             (lineReferences "claudecode/rules/quoted.md" quotedText
                ["src/**"; "test/**"]
              ++ "Intro")
             (Sample.plainRule "claudecode" overviewRule);
           Sample.plainRule "claudecode" quotedRule]
  /\ RulesProcessor.convertRulesyncFilesToToolFiles E1 geminicli
       [RulesyncRuleFile quotedRule; RulesyncRuleFile overviewRule]
     = Ok [Sample.plainRule "geminicli" quotedRule;
           ToolRule.setFileContent
             (toonReferences E1 "geminicli/rules/quoted.md" quotedText
                ["src/**"; "test/**"]
              ++ RulesProcessor.overview ++ nl ++ nl ++ "Intro")
             (Sample.plainRule "geminicli" overviewRule)].
Proof.
  split; [simpl; auto|]. split; [|split].
  - destruct (@references_block E1 claudecode (plainFactory "claudecode")
                overviewRule styleRule
                (Sample.plainRule "claudecode" overviewRule)
                (Sample.plainRule "claudecode" styleRule)
                (rule "style.md" (Some false) (Some ["*"]) (Some "Style guide")
                   (Some ["*.ts"]) "Use const.")
                "Style guide" ["*.ts"]
                eq_refl eq_refl eq_refl eq_refl eq_refl eq_refl eq_refl eq_refl
                eq_refl eq_refl eq_refl eq_refl eq_refl (or_introl eq_refl))
      as [Hpair _].
    exact (Hpair true).
  - destruct (@references_block E1 claudecode (plainFactory "claudecode")
                overviewRule quotedRule
                (Sample.plainRule "claudecode" overviewRule)
                (Sample.plainRule "claudecode" quotedRule)
                (rule "quoted.md" (Some false) (Some ["*"]) (Some quotedText)
                   (Some ["src/**"; "test/**"]) "Be strict.")
                quotedText ["src/**"; "test/**"]
                eq_refl eq_refl eq_refl eq_refl eq_refl eq_refl eq_refl eq_refl
                eq_refl eq_refl eq_refl eq_refl eq_refl (or_introl eq_refl))
      as [Hpair _].
    exact (Hpair true).
  - destruct (@references_block E1 geminicli (plainFactory "geminicli")
                overviewRule quotedRule
                (Sample.plainRule "geminicli" overviewRule)
                (Sample.plainRule "geminicli" quotedRule)
                (rule "quoted.md" (Some false) (Some ["*"]) (Some quotedText)
                   (Some ["src/**"; "test/**"]) "Be strict.")
                quotedText ["src/**"; "test/**"]
                eq_refl eq_refl eq_refl eq_refl eq_refl eq_refl eq_refl eq_refl
                eq_refl eq_refl eq_refl eq_refl eq_refl
                (or_intror (or_intror (or_intror (or_intror (or_intror
                   (or_intror (or_intror (or_intror (or_introl eq_refl))))))))))
      as [Hpair _].
    exact (Hpair false).
Defined.

(** The references keep the order of the input, here zebra before apple. *)
Example references_in_input_order :
  map RulesProcessor.referenceLine
    (RulesProcessor.withoutRoot
       (map (Sample.plainRule "claudecode") [overviewRule; zebraRule; appleRule]))
  = map RulesProcessor.referenceLine
      (map (Sample.plainRule "claudecode") [zebraRule; appleRule]).
Proof. reflexivity. Qed.

(** C4, on a store with two root rules and on a store with one. *)
Lemma root_uniqueness_witness :
  mapM (fun file => RulesyncRule_fromFile E2 (basename E2 file))
    [".rulesync/rules/overview.md"; ".rulesync/rules/second.md";
     ".rulesync/rules/style.md"]
  = Ok [overviewRule; secondRoot; styleRule]
  /\ outcome (RulesProcessor.loadRulesyncFiles E2 claudecode)
     = Err RulesProcessor.multipleRootError
  /\ exists out,
       outcome (RulesProcessor.loadRulesyncFiles E1 claudecode) = Ok out
       /\ In overviewRule out
       /\ filter RulesyncRule.isRoot out = [overviewRule].
Proof.
  split; [reflexivity|]. split.
  - exact (@root_uniqueness E2 claudecode
             [".rulesync/rules/overview.md"; ".rulesync/rules/second.md";
              ".rulesync/rules/style.md"]
             [overviewRule; secondRoot; styleRule] eq_refl eq_refl).
  - exact (@root_uniqueness E1 claudecode
             [".rulesync/rules/overview.md"; ".rulesync/rules/style.md";
              ".rulesync/rules/claude.md"]
             [overviewRule; styleRule; claudeOnly] eq_refl eq_refl).
Defined.

(** C8, on a store with one root rule and two others, in global mode. *)
Lemma global_load_returns_root_only_witness :
  RulesProcessor.global claudecodeGlobal = true
  /\ length (filter RulesyncRule.isRoot [overviewRule; styleRule; claudeOnly]) <= 1
  /\ RulesProcessor.loadRulesyncFiles E1 claudecodeGlobal
     = ([(Debug, "Found 3 rulesync files");
         (Warn, "2 non-root rulesync rules found, but it's in global mode, so ignoring them")],
        Ok [overviewRule]).
Proof.
  split; [reflexivity|]. split; [simpl; lia|].
  refine (proj1 (@global_load_returns_root_only E1 claudecodeGlobal
                   [".rulesync/rules/overview.md"; ".rulesync/rules/style.md";
                    ".rulesync/rules/claude.md"]
                   [overviewRule; styleRule; claudeOnly]
                   eq_refl eq_refl eq_refl _)).
  simpl; lia.
Defined.

(** C6: the config file sets the new [global] to false and the command line
    passes two deprecated options; the new option wins, both warnings are
    logged, and resolution succeeds. *)
Lemma migration_first_defined_wins_witness :
  resolvePath (configExternals (Some configFile))
    (nullish (ConfigResolver.configPath commandLine)
       ConfigResolver.defaultConfigPath)
    (processCwd (configExternals (Some configFile)))
  = Ok "/work/rulesync.jsonc"
  /\ outcome (ConfigResolver.loadConfigByFile (configExternals (Some configFile))
                "/work/rulesync.jsonc")
     = Ok configFile
  /\ logOf (ConfigResolver.resolve (configExternals (Some configFile)) commandLine)
     = [(Warn, ConfigResolver.warnGlobal); (Warn, ConfigResolver.warnCommands)]
  /\ isOk (outcome (ConfigResolver.resolve (configExternals (Some configFile))
                      commandLine))
     = true.
Proof.
  split; [reflexivity|]. split; [reflexivity|].
  destruct (@migration_first_defined_wins (configExternals (Some configFile))
              commandLine "/work/rulesync.jsonc" configFile eq_refl eq_refl)
    as [Hlog [Hok _]].
  split; [exact Hlog | exact Hok].
Defined.

(** C9, on the registries of the source: Codex CLI in project mode resolves
    to the simulated adapter and cursor to its rule adapter; of the three
    skills the one for claudecode alone is not produced, and of the two rules
    the one for claudecode alone is not converted. *)
Lemma conversion_follows_targeting_witness :
  SkillsProcessor.getFactory codexcliProject = defaultGetFactory E1
  /\ defaultGetFactory E1 "codexcli" false = Ok codexcliProjectFactory
  /\ RulesProcessor.getFactory (registered "cursor") = defaultGetRuleFactory E1
  /\ defaultGetRuleFactory E1 "cursor"
     = Ok (ruleFactory E1 CursorRule mdc)
  /\ SkillsProcessor.convertRulesyncDirsToToolDirs codexcliProject skillDirs
     = mapM (fun s => fromRulesyncSkill (CodexCliSimulatedSkill.class E1)
                        {| frs_rulesyncSkill := s; frs_global := false |})
         [skill "for-all" (Some ["*"]);
          skill "for-codex" (Some ["codexcli"; "cursor"])]
  /\ RulesProcessor.convertRulesyncFilesToToolFiles E1 (registered "cursor")
       [RulesyncRuleFile claudeOnly; RulesyncRuleFile styleRule]
     = Ok [Sample.plainRule "cursor" styleRule].
Proof.
  split; [reflexivity|]. split; [reflexivity|].
  split; [reflexivity|]. split; [reflexivity|].
  destruct (@conversion_follows_targeting E1 codexcliProject
              codexcliProjectFactory (registered "cursor")
              (ruleFactory E1 CursorRule mdc)
              eq_refl eq_refl eq_refl eq_refl)
    as [Hskills [Hrules _]].
  split.
  - exact (Hskills skillDirs).
  - exact (Hrules [RulesyncRuleFile claudeOnly; RulesyncRuleFile styleRule]).
Defined.

(** C10, for cursor with simulated skills: the only canonical rule fails the
    targeting test, there is no root rule, and the output is the synthetic
    rule alone. *)
Lemma convention_rule_appended_witness :
  RulesProcessor.isSimulated cursorWithSkills = true
  /\ isTargetedByRulesyncRule (ruleClass (plainFactory "cursor")) claudeOnly
     = false
  /\ RulesProcessor.convertRulesyncFilesToToolFiles E1 cursorWithSkills
       [RulesyncRuleFile claudeOnly]
     = Ok [RulesProcessor.cursorConventionsRule E1 cursorWithSkills]
  /\ ToolRule.getRelativePathFromCwd
       (RulesProcessor.cursorConventionsRule E1 cursorWithSkills)
     = ".cursor/rules/additional-conventions.mdc".
Proof.
  split; [reflexivity|]. split; [reflexivity|]. split; [|reflexivity].
  exact (proj1 (@convention_rule_appended E1 cursorWithSkills
                  (plainFactory "cursor") [RulesyncRuleFile claudeOnly] []
                  eq_refl (or_introl eq_refl) eq_refl eq_refl)).
Defined.

(** * Further properties of the sources *)

(** ** Construction and the registries *)

Lemma registered_skill_target (E : Externals) (target : string) (global : bool) :
  includes target skillsProcessorToolTargetTuple = true ->
  exists factory, defaultGetFactory E target global = Ok factory.
Proof.
  unfold includes, skillsProcessorToolTargetTuple, defaultGetFactory,
    toolSkillFactories.
  cbn [existsb mapGet].
  repeat (destruct (String.eqb target _); [intros _; eexists; reflexivity|]).
  discriminate.
Qed.

Lemma registered_rule_target (E : Externals) (target : string) :
  includes target rulesProcessorToolTargets = true ->
  exists factory, defaultGetRuleFactory E target = Ok factory.
Proof.
  unfold includes, rulesProcessorToolTargets, defaultGetRuleFactory,
    toolRuleFactories.
  cbn [existsb mapGet].
  repeat (destruct (String.eqb target _); [intros _; eexists; reflexivity|]).
  discriminate.
Qed.

(** X1.  The constructor of [SkillsProcessor] accepts exactly the six tool
    targets of its schema and otherwise throws the error that names the
    target; an accepted processor has the given target, [global] false and the
    working directory as base directory unless given, and with the default
    factory its registry lookup succeeds in both modes: the schema and the
    keys of the factory map agree. *)
Theorem skills_processor_construction :
  forall (E : Externals) (params : SkillsProcessor.Params),
    match SkillsProcessor.new E params with
    | Ok p =>
        In (SkillsProcessor.p_toolTarget params) skillsProcessorToolTargetTuple
        /\ SkillsProcessor.toolTarget p = SkillsProcessor.p_toolTarget params
        /\ SkillsProcessor.global p
           = nullish (SkillsProcessor.p_global params) false
        /\ SkillsProcessor.baseDir p
           = nullish (SkillsProcessor.p_baseDir params) (cwd E)
        /\ match SkillsProcessor.p_getFactory params with
           | Some injected => SkillsProcessor.getFactory p = injected
           | None =>
               forall global,
                 isOk (SkillsProcessor.getFactory p
                         (SkillsProcessor.toolTarget p) global) = true
           end
    | Err e =>
        ~ In (SkillsProcessor.p_toolTarget params) skillsProcessorToolTargetTuple
        /\ String.prefix
             ("Invalid tool target for SkillsProcessor: "
              ++ SkillsProcessor.p_toolTarget params ++ ". ")
             (message e) = true
    end.
Proof.
  intros E params. unfold SkillsProcessor.new.
  destruct (includes (SkillsProcessor.p_toolTarget params)
              skillsProcessorToolTargetTuple) eqn:Hin.
  - cbn [SkillsProcessor.toolTarget SkillsProcessor.global
         SkillsProcessor.baseDir SkillsProcessor.getFactory].
    repeat split; [now apply includes_true|].
    destruct (SkillsProcessor.p_getFactory params); [reflexivity|].
    intros global. cbn [nullish].
    destruct (registered_skill_target E _ global Hin) as [factory ->].
    reflexivity.
  - split.
    + intros H. apply includes_true in H. congruence.
    + cbn [message]. rewrite <- !append_assoc. apply prefix_append.
Qed.

(** X2.  The constructor of [RulesProcessor] accepts exactly the eighteen
    tool targets of its schema; an accepted processor keeps the given target,
    each of the three simulate flags and [global] is the given value and
    false when omitted, so that [isSimulated] is the disjunction of the given
    flags, and with the default factory its registry lookup succeeds.  Every
    target listed for global mode is also a project target. *)
Theorem rules_processor_construction :
  forall (E : Externals) (params : RulesProcessor.Params),
    match RulesProcessor.new E params with
    | Ok p =>
        In (RulesProcessor.p_toolTarget params) (RulesProcessor.getToolTargets false)
        /\ RulesProcessor.toolTarget p = RulesProcessor.p_toolTarget params
        /\ RulesProcessor.global p
           = nullish (RulesProcessor.p_global params) false
        /\ RulesProcessor.simulateCommands p
           = nullish (RulesProcessor.p_simulateCommands params) false
        /\ RulesProcessor.simulateSubagents p
           = nullish (RulesProcessor.p_simulateSubagents params) false
        /\ RulesProcessor.simulateSkills p
           = nullish (RulesProcessor.p_simulateSkills params) false
        /\ RulesProcessor.isSimulated p
           = (nullish (RulesProcessor.p_simulateCommands params) false
              || nullish (RulesProcessor.p_simulateSubagents params) false
              || nullish (RulesProcessor.p_simulateSkills params) false)
        /\ match RulesProcessor.p_getFactory params with
           | Some injected => RulesProcessor.getFactory p = injected
           | None =>
               isOk (RulesProcessor.getFactory p (RulesProcessor.toolTarget p))
               = true
           end
    | Err e =>
        ~ In (RulesProcessor.p_toolTarget params) (RulesProcessor.getToolTargets false)
        /\ String.prefix
             ("Invalid tool target for RulesProcessor: "
              ++ RulesProcessor.p_toolTarget params ++ ". ")
             (message e) = true
    end
    /\ forallb (fun target => includes target (RulesProcessor.getToolTargets false))
         (RulesProcessor.getToolTargets true) = true.
Proof.
  intros E params. split; [|reflexivity].
  unfold RulesProcessor.new, RulesProcessor.getToolTargets.
  destruct (includes (RulesProcessor.p_toolTarget params)
              rulesProcessorToolTargets) eqn:Hin.
  - cbn [RulesProcessor.toolTarget RulesProcessor.global
         RulesProcessor.getFactory].
    repeat split; [now apply includes_true|].
    destruct (RulesProcessor.p_getFactory params); [reflexivity|].
    cbn [nullish].
    destruct (registered_rule_target E _ Hin) as [factory ->].
    reflexivity.
  - split.
    + intros H. apply includes_true in H. congruence.
    + cbn [message]. rewrite <- !append_assoc. apply prefix_append.
Qed.

(** X3.  The target lists derived from the skill registry: global mode lists
    claudecode and codexcli whatever [includeSimulated]; project mode lists
    claudecode alone without the simulated targets and all six with them;
    the simulated targets are the other five.  A project target is in the
    list without simulated targets or in the simulated list, never in both,
    and every target of every list is accepted by the constructor. *)
Theorem skill_target_lists :
  forall E : Externals,
    (forall includeSimulated,
       SkillsProcessor.getToolTargets E true includeSimulated
       = ["claudecode"; "codexcli"])
    /\ SkillsProcessor.getToolTargetsGlobal E = ["claudecode"; "codexcli"]
    /\ SkillsProcessor.getToolTargets E false false = ["claudecode"]
    /\ SkillsProcessor.getToolTargets E false true
       = skillsProcessorToolTargetTuple
    /\ SkillsProcessor.getToolTargetsSimulated E
       = ["agentsmd"; "codexcli"; "copilot"; "cursor"; "geminicli"]
    /\ (forall target,
          In target (SkillsProcessor.getToolTargets E false true)
          <-> In target (SkillsProcessor.getToolTargets E false false)
              \/ In target (SkillsProcessor.getToolTargetsSimulated E))
    /\ forallb (fun target =>
                  negb (includes target (SkillsProcessor.getToolTargetsSimulated E)))
         (SkillsProcessor.getToolTargets E false false) = true
    /\ (forall global includeSimulated,
          forallb (fun target => includes target skillsProcessorToolTargetTuple)
            (SkillsProcessor.getToolTargets E global includeSimulated) = true).
Proof.
  intros E.
  assert (Hg : forall inc, SkillsProcessor.getToolTargets E true inc
                           = ["claudecode"; "codexcli"])
    by (intros []; reflexivity).
  assert (H0 : SkillsProcessor.getToolTargets E false false = ["claudecode"])
    by reflexivity.
  assert (H1 : SkillsProcessor.getToolTargets E false true
               = skillsProcessorToolTargetTuple) by reflexivity.
  assert (Hs : SkillsProcessor.getToolTargetsSimulated E
               = ["agentsmd"; "codexcli"; "copilot"; "cursor"; "geminicli"])
    by reflexivity.
  split; [exact Hg|]. split; [reflexivity|]. split; [exact H0|].
  split; [exact H1|]. split; [exact Hs|]. split; [|split].
  - intros target. rewrite H0, H1, Hs.
    unfold skillsProcessorToolTargetTuple. simpl. tauto.
  - rewrite H0, Hs. reflexivity.
  - intros [] []; reflexivity.
Qed.

(** ** The simulated adapter of Codex CLI *)

Lemma codexcli_fromRulesyncSkill_ok (E : Externals)
  (params : ToolSkillFromRulesyncSkillParams) (s : ToolSkill.t) :
  CodexCliSimulatedSkill.fromRulesyncSkill E params = Ok s ->
  exists defaults,
    fromRulesyncSkillDefault E params = Ok defaults
    /\ s = CodexCliSimulatedSkill.instanceOf
             {| ssp_baseDir := ssp_baseDir defaults;
                ssp_relativeDirPath := pathJoin E [".codex"; "skills"];
                ssp_dirName := ssp_dirName defaults;
                ssp_name := ssp_name defaults;
                ssp_description := ssp_description defaults;
                ssp_body := ssp_body defaults;
                ssp_validate := ssp_validate defaults |}.
Proof.
  unfold CodexCliSimulatedSkill.fromRulesyncSkill,
    CodexCliSimulatedSkill.create.
  destruct (fromRulesyncSkillDefault E params) as [defaults|e];
    cbn [bind CodexCliSimulatedSkill.getSettablePaths nullish
         skillsRelativeDirPath]; [|discriminate].
  destruct (SimulatedSkill_validate E _); cbn [bind]; [|discriminate].
  intros [= <-]. exists defaults. split; reflexivity.
Qed.

Lemma toolSkillsOf_tool (toolSkills : list ToolSkill.t) :
  SkillsProcessor.toolSkillsOf (map ToolSkillDir toolSkills) = toolSkills.
Proof.
  induction toolSkills as [|s rest IH]; simpl; [reflexivity|now rewrite IH].
Qed.

Lemma simulated_only_skipped (E : Externals) (toolSkills : list ToolSkill.t) :
  (forall s, In s toolSkills -> ToolSkill.simulated s = true) ->
  SkillsProcessor.convertLoop E toolSkills []
  = (map (skipNote E) toolSkills, Ok []).
Proof.
  intros Hall.
  assert (Hout : outcome (SkillsProcessor.convertLoop E toolSkills []) = Ok []).
  { rewrite convertLoop_outcome, filter_none; [reflexivity|].
    intros s Hs. unfold isNative. now rewrite (Hall s Hs). }
  rewrite (logged_eta (SkillsProcessor.convertLoop E toolSkills [])), Hout.
  f_equal. rewrite convertLoop_log by (now rewrite Hout).
  now rewrite filter_all.
Qed.

(** X4.  [CodexCliSimulatedSkill.getSettablePaths] succeeds exactly when
    global mode is not requested.  [fromRulesyncSkill] calls it without
    options, so it never throws the global-mode error, also for parameters
    with [global] true: it fails with the error of the defaults of the base
    class when they fail, with the validation error of the constructor when
    the parameters placed in [.codex/skills] do not validate, and otherwise
    builds a simulated document placed in [.codex/skills], whatever directory
    the defaults named, with the other fields of the defaults; that document
    cannot be converted back.  [fromDir] fails in the same two ways and
    otherwise builds the simulated document of the defaults unchanged. *)
Theorem codexcli_simulated_adapter :
  forall (E : Externals) (params : ToolSkillFromRulesyncSkillParams)
         (dirParams : ToolSkillFromDirParams),
    (forall options,
       isOk (CodexCliSimulatedSkill.getSettablePaths E options)
       = negb (nullish options false))
    /\ match fromRulesyncSkillDefault E params with
       | Err e => CodexCliSimulatedSkill.fromRulesyncSkill E params = Err e
       | Ok defaults =>
           match SimulatedSkill_validate E
                   {| ssp_baseDir := ssp_baseDir defaults;
                      ssp_relativeDirPath := pathJoin E [".codex"; "skills"];
                      ssp_dirName := ssp_dirName defaults;
                      ssp_name := ssp_name defaults;
                      ssp_description := ssp_description defaults;
                      ssp_body := ssp_body defaults;
                      ssp_validate := ssp_validate defaults |} with
           | Err e => CodexCliSimulatedSkill.fromRulesyncSkill E params = Err e
           | Ok _ =>
               exists s,
                 CodexCliSimulatedSkill.fromRulesyncSkill E params = Ok s
                 /\ ToolSkill.simulated s = true
                 /\ ToolSkill.relativeDirPath s = pathJoin E [".codex"; "skills"]
                 /\ ToolSkill.baseDir s = ssp_baseDir defaults
                 /\ ToolSkill.dirName s = ssp_dirName defaults
                 /\ ToolSkill.name s = ssp_name defaults
                 /\ ToolSkill.description s = ssp_description defaults
                 /\ ToolSkill.body s = ssp_body defaults
                 /\ toRulesyncSkill E s = Err simulatedConversionError
           end
       end
    /\ match fromDirDefault E dirParams with
       | Err e => CodexCliSimulatedSkill.fromDir E dirParams = Err e
       | Ok defaults =>
           match SimulatedSkill_validate E defaults with
           | Err e => CodexCliSimulatedSkill.fromDir E dirParams = Err e
           | Ok _ =>
               CodexCliSimulatedSkill.fromDir E dirParams
               = Ok (CodexCliSimulatedSkill.instanceOf defaults)
               /\ ToolSkill.simulated
                    (CodexCliSimulatedSkill.instanceOf defaults) = true
           end
       end.
Proof.
  intros E params dirParams. split; [|split].
  - intros [[]|]; reflexivity.
  - unfold CodexCliSimulatedSkill.fromRulesyncSkill,
      CodexCliSimulatedSkill.create.
    destruct (fromRulesyncSkillDefault E params) as [defaults|e];
      cbn [bind CodexCliSimulatedSkill.getSettablePaths nullish
           skillsRelativeDirPath]; [|reflexivity].
    destruct (SimulatedSkill_validate E _); cbn [bind]; [|reflexivity].
    eexists. repeat split.
  - unfold CodexCliSimulatedSkill.fromDir, CodexCliSimulatedSkill.create.
    destruct (fromDirDefault E dirParams) as [defaults|e]; cbn [bind];
      [|reflexivity].
    destruct (SimulatedSkill_validate E defaults); cbn [bind];
      [split; reflexivity|reflexivity].
Qed.

Section ForwardOnly.

Variable E : Externals.
Variable p : SkillsProcessor.t.
Variable dirs : list AiDir.
Variable toolSkills : list ToolSkill.t.

(** The processor of Codex CLI in project mode, on the default registry. *)
Hypothesis codexcli : SkillsProcessor.toolTarget p = "codexcli".
Hypothesis project : SkillsProcessor.global p = false.
Hypothesis default_registry :
  SkillsProcessor.getFactory p = defaultGetFactory E.
Hypothesis converted :
  SkillsProcessor.convertRulesyncDirsToToolDirs p dirs = Ok toolSkills.

(** X5.  What the processor of Codex CLI produces in project mode cannot be
    converted back: every produced skill is a simulated document in
    [.codex/skills], and the reverse conversion of the produced skills skips
    each of them with one debug note and returns the empty list without an
    error. *)
Theorem codexcli_project_is_forward_only :
  Forall (fun s => ToolSkill.simulated s = true
                   /\ ToolSkill.relativeDirPath s
                      = pathJoin E [".codex"; "skills"])
    toolSkills
  /\ forall q : SkillsProcessor.t,
       SkillsProcessor.convertToolDirsToRulesyncDirs E q
         (map ToolSkillDir toolSkills)
       = (map (skipNote E) toolSkills, Ok []).
Proof.
  assert (Hall : Forall (fun s => ToolSkill.simulated s = true
                                  /\ ToolSkill.relativeDirPath s
                                     = pathJoin E [".codex"; "skills"])
                   toolSkills).
  { pose proof converted as Hc.
    unfold SkillsProcessor.convertRulesyncDirsToToolDirs in Hc.
    rewrite default_registry, codexcli, project in Hc.
    cbn [defaultGetFactory toolSkillFactories mapGet String.eqb Ascii.eqb
         Bool.eqb projectClass skillClass skillMeta nullish bind] in Hc.
    unfold SkillsProcessor.toolSkillOrNull in Hc.
    cbn [resolvedClass] in Hc.
    rewrite (mapM_orNull _
               (isTargetedByRulesyncSkill (CodexCliSimulatedSkill.class E)))
      in Hc.
    apply mapM_Forall2 in Hc.
    clear - Hc. induction Hc as [|r s rs ss Hrs _ IH]; constructor; [|exact IH].
    cbn [CodexCliSimulatedSkill.class fromRulesyncSkill] in Hrs.
    destruct (codexcli_fromRulesyncSkill_ok _ _ Hrs) as [defaults [_ ->]].
    split; reflexivity. }
  split; [exact Hall|].
  intros q. unfold SkillsProcessor.convertToolDirsToRulesyncDirs.
  rewrite toolSkillsOf_tool. apply simulated_only_skipped.
  intros s Hs. rewrite Forall_forall in Hall. now apply Hall.
Qed.

End ForwardOnly.

(** X5 on the example skills: the two targeted skills are produced and then
    skipped on the way back. *)
Lemma codexcli_project_is_forward_only_witness :
  SkillsProcessor.getFactory Examples.codexcliProject
  = defaultGetFactory Examples.E1
  /\ (exists produced,
        SkillsProcessor.convertRulesyncDirsToToolDirs Examples.codexcliProject
          Examples.skillDirs
        = Ok produced
        /\ length produced = 2
        /\ outcome (SkillsProcessor.convertToolDirsToRulesyncDirs Examples.E1
                      Examples.codexcliProject (map ToolSkillDir produced))
           = Ok []).
Proof.
  split; [reflexivity|].
  eexists. split; [vm_compute; reflexivity|]. split; [reflexivity|].
  match goal with
  | |- outcome (SkillsProcessor.convertToolDirsToRulesyncDirs _ _
                  (map ToolSkillDir ?produced)) = _ =>
      rewrite (proj2 (@codexcli_project_is_forward_only Examples.E1
                        Examples.codexcliProject Examples.skillDirs produced
                        eq_refl eq_refl eq_refl eq_refl)
                 Examples.codexcliProject)
  end.
  reflexivity.
Defined.

(** ** Loading skill directories *)

Section SkillDirsLoad.

Variable E : Externals.
Variable p : SkillsProcessor.t.
Variable factory : ResolvedToolSkillFactory.
Variable paths : ToolSkillSettablePaths.
Variable dirPaths : list string.

Hypothesis factory_found :
  SkillsProcessor.getFactory p (SkillsProcessor.toolTarget p)
    (SkillsProcessor.global p) = Ok factory.
Hypothesis paths_found :
  getSkillSettablePaths (resolvedClass factory) (Some (SkillsProcessor.global p))
  = Ok paths.
Hypothesis dirs_found :
  findFilesByGlobs E
    (pathJoin E [pathJoin E [SkillsProcessor.baseDir p;
                             skillsRelativeDirPath paths]; "*"]) true
  = Ok dirPaths.

Let load (dirPath : string) : result ToolSkill.t :=
  fromDir (resolvedClass factory)
    {| fd_baseDir := SkillsProcessor.baseDir p;
       fd_dirName := basename E dirPath;
       fd_global := SkillsProcessor.global p |}.

(** X6.  [loadToolDirs] is fail-fast: it succeeds exactly when every
    directory found loads; it then returns one skill per directory, in the
    order of the enumeration, after one info line with their number; when
    some directory does not load it rejects with the error of one of the
    directories that do not load, and nothing is logged. *)
Theorem loadToolDirs_fail_fast :
  isOk (outcome (SkillsProcessor.loadToolDirs E p))
  = forallb (fun dirPath => isOk (load dirPath)) dirPaths
  /\ match outcome (SkillsProcessor.loadToolDirs E p) with
     | Ok toolSkills =>
         SkillsProcessor.loadToolDirs E p
         = ([loadedSkillsNote (length dirPaths) (skillsRelativeDirPath paths)],
            Ok toolSkills)
         /\ Forall2 (fun dirPath toolSkill => load dirPath = Ok toolSkill)
              dirPaths toolSkills
     | Err e =>
         SkillsProcessor.loadToolDirs E p = ([], Err e)
         /\ exists dirPath, In dirPath dirPaths /\ load dirPath = Err e
     end.
Proof.
  assert (Hmap : forall xs,
    promiseAll (settlesFirst E)
      (fun dirName =>
         fromDir (resolvedClass factory)
           {| fd_baseDir := SkillsProcessor.baseDir p;
              fd_dirName := dirName;
              fd_global := SkillsProcessor.global p |})
      (map (basename E) xs)
    = promiseAll (settlesFirst E) load xs).
  { intros xs. rewrite promiseAll_map. reflexivity. }
  assert (Hrun :
    SkillsProcessor.loadToolDirs E p
    = match promiseAll (settlesFirst E) load dirPaths with
      | Ok toolSkills =>
          ([loadedSkillsNote (length toolSkills) (skillsRelativeDirPath paths)],
           Ok toolSkills)
      | Err e => ([], Err e)
      end).
  { unfold SkillsProcessor.loadToolDirs.
    rewrite factory_found, bindL_ok, paths_found, bindL_ok.
    rewrite dirs_found, bindL_ok, Hmap.
    destruct (promiseAll (settlesFirst E) load dirPaths) as [toolSkills|e].
    - rewrite bindL_ok, bindL_log. reflexivity.
    - reflexivity. }
  split.
  - rewrite Hrun, <- mapM_isOk, <- (promiseAll_isOk load (settlesFirst E)).
    now destruct (promiseAll (settlesFirst E) load dirPaths).
  - rewrite Hrun.
    destruct (promiseAll (settlesFirst E) load dirPaths) as [toolSkills|e]
      eqn:Hload; cbn [outcome snd].
    + apply promiseAll_ok_inv in Hload.
      split; [now rewrite (mapM_length _ _ Hload)|now apply mapM_Forall2].
    + split; [reflexivity|]. now apply promiseAll_rejected in Hload.
Qed.

End SkillDirsLoad.

(** X6 on two skill directories that load, and on a pair of which one has no
    manifest. *)
Lemma loadToolDirs_fail_fast_witness :
  SkillsProcessor.loadToolDirs MoreExamples.E5 MoreExamples.claudecodeSkills
  = ([(Info, "Successfully loaded 2 .claudecode/skills skills")],
     Ok [Sample.plainSkill "claudecode" "/work" "alpha" (Sample.skillOnDisk "alpha");
         Sample.plainSkill "claudecode" "/work" "beta" (Sample.skillOnDisk "beta")])
  /\ SkillsProcessor.loadToolDirs MoreExamples.E6
       MoreExamples.claudecodeSkillsBroken
     = ([], Err (mkError "SKILL.md not found in corrupt")).
Proof.
  split.
  - pose proof (proj2 (@loadToolDirs_fail_fast MoreExamples.E5
             MoreExamples.claudecodeSkills
             {| resolvedClass := Sample.plainSkillClass "claudecode";
                resolvedMeta := skillMetaOf true false true |}
             {| skillsRelativeDirPath := ".claudecode/skills" |}
             ["/work/.claudecode/skills/alpha"; "/work/.claudecode/skills/beta"]
             eq_refl eq_refl eq_refl)) as H.
    exact (proj1 H).
  - pose proof (proj2 (@loadToolDirs_fail_fast MoreExamples.E6
             MoreExamples.claudecodeSkillsBroken
             {| resolvedClass := Sample.plainSkillClass "claudecode";
                resolvedMeta := skillMetaOf true false true |}
             {| skillsRelativeDirPath := ".claudecode/skills" |}
             ["/work/.claudecode/skills/alpha"; "/work/.claudecode/skills/corrupt"]
             eq_refl eq_refl eq_refl)) as H.
    exact (proj1 H).
Defined.

Section RulesyncDirsLoad.

Variable E : Externals.
Variable p : SkillsProcessor.t.
Variable dirPaths : list string.

Hypothesis dirs_found :
  findFilesByGlobs E
    (pathJoin E [pathJoin E [SkillsProcessor.baseDir p;
                             RulesyncSkill_relativeDirPath E]; "*"]) true
  = Ok dirPaths.

Let load (dirPath : string) : result RulesyncSkill.t :=
  RulesyncSkill_fromDir E (SkillsProcessor.baseDir p) (basename E dirPath)
    (SkillsProcessor.global p).

(** X7.  [loadRulesyncDirs] is fail-fast in the same way, needs no adapter
    (it does not consult the factory, so it works for a processor whose
    factory lookup would fail), and returns the canonical skills in the
    order of the enumeration after one info line with their number; when some
    directory does not load it rejects with the error of one of the
    directories that do not load, and nothing is logged. *)
Theorem loadRulesyncDirs_fail_fast :
  isOk (outcome (SkillsProcessor.loadRulesyncDirs E p))
  = forallb (fun dirPath => isOk (load dirPath)) dirPaths
  /\ match outcome (SkillsProcessor.loadRulesyncDirs E p) with
     | Ok rulesyncSkills =>
         SkillsProcessor.loadRulesyncDirs E p
         = ([loadedRulesyncSkillsNote (length dirPaths)], Ok rulesyncSkills)
         /\ Forall2 (fun dirPath skill => load dirPath = Ok skill)
              dirPaths rulesyncSkills
     | Err e =>
         SkillsProcessor.loadRulesyncDirs E p = ([], Err e)
         /\ exists dirPath, In dirPath dirPaths /\ load dirPath = Err e
     end.
Proof.
  assert (Hmap : forall xs,
    promiseAll (settlesFirst E)
      (fun dirName =>
         RulesyncSkill_fromDir E (SkillsProcessor.baseDir p) dirName
           (SkillsProcessor.global p))
      (map (basename E) xs)
    = promiseAll (settlesFirst E) load xs).
  { intros xs. rewrite promiseAll_map. reflexivity. }
  assert (Hrun :
    SkillsProcessor.loadRulesyncDirs E p
    = match promiseAll (settlesFirst E) load dirPaths with
      | Ok skills => ([loadedRulesyncSkillsNote (length skills)], Ok skills)
      | Err e => ([], Err e)
      end).
  { unfold SkillsProcessor.loadRulesyncDirs.
    rewrite dirs_found, bindL_ok, Hmap.
    destruct (promiseAll (settlesFirst E) load dirPaths) as [skills|e].
    - rewrite bindL_ok, bindL_log. reflexivity.
    - reflexivity. }
  split.
  - rewrite Hrun, <- mapM_isOk, <- (promiseAll_isOk load (settlesFirst E)).
    now destruct (promiseAll (settlesFirst E) load dirPaths).
  - rewrite Hrun.
    destruct (promiseAll (settlesFirst E) load dirPaths) as [skills|e]
      eqn:Hload; cbn [outcome snd].
    + apply promiseAll_ok_inv in Hload.
      split; [now rewrite (mapM_length _ _ Hload)|now apply mapM_Forall2].
    + split; [reflexivity|]. now apply promiseAll_rejected in Hload.
Qed.

End RulesyncDirsLoad.

(** X7 on the processor of the tests whose factory lookup fails. *)
Lemma loadRulesyncDirs_fail_fast_witness :
  SkillsProcessor.getFactory MoreExamples.unsupportedSkills "unsupported" false
  = Err (MoreExamples.unsupportedError "unsupported")
  /\ SkillsProcessor.loadRulesyncDirs MoreExamples.E5
       MoreExamples.unsupportedSkills
     = ([(Info, "Successfully loaded 2 rulesync skills")],
        Ok [Sample.skillOnDisk "alpha"; Sample.skillOnDisk "beta"]).
Proof.
  split; [reflexivity|].
  pose proof (proj2 (@loadRulesyncDirs_fail_fast MoreExamples.E5
           MoreExamples.unsupportedSkills
           ["/work/.claudecode/skills/alpha"; "/work/.claudecode/skills/beta"]
           eq_refl)) as H.
  exact (proj1 H).
Defined.

(** ** A factory lookup that fails *)

Section UnresolvedAdapter.

Variable E : Externals.
Variable sp : SkillsProcessor.t.
Variable rp : RulesProcessor.t.
Variables skillError ruleError : Error.

Hypothesis no_skill_factory :
  SkillsProcessor.getFactory sp (SkillsProcessor.toolTarget sp)
    (SkillsProcessor.global sp) = Err skillError.
Hypothesis no_rule_factory :
  RulesProcessor.getFactory rp (RulesProcessor.toolTarget rp) = Err ruleError.

(** X8.  When the factory lookup throws, both conversions to tool documents
    throw that error for every input, the empty one included, and so do
    [loadToolDirs] and [loadToolDirsToDelete], without a log line; the tool
    file load of the rules processor alone swallows it: it logs the error
    and returns the empty list.  The reverse conversions do not consult the
    factory. *)
Theorem unresolved_adapter :
  (forall dirs, SkillsProcessor.convertRulesyncDirsToToolDirs sp dirs
                = Err skillError)
  /\ SkillsProcessor.loadToolDirs E sp = ([], Err skillError)
  /\ SkillsProcessor.loadToolDirsToDelete E sp = ([], Err skillError)
  /\ (forall files, RulesProcessor.convertRulesyncFilesToToolFiles E rp files
                    = Err ruleError)
  /\ (forall forDeletion,
        RulesProcessor.loadToolFiles E rp forDeletion
        = ([loadFailure E ruleError], Ok []))
  /\ SkillsProcessor.convertToolDirsToRulesyncDirs E sp [] = ([], Ok [])
  /\ RulesProcessor.convertToolFilesToRulesyncFiles E rp [] = Ok [].
Proof.
  assert (Hload : SkillsProcessor.loadToolDirs E sp = ([], Err skillError)).
  { unfold SkillsProcessor.loadToolDirs. now rewrite no_skill_factory. }
  repeat split.
  - intros dirs. unfold SkillsProcessor.convertRulesyncDirsToToolDirs.
    now rewrite no_skill_factory.
  - exact Hload.
  - exact Hload.
  - intros files. unfold RulesProcessor.convertRulesyncFilesToToolFiles.
    now rewrite no_rule_factory.
  - intros forDeletion. rewrite loadToolFiles_run.
    unfold RulesProcessor.loadToolFilesBody. now rewrite no_rule_factory.
Qed.

End UnresolvedAdapter.

(** X8 on the processors of the tests, whose factory throws for the target
    [unsupported]. *)
Lemma unresolved_adapter_witness :
  SkillsProcessor.convertRulesyncDirsToToolDirs MoreExamples.unsupportedSkills
    Examples.skillDirs
  = Err (mkError "Unsupported tool target: unsupported")
  /\ RulesProcessor.loadToolFiles Examples.E1 MoreExamples.unsupportedRules false
     = ([(ErrorLevel,
          "Failed to load tool files: Unsupported tool target: unsupported")],
        Ok []).
Proof.
  destruct (@unresolved_adapter Examples.E1 MoreExamples.unsupportedSkills
              MoreExamples.unsupportedRules
              (mkError "Unsupported tool target: unsupported")
              (mkError "Unsupported tool target: unsupported")
              eq_refl eq_refl)
    as [Hconvert [_ [_ [_ [Hload _]]]]].
  split; [apply Hconvert|apply Hload].
Defined.

(** ** Loading tool rule files *)

Section ToolFilesLoad.

Variable E : Externals.
Variable p : RulesProcessor.t.
Variable factory : ToolRuleFactory.
Variable settablePaths : ToolRuleSettablePaths.
Variables rootFiles nonRootFiles : list string.

Hypothesis factory_found :
  RulesProcessor.getFactory p (RulesProcessor.toolTarget p) = Ok factory.
Hypothesis paths_found :
  getSettablePaths (ruleClass factory) (RulesProcessor.global p)
  = Ok settablePaths.
Hypothesis root_files :
  RulesProcessor.rootFilePaths E p settablePaths = Ok rootFiles.
Hypothesis non_root_files :
  RulesProcessor.nonRootFilePaths E p factory settablePaths = Ok nonRootFiles.

Let load (filePath : string) : result ToolRule.t :=
  fromFile (ruleClass factory)
    {| ff_baseDir := RulesProcessor.baseDir p;
       ff_relativeFilePath := basename E filePath;
       ff_global := RulesProcessor.global p |}.

(** X9.  When the adapter, its locations and the two enumerations resolve,
    [loadToolFiles] returns the documents of the root location followed by
    those of the non-root location, each group in enumeration order, after
    the two debug lines with their numbers, if every file parses; otherwise
    it returns the empty list after the error line with the error of one of
    the files of the failing group that do not parse, keeping the debug line
    of the root group when the failure is in the non-root group.  The outcome
    is never an error. *)
Theorem loadToolFiles_result :
  forall forDeletion,
    match mapM load rootFiles, mapM load nonRootFiles with
    | Ok rootToolRules, Ok nonRootToolRules =>
        RulesProcessor.loadToolFiles E p forDeletion
        = ([foundRootNote (length rootFiles);
            foundNonRootNote (length nonRootFiles)],
           Ok (rootToolRules ++ nonRootToolRules)%list)
    | Ok _, Err _ =>
        exists filePath e,
          In filePath nonRootFiles /\ load filePath = Err e
          /\ RulesProcessor.loadToolFiles E p forDeletion
             = ([foundRootNote (length rootFiles); loadFailure E e], Ok [])
    | Err _, _ =>
        exists filePath e,
          In filePath rootFiles /\ load filePath = Err e
          /\ RulesProcessor.loadToolFiles E p forDeletion
             = ([loadFailure E e], Ok [])
    end.
Proof.
  intros forDeletion. rewrite loadToolFiles_run.
  unfold RulesProcessor.loadToolFilesBody.
  rewrite factory_found, bindL_ok, paths_found, bindL_ok.
  rewrite root_files, non_root_files. cbn [bind].
  unfold RulesProcessor.fromFiles. fold load.
  destruct (mapM load rootFiles) as [rs|e0] eqn:Hr.
  - rewrite (promiseAll_ok _ _ _ Hr), bindL_ok, bindL_log.
    destruct (mapM load nonRootFiles) as [ns|e0] eqn:Hn.
    + rewrite (promiseAll_ok _ _ _ Hn), bindL_ok, bindL_log.
      cbn [ret logOf outcome fst snd].
      unfold foundRootNote, foundNonRootNote.
      now rewrite (mapM_length _ _ Hr), (mapM_length _ _ Hn).
    + destruct (promiseAll (settlesFirst E) load nonRootFiles) as [ns|e]
        eqn:Hp.
      * apply promiseAll_ok_inv in Hp. congruence.
      * destruct (promiseAll_rejected _ _ _ Hp) as [filePath [Hin Hx]].
        exists filePath, e. split; [exact Hin|]. split; [exact Hx|].
        rewrite bindL_err. cbn [logOf outcome fst snd app].
        unfold foundRootNote. now rewrite (mapM_length _ _ Hr).
  - destruct (promiseAll (settlesFirst E) load rootFiles) as [rs|e] eqn:Hp.
    + apply promiseAll_ok_inv in Hp. congruence.
    + destruct (promiseAll_rejected _ _ _ Hp) as [filePath [Hin Hx]].
      exists filePath, e. split; [exact Hin|]. split; [exact Hx|].
      rewrite bindL_err. reflexivity.
Qed.

End ToolFilesLoad.

(** X9 on a disk with two valid tool documents below the non-root
    location. *)
Lemma loadToolFiles_result_witness :
  RulesProcessor.loadToolFiles MoreExamples.E3 Examples.claudecode true
  = ([(Debug, "Found 0 root tool rule files");
      (Debug, "Found 2 non-root tool rule files")],
     Ok [{| ToolRule.relativePathFromCwd := "claudecode/rules/valid.md";
            ToolRule.fileContent := "content of valid.md";
            ToolRule.root := false;
            ToolRule.description := None;
            ToolRule.globs := None |};
         {| ToolRule.relativePathFromCwd := "claudecode/rules/other.md";
            ToolRule.fileContent := "content of other.md";
            ToolRule.root := false;
            ToolRule.description := None;
            ToolRule.globs := None |}]).
Proof.
  exact (@loadToolFiles_result MoreExamples.E3 Examples.claudecode
           (Examples.plainFactory "claudecode") Examples.claudecodePaths
           [] MoreExamples.validToolFiles eq_refl eq_refl eq_refl eq_refl true).
Defined.

(** ** Loading the canonical rules *)

Lemma forallb_filter {A} (test : A -> bool) (xs : list A) :
  forallb test (filter test xs) = true.
Proof.
  apply forallb_forall. intros x Hx. now apply filter_In in Hx.
Qed.

Lemma filter_filter_same {A} (test : A -> bool) (xs : list A) :
  filter test (filter test xs) = filter test xs.
Proof.
  apply filter_all. intros x Hx. now apply filter_In in Hx.
Qed.

(** X10.  Every successful load of the canonical rules keeps the invariant
    of the data model: the result holds at most one root rule.  In global
    mode the result holds root rules only; in project mode it holds one rule
    per file of the store. *)
Theorem load_keeps_root_invariant :
  forall (E : Externals) (p : RulesProcessor.t) (out : list RulesyncRule.t),
    outcome (RulesProcessor.loadRulesyncFiles E p) = Ok out ->
    length (filter RulesyncRule.isRoot out) <= 1
    /\ (if RulesProcessor.global p
        then forallb RulesyncRule.isRoot out = true
        else exists files,
               findFilesByGlobs E
                 (pathJoin E [RULESYNC_RULES_RELATIVE_DIR_PATH E; "*.md"]) false
               = Ok files
               /\ length out = length files).
Proof.
  intros E p out.
  destruct (findFilesByGlobs E
              (pathJoin E [RULESYNC_RULES_RELATIVE_DIR_PATH E; "*.md"]) false)
    as [files|e] eqn:Hfiles.
  - destruct (mapM (fun file => RulesyncRule_fromFile E (basename E file)) files)
      as [rules|e] eqn:Hrules.
    + rewrite (@loadRulesyncFiles_run E p files rules Hfiles Hrules).
      destruct (Nat.ltb_spec 1 (length (filter RulesyncRule.isRoot rules)))
        as [Hmany|Hfew]; [discriminate|].
      destruct (RulesProcessor.global p); cbn [outcome snd]; intros [= <-].
      * rewrite filter_filter_same. split; [exact Hfew|apply forallb_filter].
      * split; [exact Hfew|]. exists files. split; [reflexivity|].
        exact (mapM_length _ _ Hrules).
    + unfold RulesProcessor.loadRulesyncFiles.
      rewrite Hfiles, bindL_ok, bindL_log.
      destruct (promiseAll (settlesFirst E)
                  (fun file => RulesyncRule_fromFile E (basename E file)) files)
        as [rules|e'] eqn:Hp; [|discriminate].
      apply promiseAll_ok_inv in Hp. congruence.
  - unfold RulesProcessor.loadRulesyncFiles. rewrite Hfiles. discriminate.
Qed.

(** X10 on the store with one root rule and two others, in project mode. *)
Lemma load_keeps_root_invariant_witness :
  outcome (RulesProcessor.loadRulesyncFiles Examples.E1 Examples.claudecode)
  = Ok [Examples.overviewRule; Examples.styleRule; Examples.claudeOnly]
  /\ length (filter RulesyncRule.isRoot
               [Examples.overviewRule; Examples.styleRule; Examples.claudeOnly])
     <= 1.
Proof.
  split; [reflexivity|].
  exact (proj1 (@load_keeps_root_invariant Examples.E1 Examples.claudecode
                  [Examples.overviewRule; Examples.styleRule;
                   Examples.claudeOnly] eq_refl)).
Defined.

Section BrokenStore.

Variable E : Externals.
Variable p : RulesProcessor.t.
Variable files : list string.
Variable broken : string.
Variable parseError : Error.

Hypothesis store_found :
  findFilesByGlobs E
    (pathJoin E [RULESYNC_RULES_RELATIVE_DIR_PATH E; "*.md"]) false
  = Ok files.
Hypothesis broken_found : In broken files.
Hypothesis broken_fails :
  RulesyncRule_fromFile E (basename E broken) = Err parseError.

(** X11.  A file of the canonical store that does not parse aborts
    [loadRulesyncFiles], in both modes, after the debug line only: the load
    rejects with the error of one of the files that do not parse, the root
    check is not reached, and no warning is written. *)
Theorem broken_store_aborts_load :
  exists file e,
    In file files
    /\ RulesyncRule_fromFile E (basename E file) = Err e
    /\ RulesProcessor.loadRulesyncFiles E p
       = ([foundRulesyncNote (length files)], Err e).
Proof.
  destruct (promiseAll_fails
              (fun file => RulesyncRule_fromFile E (basename E file))
              (settlesFirst E) files broken broken_found broken_fails)
    as [e He].
  destruct (promiseAll_rejected _ _ _ He) as [file [Hin Hfile]].
  exists file, e. split; [exact Hin|]. split; [exact Hfile|].
  unfold RulesProcessor.loadRulesyncFiles.
  now rewrite store_found, bindL_ok, bindL_log, He.
Qed.

End BrokenStore.

(** X11 on a store with a root rule and two broken files, where the
    rejection of the second settles first: the load throws the error of the
    second. *)
Lemma broken_store_aborts_load_witness :
  RulesProcessor.loadRulesyncFiles MoreExamples.E7 Examples.claudecodeGlobal
  = ([(Debug, "Found 3 rulesync files")],
     Err (mkError "Unexpected token in worse.md"))
  /\ exists file e,
       In file [".rulesync/rules/overview.md"; ".rulesync/rules/broken.md";
                ".rulesync/rules/worse.md"]
       /\ RulesyncRule_fromFile MoreExamples.E7 (basename MoreExamples.E7 file)
          = Err e
       /\ RulesProcessor.loadRulesyncFiles MoreExamples.E7
            Examples.claudecodeGlobal
          = ([foundRulesyncNote 3], Err e).
Proof.
  split; [reflexivity|].
  exact (@broken_store_aborts_load MoreExamples.E7 Examples.claudecodeGlobal
           [".rulesync/rules/overview.md"; ".rulesync/rules/broken.md";
            ".rulesync/rules/worse.md"]
           ".rulesync/rules/broken.md"
           (mkError "Invalid frontmatter in broken.md")
           eq_refl (or_intror (or_introl eq_refl)) eq_refl).
Defined.

Section LegacyStore.

Variable E : Externals.
Variable p : RulesProcessor.t.
Variable legacyFiles : list string.
Variable rules : list RulesyncRule.t.

Hypothesis legacy_found :
  findFilesByGlobs E
    (pathJoin E [RULESYNC_RELATIVE_DIR_PATH E; "*.md"]) false
  = Ok legacyFiles.
Hypothesis legacy_parsed :
  mapM (fun file => RulesyncRule_fromFileLegacy E (basename E file)) legacyFiles
  = Ok rules.

(** X12.  The legacy load has neither the root check nor the global filter:
    when the legacy files parse it returns every rule, one per file in
    enumeration order, whatever the number of root rules among them and
    whatever the mode. *)
Theorem legacy_load_returns_all :
  RulesProcessor.loadRulesyncFilesLegacy E p
  = ([foundLegacyNote (length legacyFiles)], Ok rules)
  /\ length rules = length legacyFiles.
Proof.
  split.
  - unfold RulesProcessor.loadRulesyncFilesLegacy.
    rewrite legacy_found, bindL_ok, bindL_log.
    rewrite (promiseAll_ok _ _ _ legacy_parsed). reflexivity.
  - exact (mapM_length _ _ legacy_parsed).
Qed.

End LegacyStore.

(** X12 on a legacy store with two root rules, in global mode. *)
Lemma legacy_load_returns_all_witness :
  RulesProcessor.loadRulesyncFilesLegacy MoreExamples.E4
    Examples.claudecodeGlobal
  = ([(Debug, "Found 2 legacy rulesync files")],
     Ok [Examples.overviewRule; Examples.secondRoot])
  /\ outcome (RulesProcessor.loadRulesyncFiles MoreExamples.E4
                Examples.claudecodeGlobal)
     = Err RulesProcessor.multipleRootError.
Proof.
  split; [|reflexivity].
  exact (proj1 (@legacy_load_returns_all MoreExamples.E4
                  Examples.claudecodeGlobal MoreExamples.legacyFiles
                  [Examples.overviewRule; Examples.secondRoot]
                  eq_refl eq_refl)).
Defined.

(** ** What conversion does to the converted documents *)

(** X13.  Whatever [convertRulesyncFilesToToolFiles] returns is, document
    by document and in the same order, the converted rules followed by the
    pushed convention rule (if any), where a document is either untouched or
    a root document whose content received a prefix: conversion never drops,
    reorders or renames a document, never changes a non-root document, and
    never changes a root flag, a description or the globs. *)
Theorem conversion_only_prefixes_roots :
  forall (E : Externals) (p : RulesProcessor.t) (files : list RulesyncFile)
         (out : list ToolRule.t),
    RulesProcessor.convertRulesyncFilesToToolFiles E p files = Ok out ->
    exists factory toolRules,
      RulesProcessor.getFactory p (RulesProcessor.toolTarget p) = Ok factory
      /\ RulesProcessor.convertTargeted p factory
           (RulesProcessor.rulesyncRulesOf files) = Ok toolRules
      /\ Forall2 keptOrPrefixed (toolRules ++ pushedRules E p) out
      /\ length out = length toolRules + length (pushedRules E p).
Proof.
  intros E p files out Hout.
  destruct (RulesProcessor.getFactory p (RulesProcessor.toolTarget p))
    as [factory|e] eqn:Hf.
  2:{ unfold RulesProcessor.convertRulesyncFilesToToolFiles in Hout.
      rewrite Hf in Hout. discriminate. }
  destruct (RulesProcessor.convertTargeted p factory
              (RulesProcessor.rulesyncRulesOf files)) as [toolRules|e] eqn:Hc.
  2:{ unfold RulesProcessor.convertRulesyncFilesToToolFiles in Hout.
      rewrite Hf in Hout. cbn [bind] in Hout. rewrite Hc in Hout.
      discriminate. }
  exists factory, toolRules. split; [reflexivity|]. split; [exact Hc|].
  rewrite (convert_after_conversion E p files Hf Hc) in Hout.
  assert (Hshape : Forall2 keptOrPrefixed (toolRules ++ pushedRules E p) out).
  { destruct (findIndex ToolRule.isRoot (toolRules ++ pushedRules E p))
      as [i|] eqn:Hi.
    - apply (injectIntoRoot_shape E p i); [|exact Hout].
      intros r Hr. destruct (findIndex_Some _ _ Hi) as [x [Hx Hroot]].
      congruence.
    - injection Hout as <-. apply Forall2_kept. }
  split; [exact Hshape|].
  apply Forall2_length in Hshape. now rewrite <- Hshape, length_app.
Qed.

(** X13 on the end-to-end example for kiro. *)
Lemma conversion_only_prefixes_roots_witness :
  exists out,
    RulesProcessor.convertRulesyncFilesToToolFiles Examples.E1 MoreExamples.kiro
      [RulesyncRuleFile Examples.overviewRule;
       RulesyncRuleFile Examples.styleRule]
    = Ok out
    /\ Forall2 keptOrPrefixed
         [Sample.plainRule "kiro" Examples.overviewRule;
          Sample.plainRule "kiro" Examples.styleRule]
         out.
Proof.
  eexists. split; [vm_compute; reflexivity|].
  match goal with
  | |- Forall2 _ _ ?out =>
      destruct (@conversion_only_prefixes_roots Examples.E1 MoreExamples.kiro
                  [RulesyncRuleFile Examples.overviewRule;
                   RulesyncRuleFile Examples.styleRule] out eq_refl)
        as [factory [toolRules [Hf [Hc [Hshape _]]]]]
  end.
  vm_compute in Hf. injection Hf as <-.
  vm_compute in Hc. injection Hc as <-.
  exact Hshape.
Defined.

Section PassThrough.

Variable E : Externals.
Variable p : RulesProcessor.t.
Variable factory : ToolRuleFactory.
Variable files : list RulesyncFile.
Variable toolRules : list ToolRule.t.

Hypothesis factory_found :
  RulesProcessor.getFactory p (RulesProcessor.toolTarget p) = Ok factory.
Hypothesis converted :
  RulesProcessor.convertTargeted p factory (RulesProcessor.rulesyncRulesOf files)
  = Ok toolRules.

(** X14.  Nothing is injected, and neither [toRulesyncRule] nor the TOON
    encoder is consulted, when no document is a root document or when the
    tool target has no case in the switch (amazonqcli, antigravity,
    augmentcode, cline, cursor, junie, roo, windsurf): the result is exactly
    the converted rules followed by the pushed convention rule, if any. *)
Theorem conversion_passes_through :
  existsb ToolRule.isRoot (toolRules ++ pushedRules E p) = false
  \/ includes (RulesProcessor.toolTarget p) switchTools = false ->
  RulesProcessor.convertRulesyncFilesToToolFiles E p files
  = Ok (toolRules ++ pushedRules E p)%list.
Proof.
  intros Hcase.
  rewrite (convert_after_conversion E p files factory_found converted).
  destruct Hcase as [Hnone|Hother].
  - now rewrite (findIndex_None _ _ Hnone).
  - destruct (findIndex ToolRule.isRoot (toolRules ++ pushedRules E p));
      [|reflexivity].
    unfold RulesProcessor.injectIntoRoot.
    unfold includes, switchTools in Hother. cbn [existsb] in Hother.
    repeat match goal with
    | |- context [if String.eqb ?a ?b then _ else _] =>
        destruct (String.eqb a b); [discriminate Hother|]
    end.
    reflexivity.
Qed.

(** X15.  When the converted documents are root documents only, the
    references section is empty (no header is written), so for claudecode
    and for the tools that inject the references alone the result is the
    converted documents unchanged. *)
Theorem lone_roots_stay_unchanged :
  In (RulesProcessor.toolTarget p) ("claudecode" :: toonOnlyTools) ->
  RulesProcessor.withoutRoot toolRules = [] ->
  RulesProcessor.generateReferencesSection toolRules = EmptyString
  /\ RulesProcessor.generateToonReferencesSection E toolRules = Ok EmptyString
  /\ RulesProcessor.convertRulesyncFilesToToolFiles E p files = Ok toolRules.
Proof.
  intros Hin Hroots.
  assert (Hline : RulesProcessor.generateReferencesSection toolRules
                  = EmptyString).
  { unfold RulesProcessor.generateReferencesSection. now rewrite Hroots. }
  assert (Htoon : RulesProcessor.generateToonReferencesSection E toolRules
                  = Ok EmptyString).
  { unfold RulesProcessor.generateToonReferencesSection. now rewrite Hroots. }
  split; [exact Hline|]. split; [exact Htoon|].
  rewrite (convert_after_conversion E p files factory_found converted).
  assert (Hpushed : pushedRules E p = []).
  { unfold pushedRules. simpl in Hin.
    repeat (destruct Hin as [<-|Hin];
            [now destruct (RulesProcessor.isSimulated p)|]).
    contradiction. }
  rewrite Hpushed, app_nil_r.
  destruct (findIndex ToolRule.isRoot toolRules) as [i|] eqn:Hi;
    [|reflexivity].
  destruct (findIndex_Some _ _ Hi) as [r [Hr _]].
  assert (Hsame : RulesProcessor.prependToRoot i toolRules (Ok EmptyString)
                  = Ok toolRules).
  { unfold RulesProcessor.prependToRoot. rewrite Hr. cbn [bind append].
    now rewrite setFileContent_same, (setAt_same _ _ Hr). }
  unfold RulesProcessor.injectIntoRoot. rewrite Htoon, Hline.
  simpl in Hin.
  repeat (destruct Hin as [<-|Hin]; [exact Hsame|]).
  contradiction.
Qed.

End PassThrough.

(** X14 for windsurf with every simulate flag enabled: the root document
    and the other document come back as the adapter built them. *)
Lemma conversion_passes_through_witness :
  includes (RulesProcessor.toolTarget MoreExamples.windsurf) switchTools = false
  /\ RulesProcessor.convertRulesyncFilesToToolFiles Examples.E1
       MoreExamples.windsurf
       [RulesyncRuleFile Examples.overviewRule;
        RulesyncRuleFile Examples.styleRule]
     = Ok [Sample.plainRule "windsurf" Examples.overviewRule;
           Sample.plainRule "windsurf" Examples.styleRule].
Proof.
  split; [reflexivity|].
  exact (@conversion_passes_through Examples.E1 MoreExamples.windsurf
           (Examples.plainFactory "windsurf")
           [RulesyncRuleFile Examples.overviewRule;
            RulesyncRuleFile Examples.styleRule]
           [Sample.plainRule "windsurf" Examples.overviewRule;
            Sample.plainRule "windsurf" Examples.styleRule]
           eq_refl eq_refl (or_intror eq_refl)).
Defined.

(** X15 for kiro on a load with the root rule alone. *)
Lemma lone_roots_stay_unchanged_witness :
  In (RulesProcessor.toolTarget MoreExamples.kiro) ("claudecode" :: toonOnlyTools)
  /\ RulesProcessor.convertRulesyncFilesToToolFiles Examples.E1 MoreExamples.kiro
       [RulesyncRuleFile Examples.overviewRule]
     = Ok [Sample.plainRule "kiro" Examples.overviewRule].
Proof.
  split; [simpl; auto|].
  refine (proj2 (proj2 (@lone_roots_stay_unchanged Examples.E1 MoreExamples.kiro
                          (Examples.plainFactory "kiro")
                          [RulesyncRuleFile Examples.overviewRule]
                          [Sample.plainRule "kiro" Examples.overviewRule]
                          eq_refl eq_refl _ eq_refl))).
  simpl; auto.
Defined.

(** ** The resolved configuration *)

(** X16.  [getTargets] and [getFeatures] expand the wildcard: when the
    configured list holds the wildcard anywhere, the result is the list of
    all targets (features), whatever else is configured; otherwise it is the
    configured list itself, unchanged and in order.  The result holds the
    wildcard only if the list of all targets (features) does. *)
Theorem wildcard_expansion :
  forall (all : list string) (c : Config.t),
    ConfigQueries.getTargets all c
    = (if includes "*" (Config.targets c) then all else Config.targets c)
    /\ ConfigQueries.getFeatures all c
       = (if includes "*" (Config.features c) then all else Config.features c)
    /\ (if includes "*" all then True
        else includes "*" (ConfigQueries.getTargets all c) = false
             /\ includes "*" (ConfigQueries.getFeatures all c) = false).
Proof.
  assert (Hkeep : forall xs,
    includes "*" xs = false ->
    filter (fun x => negb (String.eqb x "*")) xs = xs).
  { intros xs H. apply filter_all. intros x Hx.
    destruct (String.eqb_spec x "*") as [->|_]; [|reflexivity].
    apply includes_true in Hx. congruence. }
  intros all c.
  assert (Ht : ConfigQueries.getTargets all c
               = (if includes "*" (Config.targets c) then all
                  else Config.targets c)).
  { unfold ConfigQueries.getTargets.
    destruct (includes "*" (Config.targets c)) eqn:H; [reflexivity|].
    now apply Hkeep. }
  assert (Hf : ConfigQueries.getFeatures all c
               = (if includes "*" (Config.features c) then all
                  else Config.features c)).
  { unfold ConfigQueries.getFeatures.
    destruct (includes "*" (Config.features c)) eqn:H; [reflexivity|].
    now apply Hkeep. }
  split; [exact Ht|]. split; [exact Hf|].
  destruct (includes "*" all) eqn:Hall; [exact I|].
  rewrite Ht, Hf.
  destruct (includes "*" (Config.targets c)) eqn:H1,
    (includes "*" (Config.features c)) eqn:H2; auto.
Qed.

Section ResolvedConfiguration.

Variable X : ConfigExternals.
Variable params : ConfigResolver.ResolveParams.
Variable validatedConfigPath : string.
Variable configByFile : PartialConfigParams.t.

Hypothesis path_resolved :
  resolvePath X
    (nullish (ConfigResolver.configPath params) ConfigResolver.defaultConfigPath)
    (processCwd X)
  = Ok validatedConfigPath.
Hypothesis file_loaded :
  outcome (ConfigResolver.loadConfigByFile X validatedConfigPath)
  = Ok configByFile.

Let c := ConfigResolver.cli params.
Let f := configByFile.

Let resolvedGlobal : bool :=
  firstDefined
    [PartialConfigParams.global c; PartialConfigParams.global f;
     PartialConfigParams.experimentalGlobal c;
     PartialConfigParams.experimentalGlobal f] false.

Let chosenBaseDirs : list string :=
  cliThenFile (PartialConfigParams.baseDirs c) (PartialConfigParams.baseDirs f)
    [processCwd X].

Lemma resolve_outcome :
  exists build : list string -> Config.t,
    outcome (ConfigResolver.resolve X params)
    = bind (ConfigResolver.getBaseDirsInLightOfGlobal X chosenBaseDirs
              resolvedGlobal)
           (fun dirs => Ok (build dirs))
    /\ forall dirs,
         Config.getBaseDirs (build dirs) = dirs
         /\ Config.getGlobal (build dirs) = resolvedGlobal
         /\ Config.targets (build dirs)
            = cliThenFile (PartialConfigParams.targets c)
                (PartialConfigParams.targets f) ["agentsmd"]
         /\ Config.features (build dirs)
            = cliThenFile (PartialConfigParams.features c)
                (PartialConfigParams.features f) ["rules"]
         /\ Config.getVerbose (build dirs)
            = cliThenFile (PartialConfigParams.verbose c)
                (PartialConfigParams.verbose f) false
         /\ Config.getDelete (build dirs)
            = cliThenFile (PartialConfigParams.delete c)
                (PartialConfigParams.delete f) false
         /\ Config.getSimulateSkills (build dirs)
            = cliThenFile (PartialConfigParams.simulateSkills c)
                (PartialConfigParams.simulateSkills f) false
         /\ Config.getModularMcp (build dirs)
            = cliThenFile (PartialConfigParams.modularMcp c)
                (PartialConfigParams.modularMcp f) false.
Proof.
  eexists. split.
  - unfold ConfigResolver.resolve.
    rewrite path_resolved, bindL_ok.
    rewrite (loadConfigByFile_silent _ _ file_loaded).
    change (@pair (list LogEntry) (result PartialConfigParams.t) []
              (Ok configByFile)) with (lift (Ok configByFile)).
    rewrite bindL_ok.
    rewrite (@whenDefined_warn _ ConfigResolver.warnGlobal
               (fun v => ConfigResolver.warnDeprecatedOptions v None None))
      by reflexivity.
    rewrite (@whenDefined_warn _ ConfigResolver.warnCommands
               (fun v => ConfigResolver.warnDeprecatedOptions None v None))
      by reflexivity.
    rewrite (@whenDefined_warn _ ConfigResolver.warnSubagents
               (fun v => ConfigResolver.warnDeprecatedOptions None None v))
      by reflexivity.
    fold c. fold f.
    assert (Hg :
      nullish (orElse (PartialConfigParams.global c)
                (orElse (PartialConfigParams.global f)
                   (orElse (PartialConfigParams.experimentalGlobal c)
                      (PartialConfigParams.experimentalGlobal f))))
        ConfigResolver.defaultGlobal
      = resolvedGlobal).
    { unfold resolvedGlobal.
      destruct (PartialConfigParams.global c), (PartialConfigParams.global f),
        (PartialConfigParams.experimentalGlobal c),
        (PartialConfigParams.experimentalGlobal f); reflexivity. }
    assert (Hd :
      nullish (orElse (PartialConfigParams.baseDirs c)
                 (PartialConfigParams.baseDirs f)) [processCwd X]
      = chosenBaseDirs).
    { unfold chosenBaseDirs, cliThenFile.
      now destruct (PartialConfigParams.baseDirs c). }
    rewrite Hg, Hd.
    destruct (ConfigResolver.getBaseDirsInLightOfGlobal X chosenBaseDirs
                resolvedGlobal) as [dirs|e];
      destruct (isDefined _), (isDefined _), (isDefined _);
      cbn [bindL lift ret app bind outcome snd]; reflexivity.
  - intros dirs. cbn beta.
    unfold Config.getBaseDirs, Config.getGlobal, Config.getVerbose,
      Config.getDelete, Config.getSimulateSkills, Config.getModularMcp,
      Config.new, cliThenFile.
    cbn [Config.baseDirs Config.global Config.targets Config.features
         Config.verbose Config.delete Config.simulateSkills Config.modularMcp
         ConfigParams.baseDirs ConfigParams.global
         ConfigParams.experimentalGlobal ConfigParams.targets
         ConfigParams.features ConfigParams.verbose ConfigParams.delete
         ConfigParams.simulateSkills ConfigParams.modularMcp orElse nullish].
    unfold f.
    repeat split;
      repeat match goal with
      | |- context [orElse ?a _] => destruct a; cbn [orElse nullish]
      end;
      reflexivity.
Qed.

(** X17.  When [global] resolves to true -- by the new option or by the
    deprecated one -- resolution succeeds and the base directories of the
    configuration are the home directory alone: the configured base
    directories are neither used nor validated. *)
Theorem global_mode_uses_home_directory :
  resolvedGlobal = true ->
  exists config,
    outcome (ConfigResolver.resolve X params) = Ok config
    /\ Config.getBaseDirs config = [getHomeDirectory X]
    /\ Config.getGlobal config = true.
Proof.
  intros Hglobal. destruct resolve_outcome as [build [Hout Hbuild]].
  exists (build [getHomeDirectory X]).
  destruct (Hbuild [getHomeDirectory X]) as [Hdirs [Hg _]].
  split; [|split; [exact Hdirs|now rewrite Hg]].
  rewrite Hout, Hglobal. reflexivity.
Qed.

(** X18.  In a resolved configuration the options without a deprecated
    synonym ([targets], [features], [verbose], [delete], [simulateSkills],
    [modularMcp]) take the command-line value, else the value of the config
    file, else their default ([agentsmd], [rules], and false); the deprecated
    options do not affect them.  In project mode the base directories are the
    chosen ones (command line, else config file, else the working
    directory), each passed through [resolve]. *)
Theorem options_without_synonym :
  forall config,
    outcome (ConfigResolver.resolve X params) = Ok config ->
    Config.targets config
    = cliThenFile (PartialConfigParams.targets c)
        (PartialConfigParams.targets f) ["agentsmd"]
    /\ Config.features config
       = cliThenFile (PartialConfigParams.features c)
           (PartialConfigParams.features f) ["rules"]
    /\ Config.getVerbose config
       = cliThenFile (PartialConfigParams.verbose c)
           (PartialConfigParams.verbose f) false
    /\ Config.getDelete config
       = cliThenFile (PartialConfigParams.delete c)
           (PartialConfigParams.delete f) false
    /\ Config.getSimulateSkills config
       = cliThenFile (PartialConfigParams.simulateSkills c)
           (PartialConfigParams.simulateSkills f) false
    /\ Config.getModularMcp config
       = cliThenFile (PartialConfigParams.modularMcp c)
           (PartialConfigParams.modularMcp f) false
    /\ (if resolvedGlobal then True
        else Config.getBaseDirs config = map (resolve X) chosenBaseDirs).
Proof.
  intros config Hc. destruct resolve_outcome as [build [Hout Hbuild]].
  rewrite Hout in Hc.
  destruct (ConfigResolver.getBaseDirsInLightOfGlobal X chosenBaseDirs
              resolvedGlobal) as [dirs|e] eqn:Hdirs; [|discriminate].
  injection Hc as <-.
  destruct (Hbuild dirs) as [Hb [_ [Ht [Hf [Hv [Hd [Hs Hm]]]]]]].
  repeat (split; [assumption|]).
  destruct resolvedGlobal; [exact I|].
  rewrite Hb. unfold ConfigResolver.getBaseDirsInLightOfGlobal in Hdirs.
  destruct (mapM (validateBaseDir X) (map (resolve X) chosenBaseDirs));
    [|discriminate].
  now injection Hdirs as <-.
Qed.

End ResolvedConfiguration.

(** X19.  A config file that exists but cannot be read or parsed stops the
    resolution: the failure is logged once, at error level, and the same
    error is rethrown.  Nothing else is logged -- in particular no
    deprecation warning, whatever options the command line passes. *)
Theorem config_file_failure :
  forall (X : ConfigExternals) (params : ConfigResolver.ResolveParams)
         (validatedConfigPath : string) (e : Error),
    resolvePath X
      (nullish (ConfigResolver.configPath params)
         ConfigResolver.defaultConfigPath)
      (processCwd X)
    = Ok validatedConfigPath ->
    fileExists X validatedConfigPath = true ->
    bind (readFileContent X validatedConfigPath)
         (fun fileContent => parseConfigFile X fileContent)
    = Err e ->
    ConfigResolver.resolve X params = ([configFailure X e], Err e).
Proof.
  intros X params path e Hpath Hexists Hfail.
  unfold ConfigResolver.resolve.
  rewrite Hpath, bindL_ok.
  unfold ConfigResolver.loadConfigByFile.
  rewrite Hexists, Hfail.
  reflexivity.
Qed.

Import MoreExamples.

(** X17: no config file; the command line passes the deprecated
    [experimentalGlobal] and a relative base directory, which validation
    would refuse. *)
Lemma global_mode_uses_home_directory_witness :
  resolvePath (configExternals None)
    (nullish (ConfigResolver.configPath globalByDeprecatedOption)
       ConfigResolver.defaultConfigPath)
    (processCwd (configExternals None))
  = Ok "/work/rulesync.jsonc"
  /\ outcome (ConfigResolver.loadConfigByFile (configExternals None)
                "/work/rulesync.jsonc")
     = Ok PartialConfigParams.empty
  /\ mapM (validateBaseDir (configExternals None)) ["relative/dir"]
     = Err (mkError "Invalid base directory: relative/dir")
  /\ exists config,
       outcome (ConfigResolver.resolve (configExternals None)
                  globalByDeprecatedOption)
       = Ok config
       /\ Config.getBaseDirs config = ["/home/user"]
       /\ Config.getGlobal config = true.
Proof.
  split; [reflexivity|]. split; [reflexivity|]. split; [reflexivity|].
  exact (@global_mode_uses_home_directory (configExternals None)
           globalByDeprecatedOption "/work/rulesync.jsonc"
           PartialConfigParams.empty eq_refl eq_refl eq_refl).
Defined.

(** X18: the config file sets only [global]; the command line passes two
    deprecated options.  Targets and features fall back to their defaults and
    the base directory is the working directory. *)
Lemma options_without_synonym_witness :
  exists config,
    outcome (ConfigResolver.resolve (configExternals (Some configFile))
               commandLine)
    = Ok config
    /\ Config.targets config = ["agentsmd"]
    /\ Config.features config = ["rules"]
    /\ Config.getVerbose config = false
    /\ Config.getDelete config = false
    /\ Config.getSimulateSkills config = false
    /\ Config.getModularMcp config = false
    /\ Config.getBaseDirs config = ["/work"].
Proof.
  eexists. split; [reflexivity|].
  exact (@options_without_synonym (configExternals (Some configFile))
           commandLine "/work/rulesync.jsonc" configFile eq_refl eq_refl
           _ eq_refl).
Defined.

(** X19: the config file is cut off in the middle; the command line passes
    two deprecated options, and no warning about them is logged. *)
Lemma config_file_failure_witness :
  ConfigResolver.resolve brokenConfigExternals commandLine
  = ([(ErrorLevel, "Failed to load config file: Unexpected end of input")],
     Err (mkError "Unexpected end of input")).
Proof.
  exact (@config_file_failure brokenConfigExternals commandLine
           "/work/rulesync.jsonc" (mkError "Unexpected end of input")
           eq_refl eq_refl eq_refl).
Defined.

(** ** Escaping in the references section *)

Lemma escapeQuotes_head (s : string) :
  match escapeQuotes s with
  | String d _ => Ascii.eqb d "034"%char = false
  | EmptyString => True
  end.
Proof.
  destruct s as [|c rest]; cbn [escapeQuotes]; [exact I|].
  destruct (Ascii.eqb c "034"%char) eqn:Hc; [reflexivity|exact Hc].
Qed.

Lemma unescape_cons (c : ascii) (t : string) :
  match t with
  | String d _ => Ascii.eqb d "034"%char = false
  | EmptyString => True
  end ->
  unescapeQuotes (String c t) = String c (unescapeQuotes t).
Proof.
  destruct t as [|d tail]; intros H; cbn [unescapeQuotes]; [reflexivity|].
  now rewrite H, Bool.andb_false_r.
Qed.

Lemma bareQuotes_escaped (s : string) (b : bool) :
  bareQuotes b (escapeQuotes s) = 0.
Proof.
  revert b. induction s as [|c rest IH]; intros b; [reflexivity|].
  cbn [escapeQuotes].
  destruct (Ascii.eqb c "034"%char) eqn:Hc.
  - cbn [bareQuotes]. rewrite IH. reflexivity.
  - cbn [bareQuotes]. rewrite Hc, IH. reflexivity.
Qed.

(** X20.  The escaping of a description in [generateReferencesSection] loses
    nothing and leaves no bare quote: dropping the backslash before each
    double quote gives back the description, every double quote of the
    escaped text directly follows a backslash, and a description without a
    double quote is written as it is. *)
Theorem description_escaping :
  forall description : string,
    unescapeQuotes (escapeQuotes description) = description
    /\ bareQuotes false (escapeQuotes description) = 0
    /\ (if containsStr dquote description then True
        else escapeQuotes description = description).
Proof.
  intros s. split; [|split].
  - induction s as [|c rest IH]; [reflexivity|].
    cbn [escapeQuotes].
    destruct (Ascii.eqb c "034"%char) eqn:Hc.
    + apply Ascii.eqb_eq in Hc. subst c.
      change (unescapeQuotes (String "092" (String "034" (escapeQuotes rest))))
        with (String "034"%char (unescapeQuotes (escapeQuotes rest))).
      now rewrite IH.
    + rewrite unescape_cons by apply escapeQuotes_head. now rewrite IH.
  - apply bareQuotes_escaped.
  - destruct (containsStr dquote s) eqn:Hq; [exact I|].
    induction s as [|c rest IH]; [reflexivity|].
    cbn [escapeQuotes]. cbn [containsStr] in Hq.
    destruct (String.prefix dquote (String c rest)) eqn:Hp; [discriminate|].
    unfold dquote in Hp. cbn [String.prefix] in Hp.
    destruct (Ascii.eqb c "034"%char) eqn:Hc.
    + apply Ascii.eqb_eq in Hc. subst c. cbn in Hp. destruct rest; discriminate.
    + now rewrite IH.
Qed.
